(** * SEC-Client: a shallow embedding of the EDGAR client and its properties

    The development follows the layout of the Python package:
    - [Py]      the Python built-ins the client relies on (str methods,
                ordered dicts, JSON values, exceptions);
    - [_utils.py], [_BaseClient.py], [_DownloadFormManager.py] and
      [EdgarClient.py], each embedded function keeping its source name.

    Text is ASCII: a Python [str] is a Rocq [string]. *)

From Stdlib Require Import ZArith String Ascii List Bool Lia.
Import ListNotations.
Local Open Scope string_scope.
Local Open Scope Z_scope.

(* ================================================================== *)
(** * Python built-ins *)
(* ================================================================== *)

Module Py.

(** ** str *)

Definition chars (s : string) : list ascii := list_ascii_of_string s.
Definition str (l : list ascii) : string := string_of_list_ascii l.

Definition len (s : string) : Z := Z.of_nat (String.length s).

(** [s.startswith(p)] and [s.endswith(p)]. *)
Definition startswith (s p : string) : bool := String.prefix p s.

Definition endswith (s p : string) : bool :=
  String.prefix (str (rev (chars p))) (str (rev (chars s))).

(** [s.lstrip(cs)], [s.rstrip(cs)], [s.strip(cs)]: remove the characters
    of [cs] from the left end, the right end, both ends. *)
Definition mem_ascii (c : ascii) (cs : list ascii) : bool :=
  existsb (Ascii.eqb c) cs.

Fixpoint lstrip_list (cs l : list ascii) : list ascii :=
  match l with
  | [] => []
  | c :: l' => if mem_ascii c cs then lstrip_list cs l' else l
  end.

Definition lstrip (cs s : string) : string :=
  str (lstrip_list (chars cs) (chars s)).

Definition rstrip (cs s : string) : string :=
  str (rev (lstrip_list (chars cs) (rev (chars s)))).

Definition strip (cs s : string) : string := rstrip cs (lstrip cs s).

(** The ASCII characters for which [str.isspace] holds: tab, line feed,
    vertical tab, form feed, carriage return, the four separators
    0x1c-0x1f and the space. *)
Definition whitespace : string :=
  str (map ascii_of_nat [9; 10; 11; 12; 13; 28; 29; 30; 31; 32]%nat).

(** [s.strip()] *)
Definition strip_ws (s : string) : string := strip whitespace s.

(** [s.upper()] *)
Definition upper_ascii (c : ascii) : ascii :=
  let n := nat_of_ascii c in
  if (97 <=? n)%nat && (n <=? 122)%nat then ascii_of_nat (n - 32) else c.

Definition upper (s : string) : string := str (map upper_ascii (chars s)).

(** [s.lower()] *)
Definition lower_ascii (c : ascii) : ascii :=
  let n := nat_of_ascii c in
  if (65 <=? n)%nat && (n <=? 90)%nat then ascii_of_nat (n + 32) else c.

Definition lower (s : string) : string := str (map lower_ascii (chars s)).

(** [s.zfill(width)]: pad with zeros on the left, after a leading sign. *)
Definition zeros (n : nat) : string := str (repeat "0"%char n).

Definition zfill (width : Z) (s : string) : string :=
  let fill := Z.to_nat (width - len s) in
  match s with
  | String c s' =>
      if mem_ascii c ["+"; "-"]%char
      then String c (zeros fill ++ s')
      else zeros fill ++ s
  | EmptyString => zeros fill
  end.

(** [s.replace(old, new)]: every non-overlapping occurrence of [old],
    scanning from the left.  [skip] counts the characters of a matched
    occurrence still to be dropped. *)
Fixpoint replace_from (old new : string) (skip : nat) (s : string) : string :=
  match s with
  | EmptyString => EmptyString
  | String c s' =>
      match skip with
      | S k => replace_from old new k s'
      | O =>
          if String.prefix old s
          then new ++ replace_from old new (String.length old - 1) s'
          else String c (replace_from old new O s')
      end
  end.

(** With an empty [old], Python puts [new] before every character and at
    the end. *)
Fixpoint intersperse_all (new s : string) : string :=
  match s with
  | EmptyString => new
  | String c s' => new ++ String c (intersperse_all new s')
  end.

Definition replace (old new s : string) : string :=
  match old with
  | EmptyString => intersperse_all new s
  | _ => replace_from old new O s
  end.

(** [sep.join(l)] *)
Definition join (sep : string) (l : list string) : string := String.concat sep l.

(** [s.rfind(c)] for a single character: the index of its last
    occurrence, or -1. *)
Fixpoint rfind_from (c : ascii) (i : Z) (last : Z) (l : list ascii) : Z :=
  match l with
  | [] => last
  | d :: l' => rfind_from c (i + 1) (if Ascii.eqb d c then i else last) l'
  end.

Definition rfind (s : string) (c : ascii) : Z := rfind_from c 0 (-1) (chars s).

(** [s[i:]] for [0 <= i]. *)
Definition slice_from (s : string) (i : Z) : string :=
  str (skipn (Z.to_nat i) (chars s)).

(** [s.split(c)] for a single character separator. *)
Fixpoint split_list (c : ascii) (cur : list ascii) (l : list ascii) : list string :=
  match l with
  | [] => [str (rev cur)]
  | d :: l' =>
      if Ascii.eqb d c then str (rev cur) :: split_list c [] l'
      else split_list c (d :: cur) l'
  end.

Definition split (s : string) (c : ascii) : list string := split_list c [] (chars s).

(** [str(n)] for an int. *)
Definition digit_char (d : Z) : ascii := ascii_of_nat (48 + Z.to_nat d).

Fixpoint digits_of (fuel : nat) (n : Z) (acc : list ascii) : list ascii :=
  match fuel with
  | O => acc
  | S f =>
      let acc' := digit_char (n mod 10) :: acc in
      if n <? 10 then acc' else digits_of f (n / 10) acc'
  end.

Definition str_of_int (n : Z) : string :=
  let body := str (digits_of (S (Z.to_nat (Z.log2 (Z.abs n)))) (Z.abs n) []) in
  if n <? 0 then String "-" body else body.

(** [int(s)] succeeds (base 10): optional surrounding whitespace, an
    optional sign, then digits where single underscores may separate
    digits. *)
Definition is_digit (c : ascii) : bool :=
  let n := nat_of_ascii c in (48 <=? n)%nat && (n <=? 57)%nat.

(** [prev_digit] tells whether the previous character was a digit. *)
Fixpoint digits_ok (prev_digit : bool) (l : list ascii) : bool :=
  match l with
  | [] => prev_digit
  | c :: l' =>
      if is_digit c then digits_ok true l'
      else if Ascii.eqb c "_"%char then prev_digit && digits_ok false l'
      else false
  end.

Definition int_parses (s : string) : bool :=
  match chars (strip_ws s) with
  | c :: l => if mem_ascii c ["+"; "-"]%char then digits_ok false l
              else digits_ok false (c :: l)
  | [] => false
  end.

(** [s.find(p)]: the index of the first occurrence of [p] in [s]. *)
Fixpoint find_from (p : string) (i : Z) (s : string) : option Z :=
  if String.prefix p s then Some i
  else match s with
       | EmptyString => None
       | String _ s' => find_from p (i + 1) s'
       end.

Definition find (s p : string) : option Z := find_from p 0 s.

(** ** Ordered dicts with [str] keys

    A Python dict keeps its keys in insertion order; assigning to a key
    that is present keeps the key's place. *)

Definition dict (V : Type) : Type := list (string * V).

Fixpoint dict_get {V} (k : string) (d : dict V) : option V :=
  match d with
  | [] => None
  | (k', v) :: d' => if String.eqb k k' then Some v else dict_get k d'
  end.

(** [d[k] = v] *)
Fixpoint dict_set {V} (k : string) (v : V) (d : dict V) : dict V :=
  match d with
  | [] => [(k, v)]
  | (k', v') :: d' =>
      if String.eqb k k' then (k, v) :: d' else (k', v') :: dict_set k v d'
  end.

Definition dict_keys {V} (d : dict V) : list string := map fst d.
Definition dict_values {V} (d : dict V) : list V := map snd d.
Definition dict_has {V} (k : string) (d : dict V) : bool :=
  match dict_get k d with Some _ => true | None => false end.

(** [d.update(e)] *)
Definition dict_update {V} (d e : dict V) : dict V :=
  fold_left (fun acc kv => dict_set (fst kv) (snd kv) acc) e d.

(** [requests.structures.CaseInsensitiveDict]: an entry is found by the
    lower-case form of its key; setting a key that is present, in
    whatever case, keeps the entry's place and takes the new spelling
    of the key. *)
Fixpoint ci_get {V} (k : string) (d : dict V) : option V :=
  match d with
  | [] => None
  | (k', v) :: d' => if String.eqb (lower k) (lower k') then Some v else ci_get k d'
  end.

Fixpoint ci_set {V} (k : string) (v : V) (d : dict V) : dict V :=
  match d with
  | [] => [(k, v)]
  | (k', v') :: d' =>
      if String.eqb (lower k) (lower k') then (k, v) :: d' else (k', v') :: ci_set k v d'
  end.

(** [d.update(e)] on a [CaseInsensitiveDict] [d]. *)
Definition ci_update {V} (d e : dict V) : dict V :=
  fold_left (fun acc kv => ci_set (fst kv) (snd kv) acc) e d.

(** [x in l] for a list of [str]. *)
Definition str_in (x : string) (l : list string) : bool := existsb (String.eqb x) l.

(** ** JSON values, as [Response.json()] and [json.load] return them.
    Numbers are ints; the client never inspects a float. *)

#[warnings="-register-all"]
Inductive json : Type :=
| JNull
| JBool (b : bool)
| JInt (n : Z)
| JStr (s : string)
| JArr (l : list json)
| JObj (d : list (string * json)).

(** ** Exceptions *)

(** The exceptions of the [requests] library, all subclasses of
    [requests.exceptions.RequestException]. *)
Inductive RequestException : Type :=
| HTTPError
| ConnectionError
| Timeout
| RetryError
| OtherRequestException (name : string).

Inductive exn : Type :=
| ValueError (msg : string)
| KeyError (key : string)
| IndexError
| TypeError
| AttributeError
| JSONDecodeError
| SystemExit
| Requests (e : RequestException)
| EdgarAPIError (exception : RequestException) (status_code : option Z) (url : option string).

Inductive result (A : Type) : Type :=
| Return (a : A)
| Raise (e : exn).
Arguments Return {A} a.
Arguments Raise {A} e.

Definition rbind {A B} (r : result A) (k : A -> result B) : result B :=
  match r with
  | Return a => k a
  | Raise e => Raise e
  end.

Fixpoint rmap {A B} (f : A -> result B) (l : list A) : result (list B) :=
  match l with
  | [] => Return []
  | x :: l' =>
      rbind (f x) (fun y => rbind (rmap f l') (fun ys => Return (y :: ys)))
  end.

(** ** Operations on JSON values *)

(** [j[k]] with a [str] key. *)
Definition getitem (j : json) (k : string) : result json :=
  match j with
  | JObj d =>
      match dict_get k d with
      | Some v => Return v
      | None => Raise (KeyError k)
      end
  | _ => Raise TypeError
  end.

(** [j[i]] with an int index [0 <= i]. *)
Definition getindex (j : json) (i : Z) : result json :=
  match j with
  | JArr l =>
      match nth_error l (Z.to_nat i) with
      | Some v => Return v
      | None => Raise IndexError
      end
  | JStr s =>
      match nth_error (chars s) (Z.to_nat i) with
      | Some c => Return (JStr (String c EmptyString))
      | None => Raise IndexError
      end
  | JObj _ => Raise (KeyError (str_of_int i))
  | _ => Raise TypeError
  end.

(** [iter(j)], run to the end: the elements of a list, the characters of a
    str, the keys of a dict. *)
Definition iter (j : json) : result (list json) :=
  match j with
  | JArr l => Return l
  | JStr s => Return (map (fun c => JStr (String c EmptyString)) (chars s))
  | JObj d => Return (map (fun kv => JStr (fst kv)) d)
  | _ => Raise TypeError
  end.

(** [j.keys()] *)
Definition keys (j : json) : result (list string) :=
  match j with
  | JObj d => Return (dict_keys d)
  | _ => Raise AttributeError
  end.

(** [bool(j)] *)
Definition truthy (j : json) : bool :=
  match j with
  | JNull => false
  | JBool b => b
  | JInt n => negb (n =? 0)
  | JStr s => negb (String.eqb s "")
  | JArr l => match l with [] => false | _ => true end
  | JObj d => match d with [] => false | _ => true end
  end.

(** [j.index(x)] for a [str] [x]: the position of the first element equal
    to [x] in a list, of the first occurrence of [x] in a str. *)
Fixpoint list_index (x : string) (i : Z) (l : list json) : option Z :=
  match l with
  | [] => None
  | JStr s :: l' => if String.eqb s x then Some i else list_index x (i + 1) l'
  | _ :: l' => list_index x (i + 1) l'
  end.

Definition index (j : json) (x : string) : result Z :=
  match j with
  | JArr l =>
      match list_index x 0 l with
      | Some i => Return i
      | None => Raise (ValueError (String.append x " is not in list"))
      end
  | JStr s =>
      match find s x with
      | Some i => Return i
      | None => Raise (ValueError "substring not found")
      end
  | _ => Raise AttributeError
  end.

(** [zip(a, b, c, d, strict=True)], run to the end: the rows it yields, and
    whether it ends normally.  It yields a row while all four arguments
    have an element and ends normally when all four are exhausted
    together; when only some are exhausted it raises [ValueError] after
    the rows already yielded. *)
Fixpoint zip_strict {A B C D} (a : list A) (b : list B) (c : list C) (d : list D)
  : list (A * B * C * D) * bool :=
  match a, b, c, d with
  | x :: a', y :: b', z :: c', w :: d' =>
      let (rows, ok) := zip_strict a' b' c' d' in ((x, y, z, w) :: rows, ok)
  | [], [], [], [] => ([], true)
  | _, _, _, _ => ([], false)
  end.

End Py.

Import Py.

(* ================================================================== *)
(** * [_types.py] *)
(* ================================================================== *)

(** [datetime.date]; dates compare as (year, month, day). *)
Record date : Type := mkdate { year : Z; month : Z; day : Z }.

Definition date_ltb (a b : date) : bool :=
  (year a <? year b)
  || ((year a =? year b)
      && ((month a <? month b) || ((month a =? month b) && (day a <? day b)))).

Definition date_eqb (a b : date) : bool :=
  (year a =? year b) && (month a =? month b) && (day a =? day b).

(** [a <= b] and [a > b] on dates. *)
Definition date_leb (a b : date) : bool := date_ltb a b || date_eqb a b.
Definition date_gtb (a b : date) : bool := date_ltb b a.

(** A [pathlib.Path] on a POSIX host: its root (empty for a relative
    path, otherwise "/" or "//") and the parts below the root. *)
Record Path : Type := mkPath { root : string; parts : list string }.

(** The parts of a str: its segments between slashes, without the empty
    ones and the "." ones. *)
Definition path_parts (s : string) : list string :=
  filter (fun seg => negb (String.eqb seg "") && negb (String.eqb seg "."))
         (split s "/"%char).

(** The root of a str: "//" for exactly two leading slashes, "/" for any
    other number of them. *)
Definition path_root (s : string) : string :=
  if startswith s "/" then
    if startswith s "//" && negb (startswith s "///") then "//" else "/"
  else "".

(** [Path(s)] *)
Definition Path_of (s : string) : Path := mkPath (path_root s) (path_parts s).

(** [p / s]: an absolute [s] replaces [p]. *)
Definition path_join (p : Path) (s : string) : Path :=
  if String.eqb (path_root s) "" then mkPath (root p) (parts p ++ path_parts s)%list
  else Path_of s.

(** [str(p)] and [f'{p}'] *)
Definition fspath (p : Path) : string :=
  match root p, parts p with
  | EmptyString, [] => "."
  | r, l => r ++ join "/" l
  end.

(** [DownloadPath = Union[str, Path]] *)
Inductive DownloadPath : Type :=
| OfPath (p : Path)
| OfStr (s : string).

Record FormsDownloadMetadata : Type := mkFormsDownloadMetadata {
  download_folder : Path;
  forms : list string;
  cik : string;
  ticker : option string;
  limit : Z;
  after : date;
  before : date;
  include_amends : bool;
  download_details : bool
}.

Record FormToDownload : Type := mkFormToDownload {
  form : string;
  raw_filing_uri : string;
  primary_doc_uri : string;
  accession_number : string;
  details_doc_suffix : string
}.

(* ================================================================== *)
(** * The world the client runs in *)
(* ================================================================== *)

(** A [requests.Response]: [json_body] is [None] when [.json()] raises. *)
Record Response : Type := mkResponse {
  status_code : Z;
  url : string;
  json_body : option json;
  content : string
}.

(** [resp.url] *)
Definition Response_url (resp : Response) : string := url resp.

(** What [Session.get] does with a request: it returns a response, or it
    raises (connection failure, time-out, or [RetryError] once the
    adapter's [Retry] policy has used up its retries). *)
Inductive session_outcome : Type :=
| Responds (r : Response)
| SessionRaises (e : RequestException).

(** A [pandas.DataFrame] over a [RangeIndex] of [nrows] rows; a cell is
    [None] where pandas holds NaN. *)
Definition cell : Type := option json.

Record DataFrame (L : Type) : Type := mkDataFrame {
  nrows : nat;
  columns : list (L * list cell)
}.
Arguments mkDataFrame {L} nrows columns.
Arguments nrows {L} d.
Arguments columns {L} d.

(** The four levels of the facts tables' column [MultiIndex]. *)
Definition multi_label : Type := (string * string * string * string)%type.

Inductive file_content : Type :=
| Bytes (b : string)
| Pickle (df : DataFrame multi_label).

(** What a run does, in order.  [Accepted] is a ghost event: it marks
    [filings_to_download.append] in the aggregator. *)
Inductive event : Type :=
| Request (url : string) (headers : dict string)
| Accepted (f : FormToDownload)
| WriteFile (path : string) (c : file_content)
| Log (level : string) (msg : string)
| LogExn (level : string) (msg : string) (e : exn).

Record world : Type := mkworld {
  trace : list event;
  files : dict file_content
}.

(** Computations that read and change the world and may raise. *)
Definition M (A : Type) : Type := world -> result A * world.

Definition ret {A} (a : A) : M A := fun w => (Return a, w).
Definition raise {A} (e : exn) : M A := fun w => (Raise e, w).

Definition bind {A B} (c : M A) (k : A -> M B) : M B :=
  fun w =>
    match c w with
    | (Return a, w') => k a w'
    | (Raise e, w') => (Raise e, w')
    end.

Definition lift {A} (r : result A) : M A := fun w => (r, w).

Definition emit (e : event) : M unit :=
  fun w => (Return tt, mkworld (trace w ++ [e])%list (files w)).

Declare Scope py_scope.
Delimit Scope py_scope with py.
Notation "x <- c1 ;; c2" := (bind c1 (fun x => c2))
  (at level 61, c1 at next level, right associativity) : py_scope.
Notation "c1 ;; c2" := (bind c1 (fun _ => c2))
  (at level 61, right associativity) : py_scope.
Local Open Scope py_scope.

(** [try: body  except Exception as e: handler(e)]; [SystemExit] is not
    an [Exception] and passes through. *)
Definition try_except {A} (body : M A) (handler : exn -> M A) : M A :=
  fun w =>
    match body w with
    | (Raise SystemExit, w') => (Raise SystemExit, w')
    | (Raise e, w') => handler e w'
    | r => r
    end.

(** [for x in l: s = body(x, s)] *)
Fixpoint for_each {A S} (l : list A) (body : A -> S -> M S) (s : S) : M S :=
  match l with
  | [] => ret s
  | x :: l' => s' <- body x s ;; for_each l' body s'
  end.

(** [logger.info(msg)] and the like. *)
Definition logger (level msg : string) : M unit := emit (Log level msg).

(** [os.path.exists(p)] *)
Definition os_path_exists (p : string) : M bool :=
  fun w => (Return (dict_has p (files w)), w).

(** Writing a whole file; the target directory exists. *)
Definition write_file (p : string) (c : file_content) : M unit :=
  fun w => (Return tt, mkworld (trace w ++ [WriteFile p c])%list (dict_set p c (files w))).

(* ================================================================== *)
(** * [_constants.py] and the libraries
    
    [_constants.py] is not part of the sources at hand: its names are
    fields of [Constants].  A URL template stands for its [.format]. *)
(* ================================================================== *)

Record Constants : Type := mkConstants {
  AMENDS_SUFFIX : string;
  CIK_LENGTH : Z;
  DATE_FORMAT_TOKENS : string;
  DEFAULT_AFTER_DATE : date;
  DEFAULT_BEFORE_DATE : date;
  SUPPORTED_FORMS : list string;
  STANDARD_HEADERS : dict string;
  HOST_DATA_SEC : string;
  HOST_WWW_SEC : string;
  URL_SUBMISSIONS : string -> string;
  URL_PAGINATED_SUBMISSIONS : string -> string;
  URL_FILING : string -> string -> string -> string;
  URL_CIK_MAPPING : string;
  ROOT_FORMS_SAVE_FOLDER_NAME : string;
  ROOT_FACTS_SAVE_FOLDER_NAME : string;
  FORM_FULL_SUBMISSION_FILENAME : string;
  PRIMARY_DOC_FILENAME_STEM : string
}.

(** Library behaviour the development leaves open:
    - [strptime fmt s] is [datetime.strptime(s, fmt).date()], [None] when
      it raises [ValueError];
    - [session_get] is [Session.get] on the mounted adapters, which may
      answer differently as the run proceeds;
    - [default_headers] are the headers of a fresh [requests.Session];
    - [py_repr] is [str] of a list or a dict;
    - [DataFrame_other] is [pandas.DataFrame(j)] when [j] is not a list
      of records;
    - [cwd] is [Path.cwd()];
    - [expanduser_resolve s] is [Path(s).expanduser().resolve()]. *)
Record Libraries : Type := mkLibraries {
  strptime : string -> string -> option date;
  session_get : list event -> string -> dict string -> session_outcome;
  default_headers : dict string;
  py_repr : json -> string;
  DataFrame_other : json -> result (DataFrame string);
  cwd : Path;
  expanduser_resolve : string -> Path
}.

(** The client object: [BaseClient], [DownloadFormManager] and
    [EdgarClient] share one [self]. *)
Record EdgarClient : Type := mkEdgarClient {
  user_agent : string;
  session_headers : dict string;
  parent_download_folder : Path;
  facts_save_folder : Path;
  forms_save_folder : Path;
  ticker_to_cik_mapping : dict string;
  cik_to_ticker_mapping : dict string;
  cik_to_name : dict string
}.

(** A zip archive on disk: its file name, and per member the value
    [json.load] yields ([None] when it raises). *)
Record ZipArchive : Type := mkZipArchive {
  zip_name : string;
  members : dict (option json)
}.

(** How a page leaves the aggregator's [for] loop: the early [return] at
    the limit, or the end of the rows. *)
Inductive page_outcome : Type :=
| Returned (filings_to_download : list FormToDownload)
| Continue (filings_to_download : list FormToDownload) (fetched_count : Z).

(** [sys.maxsize] on a 64-bit build. *)
Definition sys_maxsize : Z := 2 ^ 63 - 1.

(** ** pandas *)

(** The column labels of [DataFrame(rows)]: the keys of the records in
    order of first appearance. *)
Definition union_keys (rows : list (dict json)) : list string :=
  fold_left
    (fun acc r =>
       fold_left (fun acc k => if str_in k acc then acc else (acc ++ [k])%list)
                 (dict_keys r) acc)
    rows [].

Definition DataFrame_records (rows : list (dict json)) : DataFrame string :=
  mkDataFrame (length rows)
              (map (fun c => (c, map (dict_get c) rows)) (union_keys rows)).

Fixpoint as_records (l : list json) : option (list (dict json)) :=
  match l with
  | [] => Some []
  | JObj d :: l' =>
      match as_records l' with
      | Some rows => Some (d :: rows)
      | None => None
      end
  | _ => None
  end.

(** [df.columns] as a list of labels. *)
Definition column_labels {L} (df : DataFrame L) : list L := map fst (columns df).

(** [df[c] = np.nan] for a label [c] the frame does not have. *)
Definition add_nan_column (c : string) (df : DataFrame string) : DataFrame string :=
  mkDataFrame (nrows df) (columns df ++ [(c, repeat None (nrows df))])%list.

(** [df.columns = pd.MultiIndex.from_product([[a], [b], [c], df.columns])] *)
Definition set_multi_index (a b c : string) (df : DataFrame string)
  : DataFrame multi_label :=
  mkDataFrame (nrows df) (map (fun col => ((a, b, c, fst col), snd col)) (columns df)).

(** [pd.concat(dfs, axis=1)]: the frames side by side over the union of
    their indexes, shorter columns filled with NaN. *)
Definition pad_column (n : nat) (v : list cell) : list cell :=
  (v ++ repeat None (n - length v))%list.

Definition concat_axis1 {L} (dfs : list (DataFrame L)) : result (DataFrame L) :=
  match dfs with
  | [] => Raise (ValueError "No objects to concatenate")
  | _ =>
      let n := fold_left Nat.max (map nrows dfs) O in
      Return (mkDataFrame n
                (flat_map (fun df => map (fun col => (fst col, pad_column n (snd col)))
                                         (columns df)) dfs))
  end.

(** [df.sort_index()]: the rows are already in index order. *)
Definition sort_index {L} (df : DataFrame L) : DataFrame L := df.

(** [repr] of a list and of a non-empty set of plain strings, for log
    messages. *)
Definition repr_str_list (l : list string) : string :=
  "[" ++ join ", " (map (fun s => "'" ++ s ++ "'") l) ++ "]".

Definition repr_str_set (l : list string) : string :=
  "{" ++ join ", " (map (fun s => "'" ++ s ++ "'") l) ++ "}".

(** [re.search(r'\d{4}-\d{2}-\d{2}', s).group(0)] *)
Definition date_pattern_at (l : list ascii) : bool :=
  match l with
  | y1 :: y2 :: y3 :: y4 :: h1 :: m1 :: m2 :: h2 :: d1 :: d2 :: _ =>
      forallb is_digit [y1; y2; y3; y4; m1; m2; d1; d2]
      && Ascii.eqb h1 "-"%char && Ascii.eqb h2 "-"%char
  | _ => false
  end.

Fixpoint search_date_list (l : list ascii) : option string :=
  if date_pattern_at l then Some (str (firstn 10 l))
  else match l with
       | [] => None
       | _ :: l' => search_date_list l'
       end.

Definition search_date (s : string) : option string := search_date_list (chars s).

(** ** pathlib: [Path(doc).suffix] on a POSIX path *)

(** [Path(doc).name]: the last segment that is neither empty nor ".". *)
Definition path_name (doc : string) : string :=
  last (filter (fun seg => negb (String.eqb seg "") && negb (String.eqb seg "."))
               (split doc "/"%char)) "".

Definition path_suffix (doc : string) : string :=
  let name := path_name doc in
  let i := rfind name "."%char in
  if (0 <? i) && (i <? len name - 1) then slice_from name i else "".

(** The XBRL endpoints of [_constants.py]; a URL template stands for its
    [.format]. *)
Record XbrlConstants : Type := mkXbrlConstants {
  URL_XBRL_COMPANY_CONCEPTS : string -> string -> string -> string;
  URL_XBRL_COMPANY_FACTS : string -> string;
  URL_XBRL_COMPANY_FACTS_ZIP : string;
  URL_XBRL_COMPANY_SUBMISSIONS_ZIP : string
}.

(** More library behaviour left open:
    - [strftime_now] is [datetime.now().strftime("%Y-%m-%d")], which may
      change as the run proceeds;
    - [json_dumps] is the text [json.dump] writes;
    - [frame_repr] is the text [print] shows for a frame. *)
Record Runtime : Type := mkRuntime {
  strftime_now : list event -> string;
  json_dumps : json -> string;
  frame_repr : DataFrame string -> string
}.

(* ================================================================== *)
(** * Shapes of the archive's data *)
(* ================================================================== *)

(** A page of parallel arrays as a JSON object, and its array under a
    key. *)
Definition page_obj (p : dict (list json)) : json :=
  JObj (map (fun kv => (fst kv, JArr (snd kv))) p).

Definition column (k : string) (p : dict (list json)) : list json :=
  match dict_get k p with
  | Some l => l
  | None => []
  end.

(** A facts document by its levels: taxonomy, tag, unit, and the event
    rows of the unit; and the JSON of a document. *)
Definition facts_doc : Type := dict (dict (dict (list (dict json)))).

Definition units_json (units : dict (list (dict json))) : json :=
  JObj (map (fun u => (fst u, JArr (map JObj (snd u)))) units).

Definition tags_json (tags : dict (dict (list (dict json)))) : json :=
  JObj (map (fun tg => (fst tg, JObj [("units", units_json (snd tg))])) tags).

Definition facts_json (entity : string) (facts : facts_doc) : json :=
  JObj [("entityName", JStr entity);
        ("facts", JObj (map (fun tx => (fst tx, tags_json (snd tx))) facts))].

(** The units of a document in the order the loops visit them. *)
Definition unit_group : Type := (string * string * string * list (dict json))%type.

Definition groups (facts : facts_doc) : list unit_group :=
  flat_map (fun tx =>
    flat_map (fun tg =>
      map (fun u => (fst tx, fst tg, fst u, snd u)) (snd tg))
      (snd tx))
    facts.

(** A dict has each key once, at every level of the document. *)
Definition well_formed (facts : facts_doc) : Prop :=
  NoDup (dict_keys facts)
  /\ forall tx, In tx facts ->
       NoDup (dict_keys (snd tx))
       /\ forall tg, In tg (snd tx) -> NoDup (dict_keys (snd tg)).

(** A row of a page of the archive: accession number, form, primary
    document and filing date; and the page of parallel arrays that lists
    the rows. *)
Definition filing_row : Type := (string * string * string * string)%type.

Definition row_json (r : filing_row) : json * json * json * json :=
  let '(acc_num, form, doc, f_date) := r in (JStr acc_num, JStr form, JStr doc, JStr f_date).

Definition rows_page (rows : list filing_row) : json :=
  page_obj [("accessionNumber", map (fun r => fst (fst (fst (row_json r)))) rows);
            ("form", map (fun r => snd (fst (fst (row_json r)))) rows);
            ("primaryDocument", map (fun r => snd (fst (row_json r))) rows);
            ("filingDate", map (fun r => snd (row_json r)) rows)].

(** [l[:n]] *)
Fixpoint take {A} (n : Z) (l : list A) : list A :=
  match l with
  | [] => []
  | x :: l' => if 0 <? n then x :: take (n - 1) l' else []
  end.

(** The number of pages read when there is room for [room] more filings
    and the pages ahead hold [counts] matching filings: a page is read,
    and the pages after it as long as it leaves room. *)
Fixpoint pages_read (room : Z) (counts : list Z) : nat :=
  match counts with
  | [] => O
  | c :: rest => S (if c <? room then pages_read (room - c) rest else O)
  end.

(** A member of the bulk archive: a facts document with the CIK of its
    company. *)
Definition member_json (cik : json) (entity : string) (facts : facts_doc) : json :=
  JObj [("cik", cik); ("entityName", JStr entity);
        ("facts", JObj (map (fun tx => (fst tx, tags_json (snd tx))) facts))].

(* ================================================================== *)
(** * A configuration for the examples
 
    The properties below hold for every [Constants] and every
    [Libraries]; the examples run the client on this instance. *)
(* ================================================================== *)

Module Example.

Definition constants : Constants := {|
  AMENDS_SUFFIX := "/A";
  CIK_LENGTH := 10;
  DATE_FORMAT_TOKENS := "%Y-%m-%d";
  DEFAULT_AFTER_DATE := mkdate 1994 1 1;
  DEFAULT_BEFORE_DATE := mkdate 2026 11 3;
  SUPPORTED_FORMS := ["10-K"; "10-K/A"; "10-Q"; "8-K"; "4"; "SC 13G"];
  STANDARD_HEADERS := [("Accept-Encoding", "gzip, deflate")];
  HOST_DATA_SEC := "data.sec.gov";
  HOST_WWW_SEC := "www.sec.gov";
  URL_SUBMISSIONS := fun cik => "https://data.sec.gov/submissions/CIK" ++ cik ++ ".json";
  URL_PAGINATED_SUBMISSIONS := fun name => "https://data.sec.gov/submissions/" ++ name;
  URL_FILING := fun cik acc_num_no_dash document =>
    "https://www.sec.gov/Archives/edgar/data/" ++ cik ++ "/" ++ acc_num_no_dash
    ++ "/" ++ document;
  URL_CIK_MAPPING := "https://www.sec.gov/files/company_tickers_exchange.json";
  ROOT_FORMS_SAVE_FOLDER_NAME := "sec-edgar-filings";
  ROOT_FACTS_SAVE_FOLDER_NAME := "sec-edgar-facts";
  FORM_FULL_SUBMISSION_FILENAME := "full-submission.txt";
  PRIMARY_DOC_FILENAME_STEM := "primary-document"
|}.

(** Dates written [YYYY-MM-DD] with two-digit month and day. *)
Definition digit_val (c : ascii) : Z := Z.of_nat (nat_of_ascii c) - 48.

Definition iso_date (fmt s : string) : option date :=
  match chars s with
  | [y1; y2; y3; y4; _; m1; m2; _; d1; d2] =>
      let y := 1000 * digit_val y1 + 100 * digit_val y2 + 10 * digit_val y3 + digit_val y4 in
      let m := 10 * digit_val m1 + digit_val m2 in
      let d := 10 * digit_val d1 + digit_val d2 in
      if date_pattern_at (chars s) && (1 <=? m) && (m <=? 12) && (1 <=? d) && (d <=? 31)
      then Some (mkdate y m d) else None
  | _ => None
  end.

(** A server that answers by URL from a table and refuses any other
    connection. *)
Definition serve (pages : dict Response)
  : list event -> string -> dict string -> session_outcome :=
  fun _ url _ =>
    match dict_get url pages with
    | Some r => Responds r
    | None => SessionRaises ConnectionError
    end.

Definition session_defaults : dict string :=
  [("User-Agent", "python-requests"); ("Accept-Encoding", "gzip, deflate");
   ("Accept", "*/*"); ("Connection", "keep-alive")].

(** The host of the examples: the current directory is [/data], and a
    relative folder resolves against it. *)
Definition libraries (pages : dict Response) : Libraries := {|
  strptime := iso_date;
  session_get := serve pages;
  default_headers := session_defaults;
  py_repr := fun _ => "";
  DataFrame_other := fun _ => Raise TypeError;
  cwd := mkPath "/" ["data"];
  expanduser_resolve := fun s => path_join (mkPath "/" ["data"]) s
|}.

Definition ok_json (u : string) (j : json) : Response := mkResponse 200 u (Some j) "".

Definition strs (l : list string) : json := JArr (map JStr l).

(** A parallel-array page. *)
Definition page (accs forms docs dates : list string) : json :=
  JObj [("accessionNumber", strs accs); ("form", strs forms);
        ("primaryDocument", strs docs); ("filingDate", strs dates)].

Definition client : EdgarClient := {|
  user_agent := "Sample Company admin@sample.com";
  session_headers := [("User-Agent", "Sample Company admin@sample.com");
                      ("Accept-Encoding", "gzip, deflate");
                      ("Accept", "*/*"); ("Connection", "keep-alive");
                      ("Host", "data.sec.gov")];
  parent_download_folder := mkPath "/" ["data"];
  facts_save_folder := mkPath "/" ["data"; "sec-edgar-facts"];
  forms_save_folder := mkPath "/" ["data"; "sec-edgar-filings"];
  ticker_to_cik_mapping := [("AAPL", "0000320193"); ("MMM", "0000066740")];
  cik_to_ticker_mapping := [("0000320193", "AAPL"); ("0000066740", "MMM")];
  cik_to_name := [("0000320193", "AAPL"); ("0000066740", "MMM")]
|}.

Definition empty_world : world := mkworld [] [].

(** A server out of reach: the adapter gives up after its retries. *)
Definition unreachable : Libraries := {|
  strptime := iso_date;
  session_get := fun _ _ _ => SessionRaises RetryError;
  default_headers := session_defaults;
  py_repr := fun _ => "";
  DataFrame_other := fun _ => Raise TypeError;
  cwd := mkPath "/" ["data"];
  expanduser_resolve := fun s => path_join (mkPath "/" ["data"]) s
|}.

(** A filing history of two pages: three recent filings and one more on
    a continuation page. *)
Definition recent_page : dict (list json) :=
  [("accessionNumber", map JStr ["0000320193-20-000010"; "0000320193-20-000020";
                                "0000320193-20-000030"]);
   ("form", map JStr ["10-K"; "10-Q"; "10-K"]);
   ("primaryDocument", map JStr ["a10k.htm"; "a10q.htm"; "b10k.htm"]);
   ("filingDate", map JStr ["2020-03-01"; "2020-05-01"; "2020-11-01"])].

Definition older_page : dict (list json) :=
  [("accessionNumber", [JStr "0000320193-19-000010"]);
   ("form", [JStr "10-K"]);
   ("primaryDocument", [JStr "c10k.htm"]);
   ("filingDate", [JStr "2019-03-01"])].

Definition submissions : json :=
  JObj [("cik", JStr "320193");
        ("filings",
         JObj [("recent", page_obj recent_page);
               ("files", JArr [JObj [("name", JStr "CIK0000320193-submissions-001.json")]])])].

Definition archive_pages : dict Response :=
  [("https://data.sec.gov/submissions/CIK0000320193.json",
    ok_json "https://data.sec.gov/submissions/CIK0000320193.json" submissions);
   ("https://data.sec.gov/submissions/CIK0000320193-submissions-001.json",
    ok_json "https://data.sec.gov/submissions/CIK0000320193-submissions-001.json"
            (page_obj older_page))].

(** A request for 10-K filings of 2020, at most [limit] of them. *)
Definition metadata (limit : Z) : FormsDownloadMetadata := {|
  download_folder := mkPath "/" ["data"];
  forms := ["10-K"];
  cik := "0000320193";
  ticker := Some "AAPL";
  limit := limit;
  after := mkdate 2020 1 1;
  before := mkdate 2020 12 31;
  include_amends := false;
  download_details := false
|}.

(** The directory of companies. *)
Definition directory : json :=
  JObj [("fields", JArr (map JStr ["cik"; "name"; "ticker"; "exchange"]));
        ("data", JArr [JArr [JInt 320193; JStr "Apple Inc."; JStr "AAPL"; JStr "Nasdaq"];
                       JArr [JInt 66740; JStr "3M CO"; JStr "MMM"; JStr "NYSE"]])].

Definition directory_pages : dict Response :=
  [("https://www.sec.gov/files/company_tickers_exchange.json",
    ok_json "https://www.sec.gov/files/company_tickers_exchange.json" directory)].

(** Two events of one unit; the second carries no [val]. *)
Definition event_full : dict json :=
  [("start", JStr "2019-09-29"); ("end", JStr "2020-09-26"); ("val", JInt 57411000000);
   ("accn", JStr "0000320193-20-000096"); ("fy", JInt 2020); ("fp", JStr "FY");
   ("form", JStr "10-K"); ("filed", JStr "2020-10-30"); ("frame", JStr "CY2020")].

Definition event_without_val : dict json :=
  [("start", JStr "2020-09-27"); ("end", JStr "2021-09-25");
   ("accn", JStr "0000320193-21-000105"); ("fy", JInt 2021); ("fp", JStr "FY");
   ("form", JStr "10-K"); ("filed", JStr "2021-10-29"); ("frame", JStr "CY2021")].

Definition facts : facts_doc :=
  [("us-gaap", [("NetIncomeLoss", [("USD", [event_full; event_without_val])])])].

(** A unit none of whose events carries [val]. *)
Definition facts_without_val : facts_doc :=
  [("us-gaap", [("NetIncomeLoss", [("USD", [event_without_val])])])].

(** A bulk archive with one member, and a world where its table is
    already there. *)
Definition facts_zip : ZipArchive := {|
  zip_name := "all_companies_facts-2026-11-03.zip";
  members := [("CIK0000320193.json",
               Some (JObj [("cik", JInt 320193); ("entityName", JStr "Apple Inc.");
                           ("facts", JObj [("us-gaap", tags_json
                              [("NetIncomeLoss", [("USD", [event_full])])])])]))]
|}.

Definition extracted_world : world :=
  mkworld [] [("/data/sec-edgar-facts/AAPL_facts-2026-11-03.pkl", Bytes "")].

(** The rows of the two pages of the filing history. *)
Definition recent_rows : list filing_row :=
  [("0000320193-20-000010", "10-K", "a10k.htm", "2020-03-01");
   ("0000320193-20-000020", "10-Q", "a10q.htm", "2020-05-01");
   ("0000320193-20-000030", "10-K", "b10k.htm", "2020-11-01")].

Definition older_rows : list filing_row :=
  [("0000320193-19-000010", "10-K", "c10k.htm", "2019-03-01")].

(** A first page whose array of filing dates is one short. *)
Definition ragged_page : json :=
  page ["0000320193-20-000010"; "0000320193-20-000030"] ["10-K"; "10-K"]
       ["a10k.htm"; "b10k.htm"] ["2020-03-01"].

Definition ragged_submissions : json :=
  JObj [("cik", JStr "320193");
        ("filings",
         JObj [("recent", ragged_page);
               ("files", JArr [JObj [("name", JStr "CIK0000320193-submissions-001.json")]])])].

Definition ragged_pages : dict Response :=
  [("https://data.sec.gov/submissions/CIK0000320193.json",
    ok_json "https://data.sec.gov/submissions/CIK0000320193.json" ragged_submissions);
   ("https://data.sec.gov/submissions/CIK0000320193-submissions-001.json",
    ok_json "https://data.sec.gov/submissions/CIK0000320193-submissions-001.json"
            (page_obj older_page))].

(** The archive together with the documents of its first 10-K. *)
Definition filing_pages : dict Response :=
  (archive_pages
   ++ [("https://www.sec.gov/Archives/edgar/data/320193/000032019320000010/0000320193-20-000010.txt",
        mkResponse 200
          "https://www.sec.gov/Archives/edgar/data/320193/000032019320000010/0000320193-20-000010.txt"
          None "<SEC-DOCUMENT>");
       ("https://www.sec.gov/Archives/edgar/data/320193/000032019320000010/a10k.htm",
        mkResponse 200
          "https://www.sec.gov/Archives/edgar/data/320193/000032019320000010/a10k.htm"
          None "<html>10-K</html>")])%list.

(** The XBRL endpoints, a clock that stands still and plain renderings. *)
Definition xbrl_constants : XbrlConstants := {|
  URL_XBRL_COMPANY_CONCEPTS := fun cik taxonomy tag =>
    "https://data.sec.gov/api/xbrl/companyconcept/CIK" ++ cik ++ "/" ++ taxonomy
    ++ "/" ++ tag ++ ".json";
  URL_XBRL_COMPANY_FACTS := fun cik =>
    "https://data.sec.gov/api/xbrl/companyfacts/CIK" ++ cik ++ ".json";
  URL_XBRL_COMPANY_FACTS_ZIP :=
    "https://www.sec.gov/Archives/edgar/daily-index/xbrl/companyfacts.zip";
  URL_XBRL_COMPANY_SUBMISSIONS_ZIP :=
    "https://www.sec.gov/Archives/edgar/daily-index/bulkdata/submissions.zip"
|}.

Definition runtime : Runtime := {|
  strftime_now := fun _ => "2026-11-03";
  json_dumps := fun _ => "{...}";
  frame_repr := fun _ => "<frame>"
|}.

(** A directory that names its first column [id] instead of [cik]. *)
Definition directory_without_cik : json :=
  JObj [("fields", JArr (map JStr ["id"; "name"; "ticker"; "exchange"]));
        ("data", JArr [JArr [JInt 320193; JStr "Apple Inc."; JStr "AAPL"; JStr "Nasdaq"]])].

Definition directory_without_cik_pages : dict Response :=
  [("https://www.sec.gov/files/company_tickers_exchange.json",
    ok_json "https://www.sec.gov/files/company_tickers_exchange.json" directory_without_cik)].

(** A server that holds the facts of the first company only. *)
Definition facts_pages : dict Response :=
  [("https://data.sec.gov/api/xbrl/companyfacts/CIK0000320193.json",
    ok_json "https://data.sec.gov/api/xbrl/companyfacts/CIK0000320193.json"
            (facts_json "Apple Inc." facts))].

(** The facts of the member of [facts_zip]. *)
Definition facts_of_member : facts_doc :=
  [("us-gaap", [("NetIncomeLoss", [("USD", [event_full])])])].

(** A server that holds the two bulk archives. *)
Definition bulk_pages : dict Response :=
  [("https://www.sec.gov/Archives/edgar/daily-index/xbrl/companyfacts.zip",
    mkResponse 200 "https://www.sec.gov/Archives/edgar/daily-index/xbrl/companyfacts.zip"
               None "PK-facts");
   ("https://www.sec.gov/Archives/edgar/daily-index/bulkdata/submissions.zip",
    mkResponse 200 "https://www.sec.gov/Archives/edgar/daily-index/bulkdata/submissions.zip"
               None "PK-submissions")].

End Example.

Section Client.

Variable K : Constants.
Variable X : Libraries.

(** [str(j)] *)
Definition py_str (j : json) : string :=
  match j with
  | JStr s => s
  | JInt n => str_of_int n
  | JNull => "None"
  | JBool true => "True"
  | JBool false => "False"
  | _ => py_repr X j
  end.

(** [resp.json()] *)
Definition Response_json (resp : Response) : result json :=
  match json_body resp with
  | Some j => Return j
  | None => Raise JSONDecodeError
  end.

(** [pd.DataFrame(j)] *)
Definition pd_DataFrame (j : json) : result (DataFrame string) :=
  match j with
  | JArr l =>
      match as_records l with
      | Some rows => Return (DataFrame_records rows)
      | None => DataFrame_other X j
      end
  | _ => DataFrame_other X j
  end.

(* ================================================================== *)
(** * [_utils.py] *)
(* ================================================================== *)

Definition is_cik (cik : string) : bool :=
  if int_parses cik then (1 <=? len cik) && (len cik <=? 10) else false.

(** [merged[k] = list(chain.from_iterable(d[k] for d in to_merge))], for
    the keys [ks] in turn. *)
Fixpoint merge_keys (to_merge : list json) (ks : list string) (merged : dict json)
  : result (dict json) :=
  match ks with
  | [] => Return merged
  | k :: ks' =>
      rbind (rmap (fun d => rbind (getitem d k) iter) to_merge)
            (fun ls => merge_keys to_merge ks' (dict_set k (JArr (concat ls)) merged))
  end.

Definition merge_submission_dicts (to_merge : list json) : result json :=
  match to_merge with
  | [] => Raise IndexError
  | first :: _ =>
      rbind (keys first) (fun ks =>
      rbind (merge_keys to_merge ks []) (fun merged =>
      Return (JObj merged)))
  end.

Definition validate_and_return_cik (ticker_or_cik : json)
           (ticker_to_cik_mapping : dict string) : result string :=
  let ticker_or_cik := upper (strip_ws (py_str ticker_or_cik)) in
  if String.eqb ticker_or_cik "" then
    Raise (ValueError "Invalid ticker or CIK. Please enter a non-blank value.")
  else if is_cik ticker_or_cik then
    if CIK_LENGTH K <? len ticker_or_cik then
      Raise (ValueError "Invalid CIK. CIKs must be at most 10 digits long.")
    else
      let cik := zfill (CIK_LENGTH K) ticker_or_cik in
      if negb (str_in cik (dict_values ticker_to_cik_mapping)) then
        Raise (ValueError "Invalid CIK. Not present in the CIK to ticker mapping.")
      else Return cik
  else
    match dict_get ticker_or_cik ticker_to_cik_mapping with
    | None =>
        Raise (ValueError
          "Ticker is invalid and cannot be mapped to a CIK. Please enter a valid ticker or CIK.")
    | Some cik => Return cik
    end.

Definition validate_and_parse_date (date_format : string) : result date :=
  match strptime X (DATE_FORMAT_TOKENS K) date_format with
  | Some d => Return d
  | None =>
      Raise (ValueError
        "Incorrect date format. Please enter a date string of the form YYYY-MM-DD.")
  end.

Definition within_requested_date_range (download_metadata : FormsDownloadMetadata)
           (filing_date : json) : result bool :=
  match filing_date with
  | JStr s =>
      match strptime X (DATE_FORMAT_TOKENS K) s with
      | Some target_date =>
          Return (date_leb (after download_metadata) target_date
                  && date_leb target_date (before download_metadata))
      | None => Raise (ValueError "time data does not match format")
      end
  | _ => Raise TypeError
  end.

(** [max(a, b)] on dates. *)
Definition date_max (a b : date) : date := if date_gtb b a then b else a.

Definition get_valid_after_date (after : option string) (after_date : date)
  : result date :=
  match after with
  | None => Return after_date
  | Some after =>
      rbind (validate_and_parse_date after) (fun after_date =>
      Return (date_max after_date after_date))
  end.

(* ================================================================== *)
(** * [_BaseClient.py] *)
(* ================================================================== *)

(** [repr] of the session's headers. *)
Definition repr_headers (headers : dict string) : string :=
  py_repr X (JObj (map (fun kv => (fst kv, JStr (snd kv))) headers)).

(** [BaseClient.__init__]: the headers of the session, which are a
    [CaseInsensitiveDict] updated with a plain dict.  (The retry policy
    mounted on the session is part of [session_get].) *)
Definition BaseClient_init (user_agent : string) : M (dict string) :=
  let headers :=
    ci_update (default_headers X)
              (dict_update (STANDARD_HEADERS K)
                           [("User-Agent", user_agent); ("Host", HOST_DATA_SEC K)]) in
  logger "debug" ("self._session.headers = " ++ repr_headers headers) ;;
  ret headers.

(** [resp.raise_for_status()] raises [HTTPError] on a 4xx or 5xx status. *)
Definition raises_for_status (resp : Response) : bool :=
  (400 <=? status_code resp) && (status_code resp <? 600).

(** The limiter only delays the call; time is not part of the model.
    The session merges its own headers with the copy it is given, which
    leaves the copy as it is: these are the headers of the request. *)
Definition _rate_limited_get (self : EdgarClient) (url : string)
           (headers : option (dict string)) (host : option string) : M Response :=
  let session_headers_copy :=
    match headers with
    | Some h => ci_update (session_headers self) h
    | None =>
        match host with
        | Some h => ci_update (session_headers self) [("Host", h)]
        | None => session_headers self
        end
    end in
  fun w =>
    let w' := mkworld (trace w ++ [Request url session_headers_copy])%list (files w) in
    match session_get X (trace w) url session_headers_copy with
    | SessionRaises e => (Raise (Requests e), w')
    | Responds resp =>
        if raises_for_status resp
        then (Raise (EdgarAPIError HTTPError (Some (status_code resp))
                                   (Some (Response_url resp))), w')
        else (Return resp, w')
    end.

(* ================================================================== *)
(** * [_DownloadFormManager.py] *)
(* ================================================================== *)

(** [f'{x}'] for an optional str. *)
Definition format_opt (x : option string) : string :=
  match x with Some s => s | None => "None" end.

Definition get_forms_save_location (download_metadata : FormsDownloadMetadata)
           (form accession_number save_filename : string) : Path :=
  path_join
    (path_join
       (path_join
          (path_join
             (path_join (download_folder download_metadata)
                        (ROOT_FORMS_SAVE_FOLDER_NAME K))
             (format_opt (ticker download_metadata) ++ "-" ++ cik download_metadata))
          form)
       accession_number)
    save_filename.

Definition save_form_document (filing_contents : string)
           (download_metadata : FormsDownloadMetadata)
           (form_meta_data : FormToDownload) (save_filename : string) : M unit :=
  let save_path :=
    get_forms_save_location download_metadata (form form_meta_data)
                            (accession_number form_meta_data) save_filename in
  write_file (fspath save_path) (Bytes filing_contents).

Definition get_to_download (cik : string) (acc_num : json) (form : string) (doc : json)
  : result FormToDownload :=
  let cik := strip "0" cik in
  match acc_num with
  | JStr acc_num =>
      let acc_num_no_dash := replace "-" "" acc_num in
      let raw_filing_uri := URL_FILING K cik acc_num_no_dash (acc_num ++ ".txt") in
      match doc with
      | JStr doc =>
          let primary_doc_uri := URL_FILING K cik acc_num_no_dash doc in
          let primary_doc_suffix := replace "htm" "html" (path_suffix doc) in
          Return (mkFormToDownload form raw_filing_uri primary_doc_uri acc_num
                                   primary_doc_suffix)
      | _ => Raise TypeError
      end
  | _ => Raise AttributeError
  end.

(** The test of the [for] loop: [true] when the row is kept.  A form
    that is not a str is in no list of form names. *)
Definition row_passes (download_metadata : FormsDownloadMetadata)
           (form f_date : json) : result bool :=
  match form with
  | JStr f =>
      if negb (str_in f (forms download_metadata))
         || (negb (include_amends download_metadata) && endswith f (AMENDS_SUFFIX K))
      then Return false
      else within_requested_date_range download_metadata f_date
  | _ => Return false
  end.

(** The [for] loop over the zipped rows of one page; [strict_ok] tells
    whether [zip] ends normally after them. *)
Fixpoint for_rows (download_metadata : FormsDownloadMetadata)
         (rows : list (json * json * json * json)) (strict_ok : bool)
         (filings_to_download : list FormToDownload) (fetched_count : Z)
  : M page_outcome :=
  match rows with
  | [] =>
      if strict_ok then ret (Continue filings_to_download fetched_count)
      else raise (ValueError "zip() arguments have different lengths")
  | (acc_num, form, doc, f_date) :: rows' =>
      keep <- lift (row_passes download_metadata form f_date) ;;
      if negb keep then
        for_rows download_metadata rows' strict_ok filings_to_download fetched_count
      else
        td <- lift (get_to_download (cik download_metadata) acc_num (py_str form) doc) ;;
        emit (Accepted td) ;;
        let filings_to_download := (filings_to_download ++ [td])%list in
        let fetched_count := fetched_count + 1 in
        if fetched_count =? limit download_metadata then ret (Returned filings_to_download)
        else for_rows download_metadata rows' strict_ok filings_to_download fetched_count
  end.

(** One page: the four parallel arrays, zipped and filtered. *)
Definition page_rows (download_metadata : FormsDownloadMetadata) (filings_json : json)
           (filings_to_download : list FormToDownload) (fetched_count : Z)
  : M page_outcome :=
  accession_numbers <- lift (getitem filings_json "accessionNumber") ;;
  forms <- lift (getitem filings_json "form") ;;
  documents <- lift (getitem filings_json "primaryDocument") ;;
  filing_dates <- lift (getitem filings_json "filingDate") ;;
  a <- lift (iter accession_numbers) ;;
  b <- lift (iter forms) ;;
  c <- lift (iter documents) ;;
  d <- lift (iter filing_dates) ;;
  let (rows, strict_ok) := zip_strict a b c d in
  for_rows download_metadata rows strict_ok filings_to_download fetched_count.

(** The [while] loop from its second round on: the end of a round
    ([break] on an empty queue, else [popleft]) followed by the next
    round, by recursion on the queue of continuation pages. *)
Fixpoint continuation_pages (self : EdgarClient) (download_metadata : FormsDownloadMetadata)
         (additional_submissions : list json)
         (filings_to_download : list FormToDownload) (fetched_count : Z)
  : M (list FormToDownload) :=
  match additional_submissions with
  | [] => ret filings_to_download
  | first :: additional_submissions =>
      next_page <- lift (getitem first "name") ;;
      let submissions_uri := URL_PAGINATED_SUBMISSIONS K (py_str next_page) in
      if fetched_count <? limit download_metadata then
        resp <- _rate_limited_get self submissions_uri None None ;;
        resp_json <- lift (Response_json resp) ;;
        r <- page_rows download_metadata resp_json filings_to_download fetched_count ;;
        match r with
        | Returned fs => ret fs
        | Continue fs n =>
            continuation_pages self download_metadata additional_submissions fs n
        end
      else ret filings_to_download
  end.

(** The first round of the [while] loop reads the [recent] batch and the
    queue; the later rounds are [continuation_pages]. *)
Definition aggregate_forms_to_download (self : EdgarClient)
           (download_metadata : FormsDownloadMetadata) : M (list FormToDownload) :=
  let submissions_uri := URL_SUBMISSIONS K (cik download_metadata) in
  if 0 <? limit download_metadata then
    resp <- _rate_limited_get self submissions_uri None None ;;
    resp_json <- lift (Response_json resp) ;;
    filings <- lift (getitem resp_json "filings") ;;
    filings_json <- lift (getitem filings "recent") ;;
    files <- lift (getitem filings "files") ;;
    additional_submissions <- lift (iter files) ;;
    r <- page_rows download_metadata filings_json [] 0 ;;
    match r with
    | Returned fs => ret fs
    | Continue fs n => continuation_pages self download_metadata additional_submissions fs n
    end
  else ret [].

Definition fetch_and_save_filings (self : EdgarClient)
           (download_metadata : FormsDownloadMetadata) : M Z :=
  to_download <- aggregate_forms_to_download self download_metadata ;;
  for_each to_download
    (fun td successfully_downloaded =>
       logger "info" ("Downloading " ++ form td ++ " for "
                      ++ format_opt (ticker download_metadata)
                      ++ " on " ++ accession_number td) ;;
       resp <- _rate_limited_get self (raw_filing_uri td) None (Some (HOST_WWW_SEC K)) ;;
       save_form_document (content resp) download_metadata td
                          (FORM_FULL_SUBMISSION_FILENAME K) ;;
       (if download_details download_metadata then
          resp <- _rate_limited_get self (primary_doc_uri td) None (Some (HOST_WWW_SEC K)) ;;
          save_form_document (content resp) download_metadata td
                             (PRIMARY_DOC_FILENAME_STEM K ++ details_doc_suffix td)
        else ret tt) ;;
       ret (successfully_downloaded + 1))
    0.

(** The dict comprehension
    [{str(td[ticker_idx]).upper(): str(td[cik_idx]).zfill(CIK_LENGTH) for td in ticker_data}]. *)
Fixpoint ticker_to_cik_of (ticker_idx cik_idx : Z) (ticker_data : list json)
         (acc : dict string) : result (dict string) :=
  match ticker_data with
  | [] => Return acc
  | td :: rest =>
      rbind (getindex td ticker_idx) (fun t =>
      rbind (getindex td cik_idx) (fun c =>
      ticker_to_cik_of ticker_idx cik_idx rest
        (dict_set (upper (py_str t)) (zfill (CIK_LENGTH K) (py_str c)) acc)))
  end.

(** The dict comprehension [{b: a for a, b in d.items()}]. *)
Definition invert_items (d : dict string) : dict string :=
  fold_left (fun acc ab => dict_set (snd ab) (fst ab) acc) d [].

Definition get_ticker_cik_name_mapping (self : EdgarClient)
  : M (dict string * dict string * dict string) :=
  resp <- _rate_limited_get self (URL_CIK_MAPPING K) None (Some (HOST_WWW_SEC K)) ;;
  ticker_metadata <- lift (Response_json resp) ;;
  fields <- lift (getitem ticker_metadata "fields") ;;
  ticker_data <- lift (getitem ticker_metadata "data") ;;
  cik_idx <- lift (index fields "cik") ;;
  ticker_idx <- lift (index fields "ticker") ;;
  name_idx <- lift (index fields "name") ;;
  rows <- lift (iter ticker_data) ;;
  ticker_to_cik <- lift (ticker_to_cik_of ticker_idx cik_idx rows []) ;;
  (* {cik: ticker for ticker, cik in ticker_to_cik.items()} *)
  let cik_to_ticker := invert_items ticker_to_cik in
  (* {cik: name for name, cik in ticker_to_cik.items()} *)
  let cik_to_name := invert_items ticker_to_cik in
  ret (ticker_to_cik, cik_to_ticker, cik_to_name).

(* ================================================================== *)
(** * [EdgarClient.py] *)
(* ================================================================== *)

(** [EdgarClient.__init__]; [download_folder] is [None], a [Path] or a
    str. *)
Definition EdgarClient_init (company_name email_address : string)
           (download_folder : option DownloadPath) : M EdgarClient :=
  let user_agent := company_name ++ " " ++ email_address in
  if String.eqb user_agent "" then
    raise (ValueError "Please enter a valid user-agent string of the form '<Sample Company Name> <Sample Company Email>'. This is required by the SEC to identify your requests for rate-limiting purposes.")
  else
    headers <- BaseClient_init user_agent ;;
    let parent_download_folder :=
      match download_folder with
      | None => cwd X
      | Some (OfPath p) => p
      | Some (OfStr s) => expanduser_resolve X s
      end in
    let facts_save_folder := path_join parent_download_folder (ROOT_FACTS_SAVE_FOLDER_NAME K) in
    let forms_save_folder := path_join parent_download_folder (ROOT_FORMS_SAVE_FOLDER_NAME K) in
    let self := mkEdgarClient user_agent headers parent_download_folder
                              facts_save_folder forms_save_folder [] [] [] in
    mappings <- get_ticker_cik_name_mapping self ;;
    let '(ticker_to_cik, cik_to_ticker, cik_to_name) := mappings in
    ret (mkEdgarClient user_agent headers parent_download_folder
                       facts_save_folder forms_save_folder
                       ticker_to_cik cik_to_ticker cik_to_name).

(** [j[k] = v] on a dict. *)
Definition setitem (j : json) (k : string) (v : json) : json :=
  match j with
  | JObj d => JObj (dict_set k v d)
  | _ => j
  end.

Definition get_submissions_by_company (self : EdgarClient) (ticker_or_cik : json)
           (handle_pagination : bool) : M json :=
  cik <- lift (validate_and_return_cik ticker_or_cik (ticker_to_cik_mapping self)) ;;
  let submissions_uri := URL_SUBMISSIONS K cik in
  resp <- _rate_limited_get self submissions_uri None None ;;
  submissions <- lift (Response_json resp) ;;
  filings <- lift (getitem submissions "filings") ;;
  paginated_submissions <- lift (getitem filings "files") ;;
  if handle_pagination && truthy paginated_submissions then
    recent <- lift (getitem filings "recent") ;;
    subs <- lift (iter paginated_submissions) ;;
    to_merge <- for_each subs
      (fun submission to_merge =>
         filename <- lift (getitem submission "name") ;;
         let api_endpoint := URL_PAGINATED_SUBMISSIONS K (py_str filename) in
         resp <- _rate_limited_get self api_endpoint None None ;;
         page <- lift (Response_json resp) ;;
         ret (to_merge ++ [page])%list)
      [recent] ;;
    merged <- lift (merge_submission_dicts to_merge) ;;
    (* [filings] is the object held by [submissions] *)
    let filings := setitem (setitem filings "recent" merged) "files" (JArr []) in
    ret (setitem submissions "filings" filings)
  else ret submissions.

Definition unsupported_forms_of (form_types : list string) : list string :=
  filter (fun form => negb (str_in form (SUPPORTED_FORMS K))) form_types.

Definition download_forms_by_company (self : EdgarClient) (ticker_or_cik : json)
           (form_types : list string) (limit : option Z)
           (after before : option string)
           (include_amends download_details : bool) : M Z :=
  cik <- lift (validate_and_return_cik ticker_or_cik (ticker_to_cik_mapping self)) ;;
  let ticker := dict_get cik (cik_to_ticker_mapping self) in
  let limit := match limit with None => sys_maxsize | Some l => l end in
  if limit <? 1 then
    raise (ValueError "Invalid limit. Please enter a number greater than 1.")
  else
    after_date <- lift (get_valid_after_date after (DEFAULT_AFTER_DATE K)) ;;
    before_date <- lift (match before with
                         | None => Return (DEFAULT_BEFORE_DATE K)
                         | Some b => validate_and_parse_date b
                         end) ;;
    if date_gtb after_date before_date then
      raise (ValueError "After date cannot be greater than the before date.")
    else
      let unsupported_forms := unsupported_forms_of form_types in
      match unsupported_forms with
      | _ :: _ =>
          let form_options := join ", " (SUPPORTED_FORMS K) in
          raise (ValueError
                   ("The following forms aren't supported: "
                    ++ join ", " unsupported_forms
                    ++ ". Please choose from the following: " ++ form_options ++ "."))
      | [] =>
          fetch_and_save_filings self
            (mkFormsDownloadMetadata (parent_download_folder self) form_types cik ticker
                                     limit after_date before_date
                                     include_amends download_details)
      end.

(** ** Facts *)

Definition ALLOWED_DATA_COLUMNS : list string :=
  ["start"; "end"; "val"; "accn"; "fy"; "fp"; "form"; "filed"; "frame"].

(** [set(ALLOWED_DATA_COLUMNS) - set(events_df.columns)], listed in the
    order of [ALLOWED_DATA_COLUMNS] (a Python set has no order of its
    own). *)
Definition missing_columns (events_df : DataFrame string) : list string :=
  filter (fun c => negb (str_in c (column_labels events_df))) ALLOWED_DATA_COLUMNS.

(** [s.issubset(t)] *)
Definition issubset (s t : list string) : bool := forallb (fun c => str_in c t) s.

(** The column check of [parse_facts_json] on the frame of one unit. *)
Definition check_columns (tag_name : string) (events_df : DataFrame string)
  : M (DataFrame string) :=
  if negb (issubset ALLOWED_DATA_COLUMNS (column_labels events_df)) then
    let missing := missing_columns events_df in
    if negb (issubset missing ["start"; "frame"]) then
      logger "critical" ("Columns " ++ repr_str_set missing
                         ++ " are missing from " ++ tag_name) ;;
      raise SystemExit
    else
      ret (fold_left (fun df missing_column => add_nan_column missing_column df)
                     missing events_df)
  else ret events_df.

Definition parse_facts_json (self : EdgarClient) (json_dict : json)
  : M (DataFrame multi_label) :=
  entity <- lift (getitem json_dict "entityName") ;;
  logger "info" ("Parsing " ++ py_str entity ++ " facts") ;;
  taxonomies <- lift (getitem json_dict "facts") ;;
  taxonomy_names <- lift (keys taxonomies) ;;
  dataframes <- for_each taxonomy_names
    (fun taxonomy_name dataframes =>
       tags <- lift (getitem taxonomies taxonomy_name) ;;
       tag_names <- lift (keys tags) ;;
       for_each tag_names
         (fun tag_name dataframes =>
            tag <- lift (getitem tags tag_name) ;;
            units_obj <- lift (getitem tag "units") ;;
            units <- lift (keys units_obj) ;;
            for_each units
              (fun unit dataframes =>
                 events <- lift (getitem units_obj unit) ;;
                 events_df <- lift (pd_DataFrame events) ;;
                 events_df <- check_columns tag_name events_df ;;
                 let events_df := set_multi_index taxonomy_name tag_name unit events_df in
                 ret (dataframes ++ [events_df])%list)
              dataframes)
         dataframes)
    [] ;;
  multi_df <- lift (concat_axis1 dataframes) ;;
  ret (sort_index multi_df).

(** The body of the [try] of [_parse_open_json] after the existence
    test. *)
Definition parse_member_facts (data : json) (output_file_path : string) : M unit :=
  entity <- lift (getitem data "entityName") ;;
  logger "info" ("Parsing " ++ py_str entity ++ " facts") ;;
  taxonomies <- lift (getitem data "facts") ;;
  taxonomy_names <- lift (keys taxonomies) ;;
  dataframes <- for_each taxonomy_names
    (fun taxonomy_name dataframes =>
       logger "info" ("    Taxonomy " ++ taxonomy_name) ;;
       tags <- lift (getitem taxonomies taxonomy_name) ;;
       tag_names <- lift (keys tags) ;;
       for_each tag_names
         (fun tag_name dataframes =>
            tag <- lift (getitem tags tag_name) ;;
            units_obj <- lift (getitem tag "units") ;;
            units <- lift (keys units_obj) ;;
            logger "info" ("      Tag " ++ tag_name) ;;
            for_each units
              (fun unit dataframes =>
                 events <- lift (getitem units_obj unit) ;;
                 events_df <- lift (pd_DataFrame events) ;;
                 logger "info" ("            Keys -> "
                                ++ repr_str_list (column_labels events_df)) ;;
                 let events_df := set_multi_index taxonomy_name unit tag_name events_df in
                 ret (dataframes ++ [events_df])%list)
              dataframes)
         dataframes)
    [] ;;
  multi_df <- lift (concat_axis1 dataframes) ;;
  write_file output_file_path (Pickle multi_df).

(** The [try] of [_parse_open_json] from [json.load(f)] to
    [output_file_path]: the decoded member and the path. *)
Definition member_output_path (f : option json) (file_path_to_latest_zip : ZipArchive)
           (ticker_to_cik_mapping cik_to_ticker_mapping : dict string)
           (facts_save_folder : Path) : result (json * string) :=
  rbind (match f with Some j => Return j | None => Raise JSONDecodeError end) (fun data =>
  rbind (getitem data "cik") (fun c =>
  rbind (validate_and_return_cik c ticker_to_cik_mapping) (fun cik =>
  rbind (match dict_get cik cik_to_ticker_mapping with
         | Some t => Return t
         | None => Raise (KeyError cik)
         end) (fun ticker =>
  rbind (match search_date (zip_name file_path_to_latest_zip) with
         | Some d => Return d
         | None => Raise AttributeError
         end) (fun date =>
  let output_file_path :=
    fspath facts_save_folder ++ "/" ++ ticker ++ "_facts-" ++ date ++ ".pkl" in
  Return (data, output_file_path)))))).

(** [args] is [(filename, file_path_to_latest_zip, ticker_to_cik_mapping,
    cik_to_ticker_mapping, facts_save_folder)]. *)
Definition _parse_open_json
           (args : string * ZipArchive * dict string * dict string * Path) : M unit :=
  let '(filename, file_path_to_latest_zip, ticker_to_cik_mapping,
        cik_to_ticker_mapping, facts_save_folder) := args in
  match dict_get filename (members file_path_to_latest_zip) with
  | None => raise (KeyError filename)       (* [z.open(filename)] *)
  | Some f =>
      try_except
        (member <- lift (member_output_path f file_path_to_latest_zip ticker_to_cik_mapping
                                            cik_to_ticker_mapping facts_save_folder) ;;
         let (data, output_file_path) := member in
         e <- os_path_exists output_file_path ;;
         if e then logger "info" ("File already exists: " ++ output_file_path)
         else parse_member_facts data output_file_path)
        (fun e => emit (LogExn "error" ("Error parsing " ++ filename) e))
  end.

(** [file_path_to_latest_zip] is the archive that
    [get_path_to_latest_facts_zip] finds.  [Pool(number_of_cores)], made
    once the list of names is built, refuses a number of processes below
    one; the default of [number_of_cores] is [cpu_count() - 6].
    [Pool(number_of_cores).map(self._parse_open_json, json_files)]: the
    workers share nothing but the file system; they are run here one
    after the other, in the order of the archive's name list. *)
Definition parse_all_facts_in_latest_zip (self : EdgarClient)
           (file_path_to_latest_zip : ZipArchive) (number_of_cores : Z) : M unit :=
  let json_files :=
    map (fun filename =>
           (filename, file_path_to_latest_zip, ticker_to_cik_mapping self,
            cik_to_ticker_mapping self, facts_save_folder self))
        (filter (fun filename => endswith filename ".json")
                (dict_keys (members file_path_to_latest_zip))) in
  if number_of_cores <? 1 then raise (ValueError "Number of processes must be at least 1")
  else for_each json_files (fun args _ => _parse_open_json args) tt.

(* ================================================================== *)
(** * More of [_utils.py] and [EdgarClient.py] *)
(* ================================================================== *)

Variable XK : XbrlConstants.
Variable R : Runtime.

Definition validate_cik (cik : json) : result string :=
  let cik := zfill 10 (strip_ws (py_str cik)) in
  if negb (is_cik cik) then
    Raise (ValueError "Invalid CIK. Please enter an valid SEC CIK at most 10 digits long.")
  else Return cik.

Definition get_concept_by_company (self : EdgarClient) (ticker_or_cik : json)
           (taxonomy tag : string) : M json :=
  cik <- lift (validate_and_return_cik ticker_or_cik (ticker_to_cik_mapping self)) ;;
  resp <- _rate_limited_get self (URL_XBRL_COMPANY_CONCEPTS XK cik taxonomy tag) None None ;;
  lift (Response_json resp).

Definition get_facts_by_company (self : EdgarClient) (ticker_or_cik : json) : M json :=
  cik <- lift (validate_and_return_cik ticker_or_cik (ticker_to_cik_mapping self)) ;;
  resp <- _rate_limited_get self (URL_XBRL_COMPANY_FACTS XK cik) None None ;;
  lift (Response_json resp).

(** [datetime.now().strftime("%Y-%m-%d")] *)
Definition now_date : M string := fun w => (Return (strftime_now R (trace w)), w).

(** An optional str as a value: [None] is [JNull]. *)
Definition opt_json (x : option string) : json :=
  match x with Some s => JStr s | None => JNull end.

(** One round of the loop of [download_facts_for_companies].  The two
    lists hold tickers: a str, or the [None] that
    [cik_to_ticker_mapping.get] gives for an unknown CIK.  [inr] is
    [continue] with the lists as they are then. *)
Definition download_facts_for_one (self : EdgarClient) (skip_if_exists : bool)
           (ticker_or_cik : string) (lists : list (option string) * list (option string))
  : M (list (option string) * list (option string)) :=
  let '(ticker_facts_saved, ticker_facts_skipped) := lists in
  r <- try_except
         (cik <- lift (validate_and_return_cik (JStr ticker_or_cik)
                                               (ticker_to_cik_mapping self)) ;;
          let ticker_name := dict_get cik (cik_to_ticker_mapping self) in
          today <- now_date ;;
          let save_json_path :=
            fspath (facts_save_folder self) ++ "/" ++ format_opt ticker_name
            ++ "-facts-" ++ today ++ ".json" in
          ret (inl (ticker_name, save_json_path)))
         (fun e =>
            emit (LogExn "error" ("Skipping " ++ ticker_or_cik ++ " because of error") e) ;;
            ret (inr (ticker_facts_saved,
                      (ticker_facts_skipped ++ [Some ticker_or_cik])%list))) ;;
  match r with
  | inr lists => ret lists
  | inl (ticker_name, save_json_path) =>
      there <- (if skip_if_exists then os_path_exists save_json_path else ret false) ;;
      if there then
        logger "info" ("Skipping " ++ format_opt ticker_name
                       ++ " because it already exists") ;;
        ret (ticker_facts_saved, ticker_facts_skipped)
      else
        v <- try_except
               (values <- get_facts_by_company self (opt_json ticker_name) ;;
                ret (inl values))
               (fun e =>
                  emit (LogExn "error" ("Skipping " ++ format_opt ticker_name
                                        ++ "  while downloading facts because of error") e) ;;
                  ret (inr (ticker_facts_saved,
                            (ticker_facts_skipped ++ [ticker_name])%list))) ;;
        match v with
        | inr lists => ret lists
        | inl values =>
            try_except
              (write_file save_json_path (Bytes (json_dumps R values)) ;;
               logger "info" ("Saved " ++ format_opt ticker_name ++ " facts") ;;
               ret ((ticker_facts_saved ++ [ticker_name])%list, ticker_facts_skipped))
              (fun e =>
                 emit (LogExn "error" ("Skipping " ++ format_opt ticker_name
                                       ++ "  while saving facts because of error") e) ;;
                 ret (ticker_facts_saved, (ticker_facts_skipped ++ [ticker_name])%list))
        end
  end.

(** The folder of the facts exists ([mkdir] with [exist_ok]). *)
Definition download_facts_for_companies (self : EdgarClient)
           (tickers_or_ciks : list string) (skip_if_exists : bool)
  : M (list (option string) * list (option string)) :=
  for_each tickers_or_ciks (download_facts_for_one self skip_if_exists) ([], []).

(** [self.download_forms]: none of the classes of the client
    ([BaseClient], [DownloadFormManager], [EdgarClient]) defines an
    attribute of this name, so reading it raises [AttributeError]. *)
Definition download_forms (self : EdgarClient) (ticker_or_cik : json)
           (form_types : list string) (limit : option Z) (after before : option string)
           (include_amends download_details : bool) : M Z :=
  raise AttributeError.

(** One round of the loop of [download_forms_for_companies];
    [self.supported_forms] is [SUPPORTED_FORMS], set by [__init__]. *)
Definition download_forms_for_one (self : EdgarClient) (form_types : list string)
           (limit_per_form : option Z) (after before : option string)
           (include_amends download_details : bool)
           (ticker_or_cik : string) (lists : list string * list string)
  : M (list string * list string) :=
  let '(forms_saved, forms_skipped) := lists in
  r <- try_except
         (cik <- lift (validate_and_return_cik (JStr ticker_or_cik)
                                               (ticker_to_cik_mapping self)) ;;
          let ticker_name := dict_get cik (cik_to_ticker_mapping self) in
          logger "info" ("Downloading forms for " ++ format_opt ticker_name) ;;
          ret (Some ticker_name))
         (fun e =>
            emit (LogExn "error" ("Skipping " ++ ticker_or_cik
                    ++ " because it is not in the ticker to cik mapping") e) ;;
            ret None) ;;
  match r with
  | None => ret (forms_saved, forms_skipped)
  | Some ticker_name =>
      let unsupported_forms := unsupported_forms_of form_types in
      match unsupported_forms with
      | _ :: _ =>
          logger "info" ("Skipping forms " ++ join ", " unsupported_forms
                         ++ " for equity " ++ format_opt ticker_name
                         ++ " because they are not supported") ;;
          ret (forms_saved, forms_skipped)
      | [] =>
          try_except
            (n_saved_filings <- download_forms self (opt_json ticker_name) form_types
                                  limit_per_form after before
                                  include_amends download_details ;;
             logger "info" ("Saved " ++ str_of_int n_saved_filings ++ " filings for "
                            ++ format_opt ticker_name ++ "-" ++ join ", " form_types) ;;
             ret ((forms_saved
                   ++ map (fun form_type => (format_opt ticker_name ++ "-" ++ form_type)%string)
                          form_types)%list,
                  forms_skipped))
            (fun e =>
               emit (LogExn "error" ("Skipping forms " ++ join ", " form_types
                       ++ " for ticker " ++ format_opt ticker_name
                       ++ " during download because of error") e) ;;
               ret (forms_saved,
                    (forms_skipped
                     ++ map (fun form_type => (format_opt ticker_name ++ "-" ++ form_type)%string)
                            form_types)%list))
      end
  end.

Definition download_forms_for_companies (self : EdgarClient)
           (tickers_or_ciks form_types : list string) (limit_per_form : option Z)
           (after before : option string) (include_amends download_details : bool)
  : M (list string * list string) :=
  for_each tickers_or_ciks
    (download_forms_for_one self form_types limit_per_form after before
                            include_amends download_details)
    ([], []).

(** [os.path.join(a, b)] on a POSIX system. *)
Definition os_path_join (a b : string) : string :=
  if startswith b "/" then b
  else if String.eqb a "" || endswith a "/" then a ++ b
  else a ++ "/" ++ b.

(** The folder of the facts exists ([mkdir] with [exist_ok]). *)
Definition download_facts_of_all_companies_zip (self : EdgarClient) : M string :=
  response <- _rate_limited_get self (URL_XBRL_COMPANY_FACTS_ZIP XK) None
                                (Some (HOST_WWW_SEC K)) ;;
  today <- now_date ;;
  let file_path := os_path_join (fspath (facts_save_folder self))
                                ("all_companies_facts-" ++ today ++ ".zip") in
  write_file file_path (Bytes (content response)) ;;
  ret file_path.

Definition download_submissions_of_all_companies_zip (self : EdgarClient) : M string :=
  response <- _rate_limited_get self (URL_XBRL_COMPANY_SUBMISSIONS_ZIP XK) None
                                (Some (HOST_WWW_SEC K)) ;;
  today <- now_date ;;
  let file_path := os_path_join (fspath (facts_save_folder self))
                                ("all_companies_submissions-" ++ today ++ ".zip") in
  write_file file_path (Bytes (content response)) ;;
  ret file_path.

(** What [query_fact_from_zip] hands back: the [None] of a bare
    [return], the decoded member, or the table. *)
Inductive query_result : Type :=
| NoResult
| RawJson (json_dict : json)
| Table (multiindex_df : DataFrame multi_label).

(** [df[(a, b, c)]] on the four-level columns: the columns under the
    three outer labels, [KeyError] when there is none. *)
Definition select_unit (a b c : string) (df : DataFrame multi_label)
  : result (DataFrame string) :=
  let cols :=
    filter (fun col =>
              let '(a', b', c', _) := fst col in
              String.eqb a' a && String.eqb b' b && String.eqb c' c)
           (columns df) in
  match cols with
  | [] => Raise (KeyError ("('" ++ a ++ "', '" ++ b ++ "', '" ++ c ++ "')"))
  | _ => Return (mkDataFrame (nrows df)
                             (map (fun col => (snd (fst col), snd col)) cols))
  end.

(** [file_path_to_latest_zip] stands for what the property
    [get_path_to_latest_facts_zip] finds; [print] is recorded as a log
    event of level [print]. *)
Definition query_fact_from_zip (self : EdgarClient) (ticker_or_cik : json)
           (file_path_to_latest_zip : ZipArchive) (return_raw_json : bool)
  : M query_result :=
  cik <- lift (validate_and_return_cik ticker_or_cik (ticker_to_cik_mapping self)) ;;
  let ticker_name := dict_get cik (cik_to_ticker_mapping self) in
  let filename := "CIK" ++ cik ++ ".json" in
  updated_date <- lift (match search_date (zip_name file_path_to_latest_zip) with
                        | Some d => Return d
                        | None => Raise AttributeError
                        end) ;;
  logger "info" ("Latest zip file found: " ++ zip_name file_path_to_latest_zip
                 ++ " with updated date " ++ updated_date) ;;
  match dict_get filename (members file_path_to_latest_zip) with
  | None =>
      logger "error" ("File " ++ filename ++ " not found in the zip file") ;;
      ret NoResult
  | Some f =>
      json_dict <- lift (match f with Some j => Return j | None => Raise JSONDecodeError end) ;;
      if return_raw_json then ret (RawJson json_dict)
      else
        multiindex_df <- parse_facts_json self json_dict ;;
        selected <- lift (select_unit "us-gaap" "NetIncomeLoss" "USD" multiindex_df) ;;
        logger "print" (frame_repr R selected) ;;
        @raise unit SystemExit ;;
        ret (Table multiindex_df)
  end.

(* ================================================================== *)
(** * Vocabulary of the properties *)
(* ================================================================== *)

(** The filings a stretch of a run appends, in order. *)
Definition accepted (evs : list event) : list FormToDownload :=
  flat_map (fun e => match e with Accepted f => [f] | _ => [] end) evs.

(** The URLs a stretch of a run requests, in order. *)
Definition requested (evs : list event) : list string :=
  flat_map (fun e => match e with Request u _ => [u] | _ => [] end) evs.

(** The files a stretch of a run writes, in order. *)
Definition written (evs : list event) : list string :=
  flat_map (fun e => match e with WriteFile p _ => [p] | _ => [] end) evs.

(** A stretch [evs] of a run that starts with [fs0] filings collected
    and room for [b] more: it accepts at most [b] filings, a normal
    result is [fs0] followed by the accepted filings, and once [b]
    filings are accepted nothing follows and the run has returned. *)
Definition stops_at_limit (b : Z) (fs0 : list FormToDownload)
           (r : result (list FormToDownload)) (evs : list event) : Prop :=
  Z.of_nat (length (accepted evs)) <= b
  /\ (forall fs, r = Return fs -> fs = (fs0 ++ accepted evs)%list)
  /\ (forall pre post, evs = (pre ++ post)%list ->
        Z.of_nat (length (accepted pre)) = b ->
        post = [] /\ r = Return (fs0 ++ accepted pre)%list).

(** The arrays [merge_submission_dicts] chains under the key [k]. *)
Definition chained (to_merge : list json) (k : string) : result (list (list json)) :=
  rmap (fun d => rbind (getitem d k) iter) to_merge.

(** A computation that only logs: whatever the world, it gives the same
    result and appends the same events, none of them a write. *)
Definition log_only {A} (c : M A) : Prop :=
  exists r evs, written evs = []
    /\ forall w, c w = (r, mkworld (trace w ++ evs) (files w)).

(** A computation that only logs and then either raises or ends by
    writing the file [p]. *)
Definition writes_last (p : string) (c : M unit) : Prop :=
  exists evs, written evs = []
    /\ ((exists e, forall w, c w = (Raise e, mkworld (trace w ++ evs) (files w)))
        \/ (exists fc, forall w,
              c w = (Return tt, mkworld (trace w ++ evs ++ [WriteFile p fc])
                                        (dict_set p fc (files w))))).

(** The bulk run over the members [l], one worker after the other. *)
Definition run_workers (l : list (string * ZipArchive * dict string * dict string * Path))
  : M unit :=
  for_each l (fun args _ => _parse_open_json args) tt.

(** The column check on the rows of one unit: the core columns that none
    of the rows carries are among [start] and [frame]. *)
Definition unit_ok (rows : list (dict json)) : bool :=
  issubset (missing_columns (DataFrame_records rows)) ["start"; "frame"].

(** The frame of a unit with its missing columns filled with NaN. *)
Definition backfill (df : DataFrame string) : DataFrame string :=
  fold_left (fun df missing_column => add_nan_column missing_column df)
            (missing_columns df) df.

(** Every unit of a list passes the column check. *)
Definition groups_ok (gs : list unit_group) : bool :=
  forallb (fun g => unit_ok (snd g)) gs.

Definition unit_frame (g : unit_group) : DataFrame multi_label :=
  let '(taxonomy_name, tag_name, unit, rows) := g in
  set_multi_index taxonomy_name tag_name unit (backfill (DataFrame_records rows)).

(** The result of a computation when it does not depend on the world. *)
Definition computes {A} (c : M A) (r : result A) : Prop := forall w, fst (c w) = r.

(** [for x in l: s = F(x, s)] without effects. *)
Fixpoint rfold {A S} (F : A -> S -> result S) (l : list A) (s : S) : result S :=
  match l with
  | [] => Return s
  | x :: l' => rbind (F x s) (rfold F l')
  end.

(** The result of the column check. *)
Definition checked_frame (events_df : DataFrame string) : result (DataFrame string) :=
  if issubset (missing_columns events_df) ["start"; "frame"]
  then Return (backfill events_df) else Raise SystemExit.

(** The result of [parse_facts_json], its log left out. *)
Definition facts_frames (taxonomies : json) (taxonomy_names : list string)
  : result (list (DataFrame multi_label)) :=
  rfold (fun taxonomy_name dataframes =>
    rbind (getitem taxonomies taxonomy_name) (fun tags =>
    rbind (keys tags) (fun tag_names =>
    rfold (fun tag_name dataframes =>
      rbind (getitem tags tag_name) (fun tag =>
      rbind (getitem tag "units") (fun units_obj =>
      rbind (keys units_obj) (fun units =>
      rfold (fun unit dataframes =>
        rbind (getitem units_obj unit) (fun events =>
        rbind (pd_DataFrame events) (fun events_df =>
        rbind (checked_frame events_df) (fun events_df =>
        Return (dataframes
                ++ [set_multi_index taxonomy_name tag_name unit events_df])%list))))
        units dataframes))))
      tag_names dataframes)))
    taxonomy_names [].

Definition parse_facts_result (json_dict : json) : result (DataFrame multi_label) :=
  rbind (getitem json_dict "entityName") (fun _ =>
  rbind (getitem json_dict "facts") (fun taxonomies =>
  rbind (keys taxonomies) (fun taxonomy_names =>
  rbind (facts_frames taxonomies taxonomy_names) (fun dataframes =>
  rbind (concat_axis1 dataframes) (fun multi_df =>
  Return (sort_index multi_df)))))).

(** ** Listed archives *)

(** The session answers every request for [u] with a response of a
    success status that carries the JSON [j]. *)
Definition serves (u : string) (j : json) : Prop :=
  forall tr hs, exists resp,
    session_get X tr u hs = Responds resp
    /\ raises_for_status resp = false /\ json_body resp = Some j.

(** The filter of the aggregator on a row of strings; a date that does
    not read keeps no row. *)
Definition row_kept (md : FormsDownloadMetadata) (r : filing_row) : bool :=
  let '(acc_num, f, doc, f_date) := r in
  str_in f (forms md)
  && (include_amends md || negb (endswith f (AMENDS_SUFFIX K)))
  && match strptime X (DATE_FORMAT_TOKENS K) f_date with
     | Some d => date_leb (after md) d && date_leb d (before md)
     | None => false
     end.

(** The descriptors of the rows of a page that pass the filter, in the
    order of the page. *)
Definition kept_filings (md : FormsDownloadMetadata) (rows : list filing_row)
  : list FormToDownload :=
  flat_map (fun r =>
              let '(acc_num, f, doc, f_date) := r in
              if row_kept md r then
                match get_to_download (cik md) (JStr acc_num) f (JStr doc) with
                | Return td => [td]
                | Raise _ => []
                end
              else [])
           rows.

(** Every filing date of the rows reads as a date. *)
Definition dates_parse (rows : list filing_row) : Prop :=
  forall r, In r rows -> strptime X (DATE_FORMAT_TOKENS K) (snd r) <> None.

(** ** Downloads *)

(** A stretch of a run that writes no file and whose normal result is
    [fs0] followed by the filings it accepts. *)
Definition collects (fs0 : list FormToDownload) (r : result (list FormToDownload))
           (evs : list event) : Prop :=
  written evs = [] /\ forall fs, r = Return fs -> fs = (fs0 ++ accepted evs)%list.

(** The paths [fetch_and_save_filings] writes for a filing: the full
    submission, then the primary document when details are asked for. *)
Definition saved_paths (md : FormsDownloadMetadata) (td : FormToDownload) : list string :=
  fspath (get_forms_save_location md (form td) (accession_number td)
                                  (FORM_FULL_SUBMISSION_FILENAME K))
  :: (if download_details md then
        [fspath (get_forms_save_location md (form td) (accession_number td)
                   (PRIMARY_DOC_FILENAME_STEM K ++ details_doc_suffix td))]
      else []).

(** The body of the loop of [fetch_and_save_filings]. *)
Definition download_one (self : EdgarClient) (download_metadata : FormsDownloadMetadata)
           (td : FormToDownload) (successfully_downloaded : Z) : M Z :=
  logger "info" ("Downloading " ++ form td ++ " for "
                 ++ format_opt (ticker download_metadata)
                 ++ " on " ++ accession_number td) ;;
  resp <- _rate_limited_get self (raw_filing_uri td) None (Some (HOST_WWW_SEC K)) ;;
  save_form_document (content resp) download_metadata td
                     (FORM_FULL_SUBMISSION_FILENAME K) ;;
  (if download_details download_metadata then
     resp <- _rate_limited_get self (primary_doc_uri td) None (Some (HOST_WWW_SEC K)) ;;
     save_form_document (content resp) download_metadata td
                        (PRIMARY_DOC_FILENAME_STEM K ++ details_doc_suffix td)
   else ret tt) ;;
  ret (successfully_downloaded + 1).

(** ** Batches *)


(** The entries [download_forms_for_companies] adds to its list of
    skipped forms for one identifier: one per form when the identifier
    validates and every form is supported. *)
Definition forms_refused (self : EdgarClient) (form_types : list string)
           (ticker_or_cik : string) : list string :=
  match validate_and_return_cik (JStr ticker_or_cik) (ticker_to_cik_mapping self) with
  | Return cik =>
      match unsupported_forms_of form_types with
      | [] => map (fun form_type =>
                     format_opt (dict_get cik (cik_to_ticker_mapping self))
                     ++ "-" ++ form_type)
                  form_types
      | _ :: _ => []
      end
  | Raise _ => []
  end.


(** ** The stored tables *)

(** A computation with the result [r] that leaves the files alone. *)
Definition keeps {A} (c : M A) (r : result A) : Prop :=
  forall w, fst (c w) = r /\ files (snd (c w)) = files w.

(** A computation that either raises and leaves the files alone, or
    returns and has stored [fc] under the path [p]. *)
Definition stores (p : string) (c : M unit) (r : result file_content) : Prop :=
  forall w,
    match r with
    | Return fc => fst (c w) = Return tt /\ files (snd (c w)) = dict_set p fc (files w)
    | Raise e => fst (c w) = Raise e /\ files (snd (c w)) = files w
    end.

(** The frame the bulk worker builds for a unit: the labels are
    taxonomy, unit, tag, column. *)
Definition worker_frame (g : unit_group) : DataFrame multi_label :=
  let '(taxonomy_name, tag_name, unit, rows) := g in
  set_multi_index taxonomy_name unit tag_name (DataFrame_records rows).

(** What [parse_member_facts] stores, its log left out. *)
Definition member_table (data : json) : result file_content :=
  rbind (getitem data "entityName") (fun _ =>
  rbind (getitem data "facts") (fun taxonomies =>
  rbind (keys taxonomies) (fun taxonomy_names =>
  rbind (rfold (fun taxonomy_name dataframes =>
           rbind (getitem taxonomies taxonomy_name) (fun tags =>
           rbind (keys tags) (fun tag_names =>
           rfold (fun tag_name dataframes =>
             rbind (getitem tags tag_name) (fun tag =>
             rbind (getitem tag "units") (fun units_obj =>
             rbind (keys units_obj) (fun units =>
             rfold (fun unit dataframes =>
               rbind (getitem units_obj unit) (fun events =>
               rbind (pd_DataFrame events) (fun events_df =>
               Return (dataframes
                       ++ [set_multi_index taxonomy_name unit tag_name events_df])%list)))
               units dataframes))))
             tag_names dataframes)))
           taxonomy_names []) (fun dataframes =>
  rbind (concat_axis1 dataframes) (fun multi_df =>
  Return (Pickle multi_df)))))).

(** ** Bulk archives *)


(** ** Headers *)

(** The value a plain dict of headers gives to a name, case aside: that
    of the last header of that name, since [update] takes the headers in
    order. *)
Definition header_of (k : string) (h : dict string) : option string := ci_get k (rev h).

(** The names of the headers, case aside. *)
Definition header_names (h : dict string) : list string := map lower (dict_keys h).


(* ================================================================== *)
(** * Properties *)
(* ================================================================== *)

(** ** The monad *)

Lemma bind_Return {A B} (c : M A) (k : A -> M B) {w a w'} :
  c w = (Return a, w') -> bind c k w = k a w'.
Proof. intros H. unfold bind. now rewrite H. Qed.

Lemma bind_Raise {A B} (c : M A) (k : A -> M B) {w e w'} :
  c w = (Raise e, w') -> bind c k w = (Raise e, w').
Proof. intros H. unfold bind. now rewrite H. Qed.

Lemma bind_lift {A B} (r : result A) (k : A -> M B) w :
  bind (lift r) k w = match r with Return a => k a w | Raise e => (Raise e, w) end.
Proof. unfold bind, lift. now destruct r. Qed.

Lemma bind_emit {B} (e : event) (k : unit -> M B) w :
  bind (emit e) k w = k tt (mkworld (trace w ++ [e]) (files w)).
Proof. reflexivity. Qed.

Lemma accepted_app evs1 evs2 :
  accepted (evs1 ++ evs2) = (accepted evs1 ++ accepted evs2)%list.
Proof. unfold accepted. now rewrite flat_map_app. Qed.

Lemma accepted_map_Accepted tds : accepted (map Accepted tds) = tds.
Proof. induction tds as [|td tds IH]; simpl; [reflexivity | now rewrite IH]. Qed.

(** ** The aggregator's loop *)

(** The [for] loop only appends filings; it leaves by [return] exactly
    when the count reaches the limit. *)
Lemma for_rows_run md rows ok : forall fs n w, n < limit md ->
  exists tds,
    snd (for_rows md rows ok fs n w)
    = mkworld (trace w ++ map Accepted tds) (files w)
    /\ match fst (for_rows md rows ok fs n w) with
       | Return (Returned fs') =>
           fs' = (fs ++ tds)%list /\ n + Z.of_nat (length tds) = limit md
       | Return (Continue fs' n') =>
           fs' = (fs ++ tds)%list /\ n' = n + Z.of_nat (length tds) /\ n' < limit md
       | Raise _ => n + Z.of_nat (length tds) < limit md
       end.
Proof.
  induction rows as [|[[[acc_num form] doc] f_date] rows IH]; intros fs n w Hn.
  - exists []. simpl.
    destruct ok; simpl; repeat split; rewrite ?app_nil_r; try reflexivity; try lia;
      now destruct w.
  - simpl for_rows. rewrite bind_lift.
    destruct (row_passes md form f_date) as [keep|e].
    2:{ exists []. simpl. rewrite app_nil_r. split; [now destruct w | lia]. }
    destruct keep; cbn [negb].
    2:{ apply IH; assumption. }
    rewrite bind_lift.
    destruct (get_to_download (cik md) acc_num (py_str form) doc) as [td|e].
    2:{ exists []. simpl. rewrite app_nil_r. split; [now destruct w | lia]. }
    rewrite bind_emit.
    destruct (n + 1 =? limit md) eqn:Hlim.
    + exists [td]. simpl. split; [reflexivity|]. apply Z.eqb_eq in Hlim. split; [reflexivity | lia].
    + apply Z.eqb_neq in Hlim.
      destruct (IH (fs ++ [td])%list (n + 1) (mkworld (trace w ++ [Accepted td]) (files w)))
        as [tds [Hw Hr]]; [lia|].
      exists (td :: tds). split.
      * rewrite Hw. simpl. now rewrite <- app_assoc.
      * destruct (fst (for_rows md rows ok (fs ++ [td]) (n + 1)
                         (mkworld (trace w ++ [Accepted td]) (files w)))) as [[fs'|fs' n']|e].
        -- destruct Hr as [-> Hr]. split; [now rewrite <- app_assoc|].
           simpl length. lia.
        -- destruct Hr as [-> [-> Hr]]. split; [now rewrite <- app_assoc|].
           simpl length. split; lia.
        -- simpl length. lia.
Qed.

Lemma page_rows_run md filings_json fs n w : n < limit md ->
  exists tds,
    snd (page_rows md filings_json fs n w)
    = mkworld (trace w ++ map Accepted tds) (files w)
    /\ match fst (page_rows md filings_json fs n w) with
       | Return (Returned fs') =>
           fs' = (fs ++ tds)%list /\ n + Z.of_nat (length tds) = limit md
       | Return (Continue fs' n') =>
           fs' = (fs ++ tds)%list /\ n' = n + Z.of_nat (length tds) /\ n' < limit md
       | Raise _ => n + Z.of_nat (length tds) < limit md
       end.
Proof.
  intros Hn. unfold page_rows.
  assert (Hstop : forall e,
    exists tds : list FormToDownload,
      snd (@Raise page_outcome e, w) = mkworld (trace w ++ map Accepted tds) (files w)
      /\ n + Z.of_nat (length tds) < limit md).
  { intros e. exists []. simpl. rewrite app_nil_r. split; [now destruct w | lia]. }
  repeat (rewrite bind_lift;
          match goal with
          | |- context [match ?r with Return _ => _ | Raise _ => _ end] =>
              destruct r; [| apply Hstop]
          end).
  match goal with
  | |- context [zip_strict ?a ?b ?c ?d] => destruct (zip_strict a b c d) as [rows strict_ok]
  end.
  apply for_rows_run; assumption.
Qed.

Lemma rate_limited_get_run self u headers host w :
  exists hs,
    snd (_rate_limited_get self u headers host w)
    = mkworld (trace w ++ [Request u hs]) (files w).
Proof.
  unfold _rate_limited_get.
  match goal with
  | |- context [Request u ?h] => exists h
  end.
  destruct (session_get X (trace w) u _) as [resp|e]; [|reflexivity].
  now destruct (raises_for_status resp).
Qed.

(** ** Stopping at the limit *)

Lemma accepted_prefix_le pre post :
  (length (accepted pre) <= length (accepted (pre ++ post)))%nat.
Proof. rewrite accepted_app, length_app. lia. Qed.

Lemma stops_at_limit_below b fs r evs :
  Z.of_nat (length (accepted evs)) < b ->
  (forall fs', r = Return fs' -> fs' = (fs ++ accepted evs)%list) ->
  stops_at_limit b fs r evs.
Proof.
  intros Hlt Hr. split; [lia|]. split; [exact Hr|].
  intros pre post -> Hpre. pose proof (accepted_prefix_le pre post). lia.
Qed.

Lemma stops_at_limit_reached b fs evs td :
  Z.of_nat (length (accepted (evs ++ [Accepted td]))) = b ->
  stops_at_limit b fs (Return (fs ++ accepted (evs ++ [Accepted td]))%list)
                 (evs ++ [Accepted td]).
Proof.
  intros Hb. split; [lia|]. split.
  - intros fs' H. now injection H as <-.
  - intros pre post Heq Hpre.
    destruct post as [|p post _] using rev_ind.
    + rewrite app_nil_r in Heq. subst pre. split; reflexivity.
    + exfalso. rewrite app_assoc in Heq. apply app_inj_tail in Heq as [Heq _].
      subst evs. rewrite !accepted_app, !length_app in Hb. simpl in Hb. lia.
Qed.

Lemma stops_at_limit_app b fs r evs1 evs2 :
  Z.of_nat (length (accepted evs1)) < b ->
  stops_at_limit (b - Z.of_nat (length (accepted evs1))) (fs ++ accepted evs1) r evs2 ->
  stops_at_limit b fs r (evs1 ++ evs2).
Proof.
  intros Hlt [Hcount [Hret Hstop]]. split; [|split].
  - rewrite accepted_app, length_app. lia.
  - intros fs' H. rewrite (Hret fs' H), accepted_app. now rewrite app_assoc.
  - intros pre post Heq Hpre.
    apply app_eq_app in Heq as [l [[E1 E2] | [E1 E2]]].
    + (* [pre] ends inside [evs1] *)
      subst evs1. pose proof (accepted_prefix_le pre l). lia.
    + (* [pre] covers [evs1] *)
      subst pre. rewrite accepted_app, length_app in Hpre.
      destruct (Hstop l post E2) as [-> ->]; [lia|].
      split; [reflexivity|]. now rewrite accepted_app, app_assoc.
Qed.

(** One round of the aggregator after its page is fetched, followed by
    the rest [k] of the loop. *)
Lemma round_run md filings_json (k : list FormToDownload -> Z -> M (list FormToDownload)) :
  (forall fs n w, n < limit md ->
     exists evs, snd (k fs n w) = mkworld (trace w ++ evs) (files w)
                 /\ stops_at_limit (limit md - n) fs (fst (k fs n w)) evs) ->
  forall fs n w, n < limit md ->
    let c := (r <- page_rows md filings_json fs n ;;
              match r with
              | Returned fs' => ret fs'
              | Continue fs' n' => k fs' n'
              end) in
    exists evs, snd (c w) = mkworld (trace w ++ evs) (files w)
                /\ stops_at_limit (limit md - n) fs (fst (c w)) evs.
Proof.
  intros Hk fs n w Hn c. subst c. unfold bind.
  destruct (page_rows_run md filings_json fs n w Hn) as [tds [Hw Hr]].
  destruct (page_rows md filings_json fs n w) as [r w1]. simpl in Hw, Hr. subst w1.
  destruct r as [[fs'|fs' n']|e].
  - (* the early return *)
    destruct Hr as [-> Hlen].
    destruct tds as [|td tds _] using rev_ind; [simpl in Hlen; lia|].
    exists (map Accepted (tds ++ [td])). split; [reflexivity|]. simpl fst.
    assert (E : accepted (map Accepted tds ++ [Accepted td]) = (tds ++ [td])%list).
    { change [Accepted td] with (map Accepted [td]).
      now rewrite <- map_app, accepted_map_Accepted. }
    rewrite map_app. simpl map. rewrite <- E.
    apply stops_at_limit_reached. rewrite E. lia.
  - (* the page ends below the limit *)
    destruct Hr as [-> [-> Hlt]].
    destruct (Hk (fs ++ tds)%list (n + Z.of_nat (length tds))
                 (mkworld (trace w ++ map Accepted tds) (files w)) Hlt)
      as [evs [Hw Hs]].
    exists (map Accepted tds ++ evs)%list. split.
    + rewrite Hw. simpl. now rewrite app_assoc.
    + apply stops_at_limit_app; rewrite accepted_map_Accepted; [lia|].
      replace (limit md - n - Z.of_nat (length tds))
        with (limit md - (n + Z.of_nat (length tds))) by lia.
      exact Hs.
  - exists (map Accepted tds). split; [reflexivity|].
    apply stops_at_limit_below; [rewrite accepted_map_Accepted; lia|].
    intros fs' H. discriminate H.
Qed.

(** A step that accepts nothing, before the rest of the loop. *)
Lemma silent_run b fs (r : result (list FormToDownload)) evs1 evs2 :
  accepted evs1 = [] -> 0 < b ->
  stops_at_limit b fs r evs2 -> stops_at_limit b fs r (evs1 ++ evs2).
Proof.
  intros H0 Hb Hs. apply stops_at_limit_app; rewrite H0; simpl; [lia|].
  rewrite app_nil_r, Z.sub_0_r. exact Hs.
Qed.

Lemma raise_run b fs e evs :
  accepted evs = [] -> 0 < b -> stops_at_limit b fs (Raise e) evs.
Proof.
  intros H0 Hb. apply stops_at_limit_below; [rewrite H0; simpl; lia|].
  intros fs' H. discriminate H.
Qed.

(** A request followed by the reading of its page. *)
Lemma fetch_run md self u (k : json -> M (list FormToDownload)) fs n w :
  n < limit md ->
  (forall j w', exists evs, snd (k j w') = mkworld (trace w' ++ evs) (files w')
                   /\ stops_at_limit (limit md - n) fs (fst (k j w')) evs) ->
  let c := (resp <- _rate_limited_get self u None None ;;
            resp_json <- lift (Response_json resp) ;; k resp_json) in
  exists evs, snd (c w) = mkworld (trace w ++ evs) (files w)
              /\ stops_at_limit (limit md - n) fs (fst (c w)) evs.
Proof.
  intros Hn Hk c. subst c.
  destruct (rate_limited_get_run self u None None w) as [hs Hw].
  destruct (_rate_limited_get self u None None w) as [[resp|e] w1] eqn:E;
    simpl in Hw; subst w1;
    [rewrite (bind_Return _ _ E) | rewrite (bind_Raise _ _ E)].
  - rewrite bind_lift. destruct (Response_json resp) as [j|e].
    + destruct (Hk j (mkworld (trace w ++ [Request u hs]) (files w))) as [evs [Hw Hs]].
      exists ([Request u hs] ++ evs)%list. split.
      * rewrite Hw. simpl. now rewrite <- app_assoc.
      * apply silent_run; [reflexivity | lia | exact Hs].
    + exists [Request u hs]. split; [reflexivity|]. apply raise_run; [reflexivity | lia].
  - exists [Request u hs]. split; [reflexivity|]. apply raise_run; [reflexivity | lia].
Qed.

Lemma continuation_pages_run self md additional_submissions :
  forall fs n w, n < limit md ->
    exists evs,
      snd (continuation_pages self md additional_submissions fs n w)
      = mkworld (trace w ++ evs) (files w)
      /\ stops_at_limit (limit md - n) fs
           (fst (continuation_pages self md additional_submissions fs n w)) evs.
Proof.
  induction additional_submissions as [|first queue IH]; intros fs n w Hn.
  - exists []. simpl. rewrite app_nil_r. split; [now destruct w|].
    apply stops_at_limit_below; [simpl; lia|].
    intros fs' H. injection H as <-. simpl. now rewrite app_nil_r.
  - simpl continuation_pages. rewrite bind_lift.
    destruct (getitem first "name") as [next_page|e].
    2:{ exists []. simpl. rewrite app_nil_r. split; [now destruct w|].
        apply raise_run; [reflexivity | lia]. }
    apply Z.ltb_lt in Hn as Hn'. rewrite Hn'.
    apply (fetch_run md self _ _ fs n w Hn).
    intros j w'. apply (round_run md j _ IH fs n w' Hn).
Qed.

(** C1.  With a limit [L >= 1], whatever the archive answers,
    [aggregate_forms_to_download] appends at most [L] filings and a normal
    result is the list of the filings appended, so it has at most [L]
    elements; and as soon as [L] filings have been appended the run is
    over: no event follows the [L]-th append (in particular no request
    for a further page) and the function has returned these [L]
    filings. *)
Theorem aggregate_forms_to_download_limit self md w :
  1 <= limit md ->
  exists evs,
    snd (aggregate_forms_to_download self md w) = mkworld (trace w ++ evs) (files w)
    /\ Z.of_nat (length (accepted evs)) <= limit md
    /\ (forall fs, fst (aggregate_forms_to_download self md w) = Return fs ->
          fs = accepted evs /\ Z.of_nat (length fs) <= limit md)
    /\ (forall pre post, evs = (pre ++ post)%list ->
          Z.of_nat (length (accepted pre)) = limit md ->
          post = []
          /\ fst (aggregate_forms_to_download self md w) = Return (accepted pre)).
Proof.
  intros HL.
  assert (H : exists evs,
             snd (aggregate_forms_to_download self md w)
             = mkworld (trace w ++ evs) (files w)
             /\ stops_at_limit (limit md - 0) []
                  (fst (aggregate_forms_to_download self md w)) evs).
  { unfold aggregate_forms_to_download.
    assert (H0 : 0 < limit md) by lia.
    apply Z.ltb_lt in H0 as H0'. rewrite H0'.
    apply (fetch_run md self _ _ [] 0 w H0).
    intros resp_json w'.
    assert (Hstop : forall e, exists evs,
               snd (@Raise (list FormToDownload) e, w')
               = mkworld (trace w' ++ evs) (files w')
               /\ stops_at_limit (limit md - 0) [] (fst (@Raise (list FormToDownload) e, w')) evs).
    { intros e. exists []. simpl. rewrite app_nil_r. split; [now destruct w'|].
      apply raise_run; [reflexivity | lia]. }
    repeat (rewrite bind_lift;
            match goal with
            | |- context [match ?r with Return _ => _ | Raise _ => _ end] =>
                destruct r; [| apply Hstop]
            end).
    apply (round_run md _ _ (continuation_pages_run self md _) [] 0 w' H0). }
  destruct H as [evs [Hw [Hcount [Hret Hstop]]]].
  rewrite Z.sub_0_r in *.
  exists evs. repeat split; try assumption.
  - now apply Hret.
  - rewrite (Hret fs H). exact Hcount.
  - now destruct (Hstop pre post H H0).
  - now destruct (Hstop pre post H H0).
Qed.

(** ** The row filter *)

Lemma str_in_In x l : str_in x l = true <-> In x l.
Proof.
  unfold str_in. rewrite existsb_exists. split.
  - intros [y [Hy Heq]]. apply String.eqb_eq in Heq. now subst.
  - intros H. exists x. split; [assumption | apply String.eqb_refl].
Qed.

Lemma date_leb_refl d : date_leb d d = true.
Proof.
  unfold date_leb, date_eqb. rewrite !Z.eqb_refl. simpl. apply orb_true_r.
Qed.

(** C6.  A zipped row of four strings whose filing date reads as the
    date [d] passes the filter exactly when its form is one of the
    requested forms, it does not end with the amendment suffix unless
    amendments are included, and [after <= d <= before] (both ends
    included); the [for] loop appends the filing of a row that passes
    and goes on to the next row without appending when it does not. *)
Theorem row_accepted_iff md acc_num f doc f_date d rows ok fs n w :
  strptime X (DATE_FORMAT_TOKENS K) f_date = Some d ->
  exists keep td,
    row_passes md (JStr f) (JStr f_date) = Return keep
    /\ (keep = true <->
          In f (forms md)
          /\ (include_amends md = false -> endswith f (AMENDS_SUFFIX K) = false)
          /\ date_leb (after md) d = true /\ date_leb d (before md) = true)
    /\ get_to_download (cik md) (JStr acc_num) f (JStr doc) = Return td
    /\ for_rows md ((JStr acc_num, JStr f, JStr doc, JStr f_date) :: rows) ok fs n w
       = if keep then
           let w' := mkworld (trace w ++ [Accepted td]) (files w) in
           if n + 1 =? limit md then (Return (Returned (fs ++ [td])), w')
           else for_rows md rows ok (fs ++ [td]) (n + 1) w'
         else for_rows md rows ok fs n w.
Proof.
  intros Hd.
  set (keep := str_in f (forms md)
               && (include_amends md || negb (endswith f (AMENDS_SUFFIX K)))
               && (date_leb (after md) d && date_leb d (before md))).
  assert (Hrow : row_passes md (JStr f) (JStr f_date) = Return keep).
  { unfold row_passes, within_requested_date_range, keep. rewrite Hd.
    destruct (str_in f (forms md)); simpl; [|reflexivity].
    destruct (include_amends md); simpl; [reflexivity|].
    now destruct (endswith f (AMENDS_SUFFIX K)). }
  exists keep. eexists. split; [exact Hrow|]. split; [|split; [reflexivity|]].
  - unfold keep. rewrite !andb_true_iff, orb_true_iff, negb_true_iff, str_in_In.
    split.
    + intros [[Hin Ham] [Ha Hb]]. repeat split; try assumption.
      intros Hno. destruct Ham as [Ham|Ham]; [congruence | assumption].
    + intros [Hin [Ham [Ha Hb]]]. repeat split; try assumption.
      destruct (include_amends md); [now left | right; now apply Ham].
  - cbn [for_rows]. rewrite bind_lift, Hrow.
    destruct keep; [|reflexivity].
    cbn [negb]. rewrite bind_lift. cbn [py_str get_to_download].
    rewrite bind_emit. cbv zeta. now destruct (n + 1 =? limit md).
Qed.

(** ** Validation before any request *)

Lemma validate_and_return_cik_raises ticker_or_cik mapping e :
  validate_and_return_cik ticker_or_cik mapping = Raise e ->
  exists msg, e = ValueError msg.
Proof.
  unfold validate_and_return_cik.
  repeat match goal with
         | |- context [if ?b then _ else _] => destruct b
         | |- context [match ?o with Some _ => _ | None => _ end] => destruct o
         end; intros H; try discriminate H; injection H as <-; eexists; reflexivity.
Qed.

Lemma date_ltb_irrefl d : date_ltb d d = false.
Proof.
  unfold date_ltb. rewrite !Z.ltb_irrefl, !Z.eqb_refl. reflexivity.
Qed.

Lemma date_max_same d : date_max d d = d.
Proof. unfold date_max, date_gtb. now rewrite date_ltb_irrefl. Qed.

Lemma unsupported_forms_of_nil form_types :
  unsupported_forms_of form_types = [] ->
  forall f, In f form_types -> In f (SUPPORTED_FORMS K).
Proof.
  unfold unsupported_forms_of. intros Hnil f Hin.
  destruct (str_in f (SUPPORTED_FORMS K)) eqn:Hs; [now apply str_in_In|].
  assert (Hf : In f (filter (fun form => negb (str_in form (SUPPORTED_FORMS K))) form_types)).
  { apply filter_In. split; [assumption | now rewrite Hs]. }
  rewrite Hnil in Hf. destruct Hf.
Qed.

(** C5.  When the limit is below 1, or the after date read from the
    arguments is later than the before date, or some requested form is
    not a supported form, [download_forms_by_company] raises
    [ValueError] and leaves the world as it found it: no request has been
    issued and nothing has been written. *)
Theorem download_forms_by_company_rejects self ticker_or_cik form_types
        limit after before include_amends download_details w :
  (exists l, limit = Some l /\ l < 1)
  \/ (exists a b,
        match after with
        | None => Some (DEFAULT_AFTER_DATE K)
        | Some s => strptime X (DATE_FORMAT_TOKENS K) s
        end = Some a
        /\ match before with
           | None => Some (DEFAULT_BEFORE_DATE K)
           | Some s => strptime X (DATE_FORMAT_TOKENS K) s
           end = Some b
        /\ date_gtb a b = true)
  \/ (exists f, In f form_types /\ ~ In f (SUPPORTED_FORMS K)) ->
  exists msg,
    download_forms_by_company self ticker_or_cik form_types limit after before
                              include_amends download_details w
    = (Raise (ValueError msg), w).
Proof.
  intros H. unfold download_forms_by_company. rewrite bind_lift.
  destruct (validate_and_return_cik ticker_or_cik (ticker_to_cik_mapping self))
    as [cik|e] eqn:Hcik.
  2:{ destruct (validate_and_return_cik_raises _ _ _ Hcik) as [msg ->]. now exists msg. }
  destruct ((match limit with Some l => l | None => sys_maxsize end) <? 1) eqn:Hlim.
  { eexists. reflexivity. }
  rewrite bind_lift.
  unfold get_valid_after_date, validate_and_parse_date.
  destruct (match after with
            | None => Some (DEFAULT_AFTER_DATE K)
            | Some s => strptime X (DATE_FORMAT_TOKENS K) s
            end) as [a|] eqn:Ha.
  2:{ destruct after as [s|]; [|discriminate Ha]. rewrite Ha. simpl. eexists. reflexivity. }
  assert (Ha' : match after with
                | Some after0 =>
                    rbind match strptime X (DATE_FORMAT_TOKENS K) after0 with
                          | Some d => Return d
                          | None => Raise (ValueError
                              "Incorrect date format. Please enter a date string of the form YYYY-MM-DD.")
                          end (fun after_date => Return (date_max after_date after_date))
                | None => Return (DEFAULT_AFTER_DATE K)
                end = Return a).
  { destruct after as [s|].
    - rewrite Ha. simpl. now rewrite date_max_same.
    - now injection Ha as ->. }
  rewrite Ha'. rewrite bind_lift.
  destruct (match before with
            | None => Some (DEFAULT_BEFORE_DATE K)
            | Some s => strptime X (DATE_FORMAT_TOKENS K) s
            end) as [b|] eqn:Hb.
  2:{ destruct before as [s|]; [|discriminate Hb]. rewrite Hb. eexists. reflexivity. }
  assert (Hb' : match before with
                | Some b0 =>
                    match strptime X (DATE_FORMAT_TOKENS K) b0 with
                    | Some d => Return d
                    | None => Raise (ValueError
                        "Incorrect date format. Please enter a date string of the form YYYY-MM-DD.")
                    end
                | None => Return (DEFAULT_BEFORE_DATE K)
                end = Return b).
  { destruct before as [s|].
    - now rewrite Hb.
    - now injection Hb as ->. }
  rewrite Hb'.
  destruct (date_gtb a b) eqn:Hgt.
  { eexists. reflexivity. }
  destruct (unsupported_forms_of form_types) as [|u us] eqn:Hu.
  2:{ eexists. reflexivity. }
  exfalso. destruct H as [[l [-> Hl]] | [[a' [b' [Ea [Eb Hgt']]]] | [f [Hin Hnot]]]].
  - apply Z.ltb_ge in Hlim. lia.
  - injection Ea as <-. injection Eb as <-. congruence.
  - apply Hnot. now apply (unsupported_forms_of_nil _ Hu).
Qed.

(** ** Ordered dicts *)

Lemma dict_get_set_same {V} k (v : V) d : dict_get k (dict_set k v d) = Some v.
Proof.
  induction d as [|[k' v'] d IH]; simpl.
  - now rewrite String.eqb_refl.
  - destruct (String.eqb k k') eqn:E; simpl; rewrite ?String.eqb_refl, ?E; auto.
Qed.

Lemma dict_get_set_other {V} k k' (v : V) d :
  k <> k' -> dict_get k' (dict_set k v d) = dict_get k' d.
Proof.
  intros Hne. induction d as [|[k0 v0] d IH]; simpl.
  - destruct (String.eqb k' k) eqn:E; [|reflexivity].
    apply String.eqb_eq in E. congruence.
  - destruct (String.eqb k k0) eqn:E; simpl.
    + apply String.eqb_eq in E. subst k0.
      destruct (String.eqb k' k) eqn:E'; [|reflexivity].
      apply String.eqb_eq in E'. congruence.
    + now rewrite IH.
Qed.

Lemma dict_has_set {V} k k' (v : V) d :
  dict_has k' (dict_set k v d) = String.eqb k' k || dict_has k' d.
Proof.
  unfold dict_has. destruct (String.eqb k' k) eqn:E.
  - apply String.eqb_eq in E. subst. now rewrite dict_get_set_same.
  - apply String.eqb_neq in E. rewrite dict_get_set_other; [reflexivity | congruence].
Qed.

Lemma dict_has_keys {V} k (d : dict V) : dict_has k d = str_in k (dict_keys d).
Proof.
  unfold dict_has. induction d as [|[k' v] d IH]; simpl; [reflexivity|].
  destruct (String.eqb k k'); [reflexivity | exact IH].
Qed.

Lemma dict_get_map {V W} (f : V -> W) k (d : dict V) :
  dict_get k (map (fun kv => (fst kv, f (snd kv))) d) = option_map f (dict_get k d).
Proof.
  induction d as [|[k' v] d IH]; simpl; [reflexivity|].
  destruct (String.eqb k k'); [reflexivity | exact IH].
Qed.

(** ** Merging pages *)

Lemma merge_keys_Return to_merge ks : forall acc merged,
  merge_keys to_merge ks acc = Return merged ->
  forall k,
    dict_get k merged
    = if str_in k ks then
        match chained to_merge k with
        | Return ls => Some (JArr (concat ls))
        | Raise _ => None
        end
      else dict_get k acc.
Proof.
  induction ks as [|k0 ks IH]; intros acc merged H k.
  - simpl in H. now injection H as <-.
  - simpl in H. fold (chained to_merge k0) in H.
    destruct (chained to_merge k0) as [ls0|e] eqn:E0; [|discriminate H].
    simpl in H. rewrite (IH _ _ H k). simpl str_in.
    destruct (String.eqb k k0) eqn:E.
    + apply String.eqb_eq in E. subst k0. simpl. rewrite E0.
      destruct (str_in k ks); [reflexivity | apply dict_get_set_same].
    + simpl. destruct (str_in k ks); [reflexivity|].
      apply dict_get_set_other. apply String.eqb_neq in E. congruence.
Qed.

Lemma merge_keys_total to_merge ks : forall acc,
  (forall k, In k ks -> exists ls, chained to_merge k = Return ls) ->
  exists merged, merge_keys to_merge ks acc = Return merged.
Proof.
  induction ks as [|k0 ks IH]; intros acc H.
  - now exists acc.
  - simpl. fold (chained to_merge k0).
    destruct (H k0 (or_introl eq_refl)) as [ls ->]. simpl.
    apply IH. intros k Hk. apply H. now right.
Qed.

Lemma merge_keys_Raise to_merge ks : forall acc k e,
  In k ks -> chained to_merge k = Raise e ->
  exists e', merge_keys to_merge ks acc = Raise e'.
Proof.
  induction ks as [|k0 ks IH]; intros acc k e Hin Hk; [destruct Hin|].
  simpl. fold (chained to_merge k0).
  destruct (chained to_merge k0) as [ls0|e0] eqn:E0; simpl.
  - destruct Hin as [->|Hin]; [congruence|]. now apply (IH _ k e).
  - now exists e0.
Qed.

Lemma getitem_page_obj p k :
  getitem (page_obj p) k
  = match dict_get k p with
    | Some l => Return (JArr l)
    | None => Raise (KeyError k)
    end.
Proof.
  unfold page_obj, getitem. rewrite (dict_get_map JArr).
  now destruct (dict_get k p).
Qed.

Lemma chained_pages pages k :
  (forall p, In p pages -> dict_has k p = true) ->
  chained (map page_obj pages) k = Return (map (column k) pages).
Proof.
  unfold chained. induction pages as [|p pages IH]; intros H; [reflexivity|].
  cbn [map rmap]. rewrite getitem_page_obj.
  pose proof (H p (or_introl eq_refl)) as Hp. unfold dict_has in Hp.
  unfold column at 1. destruct (dict_get k p) as [l|]; [|discriminate Hp].
  cbn [rbind iter]. rewrite IH; [reflexivity|]. intros q Hq. apply H. now right.
Qed.

Lemma chained_missing to_merge d k :
  In (JObj d) to_merge -> dict_has k d = false ->
  exists e, chained to_merge k = Raise e.
Proof.
  unfold chained. induction to_merge as [|j to_merge IH]; intros Hin Hk; [destruct Hin|].
  simpl. destruct (rbind (getitem j k) iter) as [l|e] eqn:E.
  - destruct Hin as [->|Hin].
    + simpl in E. unfold dict_has in Hk. destruct (dict_get k d); discriminate.
    + destruct (IH Hin Hk) as [e ->]. now exists e.
  - now exists e.
Qed.

(** C7.  For a recent batch and continuation pages that carry the same
    keys, [merge_submission_dicts] applied to them in listed order
    returns a dict that holds, under every key of the batch, the
    concatenation of the pages' arrays in that order, and holds no other
    key: the flat order of a single response that is not paginated. *)
Theorem merge_submission_dicts_concatenates recent pages :
  (forall p k, In p pages -> dict_has k p = dict_has k recent) ->
  exists merged,
    merge_submission_dicts (map page_obj (recent :: pages)) = Return (JObj merged)
    /\ forall k,
         dict_get k merged
         = if dict_has k recent
           then Some (JArr (concat (map (column k) (recent :: pages))))
           else None.
Proof.
  intros Hsame.
  assert (Hall : forall k, dict_has k recent = true ->
                   forall p, In p (recent :: pages) -> dict_has k p = true).
  { intros k Hk p [<-|Hp]; [assumption|]. now rewrite (Hsame p k Hp). }
  assert (Hkeys : keys (page_obj recent) = Return (dict_keys recent)).
  { unfold page_obj, keys, dict_keys. now rewrite map_map. }
  destruct (merge_keys_total (map page_obj (recent :: pages)) (dict_keys recent) [])
    as [merged Hm].
  { intros k Hk. eexists. apply chained_pages, Hall.
    rewrite dict_has_keys. now apply str_in_In. }
  exists merged. split.
  - unfold merge_submission_dicts. cbn [map]. rewrite Hkeys. cbn [rbind].
    cbn [map] in Hm. now rewrite Hm.
  - intros k. rewrite (merge_keys_Return _ _ _ _ Hm k), <- dict_has_keys.
    destruct (dict_has k recent) eqn:Hk; [|reflexivity].
    now rewrite (chained_pages _ k (Hall k Hk)).
Qed.

(** C10.  [merge_submission_dicts] returns whenever every page that
    follows the first one holds the keys of the first, whatever other
    keys those pages hold: the result has exactly the keys of the first
    page, each with the concatenation of the pages' arrays, so a key
    that only a later page has is dropped without notice.  Whatever the
    dicts that follow a first dict, a result of the merge has exactly the
    keys of the first; and the merge raises when one of the following
    dicts lacks a key of the first. *)
Theorem merge_submission_dicts_keys_of_first :
  (forall recent pages,
      (forall p k, In p pages -> dict_has k recent = true -> dict_has k p = true) ->
      exists merged,
        merge_submission_dicts (map page_obj (recent :: pages)) = Return (JObj merged)
        /\ (forall k, dict_has k merged = dict_has k recent)
        /\ (forall k, dict_has k recent = true ->
                      dict_get k merged
                      = Some (JArr (concat (map (column k) (recent :: pages)))))
        /\ (forall p k, In p pages -> dict_has k p = true -> dict_has k recent = false ->
                        dict_get k merged = None))
  /\ (forall d0 rest merged,
        merge_submission_dicts (JObj d0 :: rest) = Return merged ->
        exists m, merged = JObj m /\ forall k, dict_has k m = dict_has k d0)
  /\ (forall d0 rest d k,
        In (JObj d) rest -> dict_has k d0 = true -> dict_has k d = false ->
        exists e, merge_submission_dicts (JObj d0 :: rest) = Raise e).
Proof.
  split; [|split].
  - intros recent pages Hhas.
    assert (Hall : forall k, dict_has k recent = true ->
                     forall p, In p (recent :: pages) -> dict_has k p = true).
    { intros k Hk p [<-|Hp]; [assumption | now apply Hhas]. }
    assert (Hkeys : keys (page_obj recent) = Return (dict_keys recent)).
    { unfold page_obj, keys, dict_keys. now rewrite map_map. }
    destruct (merge_keys_total (map page_obj (recent :: pages)) (dict_keys recent) [])
      as [merged Hm].
    { intros k Hk. eexists. apply chained_pages, Hall.
      rewrite dict_has_keys. now apply str_in_In. }
    assert (Hget : forall k,
              dict_get k merged
              = if dict_has k recent
                then Some (JArr (concat (map (column k) (recent :: pages))))
                else None).
    { intros k. rewrite (merge_keys_Return _ _ _ _ Hm k), <- dict_has_keys.
      destruct (dict_has k recent) eqn:Hk; [|reflexivity].
      now rewrite (chained_pages _ k (Hall k Hk)). }
    exists merged. split; [|split; [|split]].
    + unfold merge_submission_dicts. cbn [map]. rewrite Hkeys. cbn [rbind].
      cbn [map] in Hm. now rewrite Hm.
    + intros k. unfold dict_has at 1. rewrite Hget. now destruct (dict_has k recent).
    + intros k Hk. now rewrite Hget, Hk.
    + intros p k _ _ Hk. now rewrite Hget, Hk.
  - intros d0 rest merged H. unfold merge_submission_dicts in H. cbn [keys rbind] in H.
    destruct (merge_keys (JObj d0 :: rest) (dict_keys d0) []) as [m|e] eqn:Hm;
      [|discriminate H].
    injection H as <-. exists m. split; [reflexivity|].
    intros k. unfold dict_has at 1. rewrite (merge_keys_Return _ _ _ _ Hm k).
    rewrite dict_has_keys.
    destruct (str_in k (dict_keys d0)) eqn:Hk; [|reflexivity].
    destruct (chained (JObj d0 :: rest) k) as [ls|e] eqn:Hc; [reflexivity|].
    exfalso. apply str_in_In in Hk.
    destruct (merge_keys_Raise _ _ [] _ _ Hk Hc) as [e' He']. congruence.
  - intros d0 rest d k Hin Hk0 Hk.
    destruct (chained_missing (JObj d0 :: rest) d k (or_intror Hin) Hk) as [e He].
    rewrite dict_has_keys in Hk0. apply str_in_In in Hk0.
    destruct (merge_keys_Raise _ _ [] _ _ Hk0 He) as [e' He'].
    exists e'. unfold merge_submission_dicts. cbn [keys rbind]. now rewrite He'.
Qed.

(** ** Bulk extraction *)

Lemma written_app evs1 evs2 : written (evs1 ++ evs2) = (written evs1 ++ written evs2)%list.
Proof. unfold written. now rewrite flat_map_app. Qed.

Lemma world_app_nil w : mkworld (trace w ++ []) (files w) = w.
Proof. rewrite app_nil_r. now destruct w. Qed.

Lemma log_only_ret {A} (a : A) : log_only (ret a).
Proof. exists (Return a), []. split; [reflexivity|]. intros w. unfold ret. now rewrite world_app_nil. Qed.

Lemma log_only_lift {A} (r : result A) : log_only (lift r).
Proof. exists r, []. split; [reflexivity|]. intros w. unfold lift. now rewrite world_app_nil. Qed.

Lemma log_only_logger level msg : log_only (logger level msg).
Proof. exists (Return tt), [Log level msg]. split; reflexivity. Qed.

Lemma log_only_bind {A B} (c : M A) (k : A -> M B) :
  log_only c -> (forall a, log_only (k a)) -> log_only (bind c k).
Proof.
  intros [r [evs [Hw Hc]]] Hk. destruct r as [a|e].
  - destruct (Hk a) as [r2 [evs2 [Hw2 Hk2]]].
    exists r2, (evs ++ evs2)%list. split; [now rewrite written_app, Hw, Hw2|].
    intros w. unfold bind. rewrite Hc, Hk2. simpl. now rewrite app_assoc.
  - exists (Raise e), evs. split; [assumption|].
    intros w. unfold bind. now rewrite Hc.
Qed.

Lemma log_only_for_each {A S} (l : list A) (body : A -> S -> M S) :
  (forall x s, log_only (body x s)) -> forall s, log_only (for_each l body s).
Proof.
  intros Hbody. induction l as [|x l IH]; intros s; simpl.
  - apply log_only_ret.
  - apply log_only_bind; [apply Hbody | exact IH].
Qed.

Lemma writes_last_bind {A} p (c : M A) (k : A -> M unit) :
  log_only c -> (forall a, writes_last p (k a)) -> writes_last p (bind c k).
Proof.
  intros [r [evs [Hw Hc]]] Hk. destruct r as [a|e].
  - destruct (Hk a) as [evs2 [Hw2 [[e He] | [fc Hfc]]]];
      exists (evs ++ evs2)%list; (split; [now rewrite written_app, Hw, Hw2|]).
    + left. exists e. intros w. unfold bind. rewrite Hc, He. simpl. now rewrite app_assoc.
    + right. exists fc. intros w. unfold bind. rewrite Hc, Hfc. simpl.
      now rewrite !app_assoc.
  - exists evs. split; [assumption|]. left. exists e.
    intros w. unfold bind. now rewrite Hc.
Qed.

Lemma writes_last_write_file p fc : writes_last p (write_file p fc).
Proof. exists []. split; [reflexivity|]. right. exists fc. reflexivity. Qed.

Lemma parse_member_facts_writes_last data p : writes_last p (parse_member_facts data p).
Proof.
  unfold parse_member_facts.
  repeat (apply writes_last_bind;
          [ repeat first
              [ apply log_only_lift
              | apply log_only_logger
              | apply log_only_ret
              | apply log_only_for_each; intros
              | apply log_only_bind; [|intros] ]
          | intros ]).
  apply writes_last_write_file.
Qed.

(** What a worker does, by the files present: it never writes, or it
    has a target [p] which it leaves alone when present and, when absent,
    either never writes or always ends by writing it. *)
Lemma worker_summary args :
  (exists r evs, written evs = []
     /\ forall w, _parse_open_json args w = (r, mkworld (trace w ++ evs) (files w)))
  \/ (exists p,
        (forall w, dict_has p (files w) = true ->
           _parse_open_json args w
           = (Return tt,
              mkworld (trace w ++ [Log "info" ("File already exists: " ++ p)]) (files w)))
        /\ ((exists r evs, written evs = []
               /\ forall w, dict_has p (files w) = false ->
                    _parse_open_json args w = (r, mkworld (trace w ++ evs) (files w)))
            \/ (exists evs fc, written evs = []
                  /\ forall w, dict_has p (files w) = false ->
                       _parse_open_json args w
                       = (Return tt, mkworld (trace w ++ evs ++ [WriteFile p fc])
                                             (dict_set p fc (files w)))))).
Proof.
  destruct args as [[[[filename z] t2c] c2t] folder]. unfold _parse_open_json.
  destruct (dict_get filename (members z)) as [f|].
  2:{ left. exists (Raise (KeyError filename)), []. split; [reflexivity|].
      intros w. unfold raise. now rewrite world_app_nil. }
  destruct (member_output_path f z t2c c2t folder) as [[data p]|e] eqn:Hpath.
  - right. exists p. split.
    + intros w Hp. unfold try_except. rewrite bind_lift.
      unfold bind, os_path_exists. now rewrite Hp.
    + destruct (parse_member_facts_writes_last data p) as [evs [Hw [[e He] | [fc Hfc]]]].
      * left. destruct e;
          try (exists (Return tt); eexists (evs ++ [LogExn "error" _ _])%list;
               split; [now rewrite written_app, Hw|];
               intros w Hp; unfold try_except; rewrite bind_lift;
               unfold bind, os_path_exists; rewrite Hp, He;
               unfold emit; simpl; now rewrite <- app_assoc).
        exists (Raise SystemExit), evs. split; [assumption|].
        intros w Hp. unfold try_except. rewrite bind_lift.
        unfold bind, os_path_exists. now rewrite Hp, He.
      * right. exists evs, fc. split; [assumption|].
        intros w Hp. unfold try_except. rewrite bind_lift.
        unfold bind, os_path_exists. now rewrite Hp, Hfc.
  - left. destruct e;
      try (exists (Return tt); eexists [LogExn "error" _ _];
           split; [reflexivity|];
           intros w; unfold try_except; rewrite bind_lift; reflexivity).
    exists (Raise SystemExit), []. split; [reflexivity|].
    intros w. unfold try_except. rewrite bind_lift. now rewrite world_app_nil.
Qed.

Lemma run_workers_cons a l w :
  run_workers (a :: l) w
  = match _parse_open_json a w with
    | (Return _, w') => run_workers l w'
    | (Raise e, w') => (Raise e, w')
    end.
Proof.
  unfold run_workers. simpl. unfold bind.
  destruct (_parse_open_json a w) as [[[]|e] w']; reflexivity.
Qed.

Lemma worker_monotone args w q :
  dict_has q (files w) = true ->
  dict_has q (files (snd (_parse_open_json args w))) = true.
Proof.
  intros Hq.
  destruct (worker_summary args) as [[r [evs [_ H]]] | [p [Hskip Habsent]]].
  - now rewrite H.
  - destruct (dict_has p (files w)) eqn:Hp.
    + now rewrite (Hskip w Hp).
    + destruct Habsent as [[r [evs [_ H]]] | [evs [fc [_ H]]]]; rewrite (H w Hp); simpl.
      * assumption.
      * rewrite dict_has_set, Hq. apply orb_true_r.
Qed.

Lemma run_workers_monotone l : forall w q,
  dict_has q (files w) = true ->
  dict_has q (files (snd (run_workers l w))) = true.
Proof.
  induction l as [|a l IH]; intros w q Hq; [exact Hq|].
  rewrite run_workers_cons.
  pose proof (worker_monotone a w q Hq) as Ha.
  destruct (_parse_open_json a w) as [[u|e] w']; simpl in Ha.
  - now apply IH.
  - exact Ha.
Qed.

(** A second run over the same members, started from the files the first
    run left, writes nothing. *)
Lemma run_workers_settled l : forall w w2,
  files w2 = files (snd (run_workers l w)) ->
  exists evs,
    snd (run_workers l w2) = mkworld (trace w2 ++ evs) (files w2)
    /\ written evs = [].
Proof.
  induction l as [|a l IH]; intros w w2 Hfiles.
  - exists []. split; [symmetry; apply world_app_nil | reflexivity].
  - rewrite run_workers_cons in Hfiles. rewrite run_workers_cons.
    (* a step of the second run that writes nothing, before the rest *)
    assert (Hstep : forall w1 r evs,
              written evs = [] ->
              _parse_open_json a w = (r, w1) ->
              _parse_open_json a w2 = (r, mkworld (trace w2 ++ evs) (files w2)) ->
              exists evs',
                snd match _parse_open_json a w2 with
                    | (Return _, w') => run_workers l w'
                    | (Raise e, w') => (Raise e, w')
                    end
                = mkworld (trace w2 ++ evs') (files w2)
                /\ written evs' = []).
    { intros w1 r evs Hw H1 H2. rewrite H1 in Hfiles. rewrite H2.
      destruct r as [u|e].
      - destruct (IH w1 (mkworld (trace w2 ++ evs) (files w2)) Hfiles) as [evs' [Hrun Hw']].
        exists (evs ++ evs')%list. split.
        + rewrite Hrun. simpl. now rewrite app_assoc.
        + now rewrite written_app, Hw, Hw'.
      - now exists evs. }
    destruct (worker_summary a) as [[r [evs [Hw H]]] | [p [Hskip Habsent]]].
    + exact (Hstep _ r evs Hw (H w) (H w2)).
    + (* whether the target is there after the first run *)
      assert (Hkept : dict_has p (files (snd (_parse_open_json a w))) = true ->
                      dict_has p (files w2) = true).
      { intros Hp. rewrite Hfiles.
        destruct (_parse_open_json a w) as [[u|e] w1]; simpl in Hp |- *.
        - now apply run_workers_monotone.
        - exact Hp. }
      destruct (dict_has p (files w2)) eqn:Hp2.
      * destruct (dict_has p (files w)) eqn:Hp.
        -- exact (Hstep _ _ [Log "info" ("File already exists: " ++ p)] eq_refl
                        (Hskip w Hp) (Hskip w2 Hp2)).
        -- destruct Habsent as [[r [evs [Hw H]]] | [evs [fc [Hw H]]]].
           ++ destruct r as [[]|e].
              ** rewrite (H w Hp) in Hfiles. rewrite (Hskip w2 Hp2).
                 destruct (IH _ (mkworld (trace w2 ++ [Log "info" ("File already exists: " ++ p)])
                                         (files w2)) Hfiles) as [evs' [Hrun Hw']].
                 eexists (_ :: evs'). split; [rewrite Hrun; simpl; now rewrite <- app_assoc|].
                 exact Hw'.
              ** rewrite (H w Hp) in Hfiles. simpl in Hfiles.
                 rewrite Hfiles in Hp2. congruence.
           ++ rewrite (H w Hp) in Hfiles. rewrite (Hskip w2 Hp2).
              destruct (IH _ (mkworld (trace w2 ++ [Log "info" ("File already exists: " ++ p)])
                                      (files w2)) Hfiles) as [evs' [Hrun Hw']].
              eexists (_ :: evs'). split; [rewrite Hrun; simpl; now rewrite <- app_assoc|].
              exact Hw'.
      * destruct (dict_has p (files w)) eqn:Hp.
        -- rewrite (Hskip w Hp) in Hkept. simpl in Hkept.
           discriminate (Hkept Hp).
        -- destruct Habsent as [[r [evs [Hw H]]] | [evs [fc [Hw H]]]].
           ++ exact (Hstep _ r evs Hw (H w Hp) (H w2 Hp2)).
           ++ rewrite (H w Hp) in Hkept. simpl in Hkept.
              rewrite dict_has_set, String.eqb_refl in Hkept.
              discriminate (Hkept eq_refl).
Qed.

(** C4.  A worker whose member decodes to [data] and yields the output
    path [path] ([json.load] comes first: the path is computed from the
    identifier the member holds) returns at once when the path exists:
    it logs that the file exists, walks none of the facts, builds no
    frame and writes nothing.  And a second bulk run over the same
    archive, started from the files the first run left, writes no
    file, whatever the numbers of processes of the two runs, unless the
    first run was refused its pool and the second was not. *)
Theorem parse_open_json_skips_existing :
  (forall filename z t2c c2t folder f data path w,
      dict_get filename (members z) = Some f ->
      member_output_path f z t2c c2t folder = Return (data, path) ->
      dict_has path (files w) = true ->
      _parse_open_json (filename, z, t2c, c2t, folder) w
      = (Return tt,
         mkworld (trace w ++ [Log "info" ("File already exists: " ++ path)]) (files w)))
  /\ (forall self z number_of_cores number_of_cores' w,
        let w1 := snd (parse_all_facts_in_latest_zip self z number_of_cores w) in
        1 <= number_of_cores \/ number_of_cores' < 1 ->
        exists evs,
          snd (parse_all_facts_in_latest_zip self z number_of_cores' w1)
          = mkworld (trace w1 ++ evs) (files w1)
          /\ written evs = []).
Proof.
  split.
  - intros filename z t2c c2t folder f data path w Hf Hpath Hex.
    unfold _parse_open_json. rewrite Hf. unfold try_except.
    rewrite bind_lift, Hpath. unfold bind, os_path_exists. now rewrite Hex.
  - intros self z n n' w w1 Hn. subst w1. unfold parse_all_facts_in_latest_zip.
    destruct (n' <? 1) eqn:En'.
    + exists []. split; [|reflexivity]. unfold raise. cbn [snd].
      rewrite app_nil_r. now destruct (snd _).
    + destruct (n <? 1) eqn:En; [apply Z.ltb_lt in En; apply Z.ltb_ge in En'; lia|].
      exact (run_workers_settled _ w _ eq_refl).
Qed.

(** ** The facts tables *)

Lemma computes_conv {A} (c : M A) r r' : computes c r' -> r' = r -> computes c r.
Proof. now intros H <-. Qed.

Lemma computes_ret {A} (a : A) : computes (ret a) (Return a).
Proof. intros w. reflexivity. Qed.

Lemma computes_raise {A} e : computes (@raise A e) (Raise e).
Proof. intros w. reflexivity. Qed.

Lemma computes_lift {A} (r : result A) : computes (lift r) r.
Proof. intros w. reflexivity. Qed.

Lemma computes_logger level msg : computes (logger level msg) (Return tt).
Proof. intros w. reflexivity. Qed.

Lemma computes_bind {A B} (c : M A) (k : A -> M B) r f :
  computes c r -> (forall a, computes (k a) (f a)) -> computes (bind c k) (rbind r f).
Proof.
  intros Hc Hk w. unfold bind. specialize (Hc w).
  destruct (c w) as [[a|e] w']; simpl in Hc; subst r; simpl; [apply Hk | reflexivity].
Qed.

Lemma computes_for_each {A S} (l : list A) (body : A -> S -> M S) F :
  (forall x s, computes (body x s) (F x s)) ->
  forall s, computes (for_each l body s) (rfold F l s).
Proof.
  intros Hbody. induction l as [|x l IH]; intros s; simpl.
  - apply computes_ret.
  - apply computes_bind; [apply Hbody | exact IH].
Qed.

Lemma forallb_filter_negb {A} (f : A -> bool) l :
  forallb f l = true -> filter (fun x => negb (f x)) l = [].
Proof.
  induction l as [|x l IH]; simpl; [reflexivity|].
  intros H. apply andb_true_iff in H as [Hx Hl]. rewrite Hx. simpl. now apply IH.
Qed.

Lemma computes_check_columns tag_name events_df :
  computes (check_columns tag_name events_df) (checked_frame events_df).
Proof.
  intros w. unfold check_columns, checked_frame.
  destruct (issubset ALLOWED_DATA_COLUMNS (column_labels events_df)) eqn:Hall; simpl.
  - unfold backfill, missing_columns, issubset in *.
    now rewrite (forallb_filter_negb _ _ Hall).
  - now destruct (issubset (missing_columns events_df) ["start"; "frame"]).
Qed.

Lemma parse_facts_json_result self json_dict :
  computes (parse_facts_json self json_dict) (parse_facts_result json_dict).
Proof.
  unfold parse_facts_json, parse_facts_result, facts_frames.
  eapply computes_conv.
  - repeat first
      [ apply computes_lift
      | apply computes_logger
      | apply computes_ret
      | apply computes_check_columns
      | eapply computes_for_each; intros
      | eapply computes_bind; [|intros] ].
  - reflexivity.
Qed.

Lemma as_records_map rows : as_records (map JObj rows) = Some rows.
Proof. induction rows as [|r rows IH]; simpl; [reflexivity | now rewrite IH]. Qed.

Lemma pd_DataFrame_records rows :
  pd_DataFrame (JArr (map JObj rows)) = Return (DataFrame_records rows).
Proof. unfold pd_DataFrame. now rewrite as_records_map. Qed.

Lemma dict_get_In {V} k (v : V) d :
  NoDup (dict_keys d) -> In (k, v) d -> dict_get k d = Some v.
Proof.
  induction d as [|[k' v'] d IH]; intros Hnd Hin; [destruct Hin|].
  simpl in Hnd. apply NoDup_cons_iff in Hnd as [Hnot Hnd]. simpl.
  destruct Hin as [Heq|Hin].
  - injection Heq as -> ->. now rewrite String.eqb_refl.
  - destruct (String.eqb k k') eqn:E.
    + apply String.eqb_eq in E. subst k'. exfalso. apply Hnot.
      unfold dict_keys. apply in_map_iff. now exists (k, v).
    + now apply IH.
Qed.

(** A loop over the keys of a dict that looks each key up is a loop over
    the entries. *)
Lemma rfold_keys {V S} (enc : V -> json) (G : string -> json -> S -> result S)
      (d : dict V) :
  NoDup (dict_keys d) ->
  forall s,
    rfold (fun k s =>
             rbind (getitem (JObj (map (fun kv => (fst kv, enc (snd kv))) d)) k)
                   (fun v => G k v s))
          (dict_keys d) s
    = rfold (fun kv s => G (fst kv) (enc (snd kv)) s) d s.
Proof.
  intros Hnd.
  assert (H : forall l, (forall kv, In kv l -> In kv d) ->
            forall s,
              rfold (fun k s =>
                       rbind (getitem (JObj (map (fun kv => (fst kv, enc (snd kv))) d)) k)
                             (fun v => G k v s))
                    (map fst l) s
              = rfold (fun kv s => G (fst kv) (enc (snd kv)) s) l s).
  { induction l as [|[k v] l IH]; intros Hincl s; [reflexivity|].
    cbn [map rfold fst snd]. unfold getitem at 1.
    rewrite (dict_get_map enc), (dict_get_In k v d Hnd (Hincl _ (or_introl eq_refl))).
    cbn [option_map rbind].
    destruct (G k (enc v) s) as [s'|e]; [|reflexivity].
    cbn [rbind]. apply IH. intros kv Hkv. apply Hincl. now right. }
  intros s. apply (H d). auto.
Qed.

(** Nested loops that collect the frames of their groups. *)
Lemma rfold_groups {A} (inner : A -> list (DataFrame multi_label)
                                -> result (list (DataFrame multi_label)))
      (gs : A -> list unit_group) (l : list A) :
  (forall x dfs, In x l ->
     inner x dfs = if groups_ok (gs x)
                   then Return (dfs ++ map unit_frame (gs x))%list
                   else Raise SystemExit) ->
  forall dfs,
    rfold inner l dfs
    = if groups_ok (flat_map gs l)
      then Return (dfs ++ map unit_frame (flat_map gs l))%list
      else Raise SystemExit.
Proof.
  induction l as [|x l IH]; intros Hinner dfs.
  - simpl. now rewrite app_nil_r.
  - cbn [rfold flat_map].
    replace (groups_ok (gs x ++ flat_map gs l))
      with (groups_ok (gs x) && groups_ok (flat_map gs l))
      by (unfold groups_ok; now rewrite forallb_app).
    rewrite map_app, (Hinner x dfs (or_introl eq_refl)).
    destruct (groups_ok (gs x)); cbn [rbind andb]; [|reflexivity].
    rewrite IH.
    + now rewrite app_assoc.
    + intros y dfs' Hy. apply Hinner. now right.
Qed.

Lemma keys_encoded {V} (enc : V -> json) (d : dict V) :
  keys (JObj (map (fun kv => (fst kv, enc (snd kv))) d)) = Return (dict_keys d).
Proof. unfold keys, dict_keys. now rewrite map_map. Qed.

Lemma flat_map_singleton {A B} (f : A -> B) l : flat_map (fun x => [f x]) l = map f l.
Proof. induction l as [|x l IH]; simpl; [reflexivity | now rewrite IH]. Qed.

(** The frames of a well-formed document: the column check stops the
    whole run at the first unit that fails it, and otherwise every unit
    contributes its frame in order. *)
Lemma parse_facts_result_doc entity facts :
  well_formed facts ->
  parse_facts_result (facts_json entity facts)
  = if groups_ok (groups facts)
    then concat_axis1 (map unit_frame (groups facts))
    else Raise SystemExit.
Proof.
  intros [Hnd Hsub].
  unfold parse_facts_result, facts_json. cbn [getitem dict_get String.eqb Ascii.eqb Bool.eqb rbind].
  rewrite (keys_encoded tags_json). cbn [rbind].
  unfold facts_frames. rewrite (rfold_keys tags_json _ facts Hnd).
  rewrite (rfold_groups _
             (fun tx => flat_map (fun tg => map (fun u => (fst tx, fst tg, fst u, snd u))
                                                (snd tg)) (snd tx))).
  - match goal with
    | |- context [groups_ok ?g] => change g with (groups facts)
    end.
    destruct (groups_ok (groups facts)); [|reflexivity].
    cbn [rbind app]. now destruct (concat_axis1 (map unit_frame (groups facts))).
  - intros [tax tags] dfs Htx. destruct (Hsub _ Htx) as [Hnd2 Hsub2].
    cbn [fst snd] in *. unfold tags_json at 1. rewrite (keys_encoded (fun us => JObj [("units", units_json us)])).
    cbn [rbind]. unfold tags_json.
    rewrite (rfold_keys (fun us => JObj [("units", units_json us)]) _ tags Hnd2).
    apply rfold_groups.
    intros [tag us] dfs' Htg. pose proof (Hsub2 _ Htg) as Hnd3.
    cbn [fst snd getitem dict_get String.eqb Ascii.eqb Bool.eqb rbind] in *.
    unfold units_json at 1. rewrite (keys_encoded (fun rows => JArr (map JObj rows))).
    cbn [rbind]. unfold units_json.
    rewrite (rfold_keys (fun rows => JArr (map JObj rows)) _ us Hnd3).
    rewrite <- (flat_map_singleton (fun u => (tax, tag, fst u, snd u))).
    apply rfold_groups.
    intros [unit rows] dfs'' _. unfold groups_ok. cbn [fst snd forallb map].
    rewrite pd_DataFrame_records. cbn [rbind]. unfold checked_frame. fold (unit_ok rows).
    rewrite andb_true_r. now destruct (unit_ok rows).
Qed.

(** ** The columns of a unit *)

Lemma add_keys_In c ks : forall acc,
  In c (fold_left (fun acc k => if str_in k acc then acc else (acc ++ [k])%list) ks acc)
  <-> In c acc \/ In c ks.
Proof.
  induction ks as [|k ks IH]; intros acc; simpl; [tauto|].
  rewrite IH. destruct (str_in k acc) eqn:E.
  - apply str_in_In in E. split; [tauto|]. intros [H|[->|H]]; tauto.
  - rewrite in_app_iff. simpl. tauto.
Qed.

Lemma union_keys_In c rows :
  In c (union_keys rows) <-> exists row, In row rows /\ dict_has c row = true.
Proof.
  unfold union_keys.
  assert (H : forall acc,
    In c (fold_left
            (fun acc r =>
               fold_left (fun acc k => if str_in k acc then acc else (acc ++ [k])%list)
                         (dict_keys r) acc) rows acc)
    <-> In c acc \/ exists row, In row rows /\ dict_has c row = true).
  { induction rows as [|r rows IH]; intros acc; simpl.
    - split; [tauto|]. intros [H|[row [[] _]]]. exact H.
    - assert (Hk : In c (dict_keys r) <-> dict_has c r = true).
      { rewrite dict_has_keys. symmetry. apply str_in_In. }
      rewrite IH, add_keys_In, Hk.
      split.
      + intros [[H|H]|[row [Hin H]]]; [tauto | right; exists r; tauto | right; exists row; tauto].
      + intros [H|[row [[<-|Hin] H]]]; [tauto | tauto | right; exists row; tauto]. }
  rewrite (H []). simpl. tauto.
Qed.

Lemma column_labels_records rows : column_labels (DataFrame_records rows) = union_keys rows.
Proof.
  unfold column_labels, DataFrame_records. simpl. rewrite map_map. simpl. apply map_id.
Qed.

(** The check on a unit looks at the columns of its frame, that is at
    the union of the keys of its rows. *)
Lemma unit_ok_iff rows :
  unit_ok rows = true
  <-> forall c, In c ALLOWED_DATA_COLUMNS ->
        (exists row, In row rows /\ dict_has c row = true) \/ c = "start" \/ c = "frame".
Proof.
  unfold unit_ok, issubset, missing_columns. rewrite forallb_forall, column_labels_records.
  split.
  - intros H c Hc. destruct (str_in c (union_keys rows)) eqn:E.
    + left. now apply union_keys_In, str_in_In.
    + right. assert (Hs : str_in c ["start"; "frame"] = true).
      { apply H, filter_In. split; [assumption | now rewrite E]. }
      apply str_in_In in Hs. simpl in Hs. intuition.
  - intros H c Hc. apply filter_In in Hc as [Hc Hmiss]. apply negb_true_iff in Hmiss.
    destruct (H c Hc) as [Hrow|Hs].
    + apply union_keys_In, str_in_In in Hrow. congruence.
    + apply str_in_In. simpl. intuition.
Qed.

Lemma backfill_frame df :
  backfill df
  = mkDataFrame (nrows df)
      (columns df ++ map (fun c => (c, repeat None (nrows df))) (missing_columns df)).
Proof.
  unfold backfill. generalize (missing_columns df) as l.
  assert (H : forall l d,
    fold_left (fun df c => add_nan_column c df) l d
    = mkDataFrame (nrows d) (columns d ++ map (fun c => (c, repeat None (nrows d))) l)).
  { induction l as [|c l IH]; intros d; simpl.
    - rewrite app_nil_r. now destruct d.
    - rewrite IH. simpl. now rewrite <- app_assoc. }
  intros l. apply H.
Qed.

(** After the check every core column is in the frame of the unit: with
    the rows' own values when some row carries it, as a column of NaN
    otherwise. *)
Lemma unit_frame_columns tax tag unit rows c :
  In c ALLOWED_DATA_COLUMNS ->
  In ((tax, tag, unit, c),
      if str_in c (union_keys rows) then map (dict_get c) rows
      else repeat None (length rows))
     (columns (unit_frame (tax, tag, unit, rows))).
Proof.
  intros Hc. unfold unit_frame. rewrite backfill_frame. unfold set_multi_index.
  cbn [columns nrows DataFrame_records].
  apply in_map_iff.
  exists (c, if str_in c (union_keys rows) then map (dict_get c) rows
             else repeat None (length rows)).
  split; [reflexivity|]. apply in_app_iff.
  destruct (str_in c (union_keys rows)) eqn:E.
  - left. apply in_map_iff. exists c. split; [reflexivity | now apply str_in_In].
  - right. apply in_map_iff. exists c. split; [reflexivity|].
    unfold missing_columns. apply filter_In. split; [assumption|].
    rewrite column_labels_records, E. reflexivity.
Qed.

Lemma concat_axis1_columns {L} (dfs : list (DataFrame L)) df d l v :
  concat_axis1 dfs = Return df -> In d dfs -> In (l, v) (columns d) ->
  In (l, pad_column (nrows df) v) (columns df).
Proof.
  intros H Hd Hl.
  set (n := fold_left Nat.max (map nrows dfs) O).
  assert (E : df = mkDataFrame n
                     (flat_map (fun df => map (fun col => (fst col, pad_column n (snd col)))
                                              (columns df)) dfs)).
  { subst n. destruct dfs as [|d0 dfs']; [destruct Hd|].
    unfold concat_axis1 in H. injection H as H. now rewrite <- H. }
  rewrite E. cbn [columns nrows].
  apply in_flat_map. exists d. split; [assumption|].
  apply in_map_iff. now exists (l, v).
Qed.

(** C2, as the code has it.  The check is made per unit and on the
    columns of the unit's frame, the union of the keys of its rows.  For
    a document whose dicts have each key once:
    - when in every unit each core column is carried by some row or is
      [start] or [frame], and there is a unit, [parse_facts_json] returns
      a table that has every core column of every unit, filled with NaN
      where no row of the unit carries it;
    - when in some unit a core column other than [start] and [frame] is
      carried by no row, the whole run ends with [SystemExit]. *)
Theorem parse_facts_json_checks_units self entity facts w :
  well_formed facts ->
  ((forall tax tag unit rows, In (tax, tag, unit, rows) (groups facts) ->
      forall c, In c ALLOWED_DATA_COLUMNS ->
        (exists row, In row rows /\ dict_has c row = true) \/ c = "start" \/ c = "frame") ->
   groups facts <> [] ->
   exists df,
     fst (parse_facts_json self (facts_json entity facts) w) = Return df
     /\ forall tax tag unit rows c,
          In (tax, tag, unit, rows) (groups facts) -> In c ALLOWED_DATA_COLUMNS ->
          In ((tax, tag, unit, c),
              pad_column (nrows df)
                (if str_in c (union_keys rows) then map (dict_get c) rows
                 else repeat None (length rows)))
             (columns df))
  /\ ((exists tax tag unit rows c,
          In (tax, tag, unit, rows) (groups facts) /\ In c ALLOWED_DATA_COLUMNS
          /\ (forall row, In row rows -> dict_has c row = false)
          /\ c <> "start" /\ c <> "frame") ->
      fst (parse_facts_json self (facts_json entity facts) w) = Raise SystemExit).
Proof.
  intros Hwf. rewrite (parse_facts_json_result self (facts_json entity facts) w).
  rewrite (parse_facts_result_doc entity facts Hwf). split.
  - intros Hok Hne.
    assert (Hall : groups_ok (groups facts) = true).
    { apply forallb_forall. intros [[[tax tag] unit] rows] Hg. cbn [snd].
      apply unit_ok_iff. exact (Hok _ _ _ _ Hg). }
    rewrite Hall.
    destruct (concat_axis1 (map unit_frame (groups facts))) as [df|e] eqn:Hc.
    + exists df. split; [reflexivity|].
      intros tax tag unit rows c Hg Hcol.
      apply (concat_axis1_columns _ _ (unit_frame (tax, tag, unit, rows)) _ _ Hc).
      * apply in_map_iff. now exists (tax, tag, unit, rows).
      * now apply unit_frame_columns.
    + exfalso. destruct (groups facts); [now apply Hne | discriminate Hc].
  - intros [tax [tag [unit [rows [c [Hg [Hc [Hnone [Hs Hf]]]]]]]]].
    assert (Hbad : groups_ok (groups facts) = false).
    { destruct (groups_ok (groups facts)) eqn:E; [|reflexivity]. exfalso.
      unfold groups_ok in E. rewrite forallb_forall in E.
      specialize (E _ Hg). cbn [snd] in E.
      destruct (proj1 (unit_ok_iff rows) E c Hc) as [[row [Hin Hhas]] | [H|H]];
        [rewrite (Hnone row Hin) in Hhas; discriminate | contradiction | contradiction]. }
    now rewrite Hbad.
Qed.

(** ** The transport's errors *)

(** A response with a 4xx or 5xx status surfaces as [EdgarAPIError] with
    the status and the URL of the response. *)
Lemma rate_limited_get_status_error self u headers host w resp :
  (forall hs, session_get X (trace w) u hs = Responds resp) ->
  raises_for_status resp = true ->
  fst (_rate_limited_get self u headers host w)
  = Raise (EdgarAPIError HTTPError (Some (status_code resp)) (Some (Response_url resp))).
Proof.
  intros Hs Hr. unfold _rate_limited_get. rewrite Hs, Hr. reflexivity.
Qed.

(** An exception raised by [Session.get] itself comes out as it is: the
    call is made before the [try]. *)
Lemma rate_limited_get_session_raises self u headers host w e :
  (forall hs, session_get X (trace w) u hs = SessionRaises e) ->
  fst (_rate_limited_get self u headers host w) = Raise (Requests e).
Proof.
  intros Hs. unfold _rate_limited_get. rewrite Hs. reflexivity.
Qed.

(** ** Filing descriptors *)

(** [acc_num.replace("-", "")] drops every dash and nothing else. *)
Lemma replace_dash s :
  replace "-" "" s = str (filter (fun c => negb (Ascii.eqb c "-"%char)) (chars s)).
Proof.
  unfold replace. induction s as [|c s IH]; [reflexivity|].
  cbn [replace_from String.prefix String.length Nat.sub]. unfold chars, str in *.
  cbn [list_ascii_of_string filter].
  destruct (ascii_dec c "-"%char) as [->|Hne].
  - cbn. destruct s; exact IH.
  - assert (E : Ascii.eqb c "-"%char = false) by now apply Ascii.eqb_neq.
    rewrite E. cbn [negb string_of_list_ascii]. rewrite <- IH.
    destruct (ascii_dec "-"%char c) as [Heq|_]; [congruence | reflexivity].
Qed.

(** ** The directory *)

Lemma bind_fst_Return {A B} (c : M A) (k : A -> M B) w b :
  fst (bind c k w) = Return b ->
  exists a w', c w = (Return a, w') /\ fst (k a w') = Return b.
Proof.
  unfold bind. destruct (c w) as [[a|e] w']; intros H; [|discriminate H].
  now exists a, w'.
Qed.

(** The third mapping is built from the items of the first, like the
    second: it is the second. *)
Lemma get_ticker_cik_name_mapping_names self w ticker_to_cik cik_to_ticker cik_to_name :
  fst (get_ticker_cik_name_mapping self w)
  = Return (ticker_to_cik, cik_to_ticker, cik_to_name) ->
  cik_to_ticker = invert_items ticker_to_cik /\ cik_to_name = cik_to_ticker.
Proof.
  unfold get_ticker_cik_name_mapping. intros H.
  repeat (apply bind_fst_Return in H as [? [? [_ H]]]).
  cbv zeta in H. unfold ret in H. simpl in H.
  injection H as <- <- <-. split; reflexivity.
Qed.

(** * Further properties *)

(** ** Slices and traces *)

Lemma take_nonpos {A} n (l : list A) : n <= 0 -> take n l = [].
Proof.
  intros Hn. destruct l as [|x l]; [reflexivity|]. simpl.
  destruct (0 <? n) eqn:E; [|reflexivity]. apply Z.ltb_lt in E. lia.
Qed.

Lemma take_all {A} (l : list A) : forall n, Z.of_nat (length l) <= n -> take n l = l.
Proof.
  induction l as [|x l IH]; intros n Hn; [reflexivity|].
  simpl length in Hn. simpl.
  destruct (0 <? n) eqn:E; [|apply Z.ltb_ge in E; lia].
  rewrite IH; [reflexivity | lia].
Qed.

Lemma take_app {A} (l1 l2 : list A) : forall n,
  take n (l1 ++ l2) = (take n l1 ++ take (n - Z.of_nat (length l1)) l2)%list.
Proof.
  induction l1 as [|x l1 IH]; intros n.
  - simpl. now rewrite Z.sub_0_r.
  - simpl length. cbn [app take]. destruct (0 <? n) eqn:E.
    + rewrite IH. simpl. f_equal. f_equal. f_equal. lia.
    + apply Z.ltb_ge in E. simpl. symmetry. apply take_nonpos. lia.
Qed.

Lemma take_length {A} (l : list A) : forall n,
  0 <= n -> Z.of_nat (length (take n l)) = Z.min n (Z.of_nat (length l)).
Proof.
  induction l as [|x l IH]; intros n Hn; [simpl; lia|].
  cbn [take]. destruct (0 <? n) eqn:E.
  - apply Z.ltb_lt in E. simpl length. rewrite !Nat2Z.inj_succ, IH; lia.
  - apply Z.ltb_ge in E. simpl length. lia.
Qed.

Lemma requested_app evs1 evs2 :
  requested (evs1 ++ evs2) = (requested evs1 ++ requested evs2)%list.
Proof. unfold requested. now rewrite flat_map_app. Qed.

Lemma requested_map_Accepted tds : requested (map Accepted tds) = [].
Proof. induction tds as [|td tds IH]; simpl; [reflexivity | exact IH]. Qed.

Lemma written_map_Accepted tds : written (map Accepted tds) = [].
Proof. induction tds as [|td tds IH]; simpl; [reflexivity | exact IH]. Qed.

(** ** The aggregator on a listed archive *)

Lemma rate_limited_get_serves self u j headers host w :
  serves u j ->
  exists resp hs,
    _rate_limited_get self u headers host w
    = (Return resp, mkworld (trace w ++ [Request u hs]) (files w))
    /\ json_body resp = Some j.
Proof.
  intros Hs. unfold _rate_limited_get.
  match goal with
  | |- context [Request u ?h] => destruct (Hs (trace w) h) as [resp [E [Hok Hj]]]; exists resp, h
  end.
  rewrite E, Hok. split; [reflexivity | exact Hj].
Qed.

Lemma zip_strict_rows (rows : list filing_row) :
  zip_strict (map (fun r => fst (fst (fst (row_json r)))) rows)
             (map (fun r => snd (fst (fst (row_json r)))) rows)
             (map (fun r => snd (fst (row_json r))) rows)
             (map (fun r => snd (row_json r)) rows)
  = (map row_json rows, true).
Proof.
  induction rows as [|[[[a f] d] t] rows IH]; [reflexivity|].
  cbn [map zip_strict row_json fst snd]. cbn [map row_json fst snd] in IH. now rewrite IH.
Qed.

Lemma page_rows_listed md rows fs n w :
  page_rows md (rows_page rows) fs n w = for_rows md (map row_json rows) true fs n w.
Proof.
  unfold page_rows.
  assert (E1 : getitem (rows_page rows) "accessionNumber"
               = Return (JArr (map (fun r => fst (fst (fst (row_json r)))) rows))) by reflexivity.
  assert (E2 : getitem (rows_page rows) "form"
               = Return (JArr (map (fun r => snd (fst (fst (row_json r)))) rows))) by reflexivity.
  assert (E3 : getitem (rows_page rows) "primaryDocument"
               = Return (JArr (map (fun r => snd (fst (row_json r))) rows))) by reflexivity.
  assert (E4 : getitem (rows_page rows) "filingDate"
               = Return (JArr (map (fun r => snd (row_json r)) rows))) by reflexivity.
  rewrite E1, E2, E3, E4. rewrite !bind_lift. cbn [iter]. rewrite !bind_lift.
  now rewrite zip_strict_rows.
Qed.

Lemma row_passes_kept md acc_num f doc f_date :
  strptime X (DATE_FORMAT_TOKENS K) f_date <> None ->
  row_passes md (JStr f) (JStr f_date) = Return (row_kept md (acc_num, f, doc, f_date)).
Proof.
  intros Hd. unfold row_passes, row_kept, within_requested_date_range.
  destruct (strptime X (DATE_FORMAT_TOKENS K) f_date) as [d|]; [|now destruct Hd].
  destruct (str_in f (forms md)); simpl; [|reflexivity].
  destruct (include_amends md); simpl; [reflexivity|].
  now destruct (endswith f (AMENDS_SUFFIX K)).
Qed.

(** The loop over the rows of a page: it appends the rows that pass, up
    to the room left. *)
Lemma for_rows_listed md rows : forall fs n w,
  n < limit md -> dates_parse rows ->
  for_rows md (map row_json rows) true fs n w
  = let ks := kept_filings md rows in
    if n + Z.of_nat (length ks) <? limit md
    then (Return (Continue (fs ++ ks) (n + Z.of_nat (length ks))),
          mkworld (trace w ++ map Accepted ks) (files w))
    else (Return (Returned (fs ++ take (limit md - n) ks)),
          mkworld (trace w ++ map Accepted (take (limit md - n) ks)) (files w)).
Proof.
  induction rows as [|[[[acc_num f] doc] f_date] rows IH]; intros fs n w Hn Hd.
  - cbn. rewrite Z.add_0_r. apply Z.ltb_lt in Hn. rewrite Hn.
    rewrite !app_nil_r. now destruct w.
  - assert (Hd' : dates_parse rows) by (intros r Hr; apply Hd; now right).
    cbn [map row_json for_rows]. rewrite bind_lift.
    rewrite (row_passes_kept md acc_num f doc f_date (Hd _ (or_introl eq_refl))).
    unfold kept_filings at 1 2 3 4 5 6. cbn [flat_map].
    fold (kept_filings md rows).
    destruct (row_kept md (acc_num, f, doc, f_date)); cbn [negb].
    + rewrite bind_lift. cbn [py_str get_to_download]. rewrite bind_emit.
      match goal with
      | |- context [Accepted ?t] => set (td := t)
      end.
      cbn [app length]. cbv zeta.
      destruct (n + 1 =? limit md) eqn:E.
      * apply Z.eqb_eq in E.
        assert (E' : (n + Z.of_nat (S (length (kept_filings md rows))) <? limit md) = false)
          by (apply Z.ltb_ge; lia).
        rewrite E'. cbn [take].
        replace (0 <? limit md - n) with true by (symmetry; apply Z.ltb_lt; lia).
        rewrite (take_nonpos (limit md - n - 1)) by lia. reflexivity.
      * apply Z.eqb_neq in E. rewrite IH by (assumption || lia). cbv zeta.
        replace (n + Z.of_nat (S (length (kept_filings md rows))))
          with (n + 1 + Z.of_nat (length (kept_filings md rows))) by lia.
        destruct (n + 1 + Z.of_nat (length (kept_filings md rows)) <? limit md).
        -- cbn [trace files]. rewrite <- !app_assoc. reflexivity.
        -- cbn [take trace files].
           replace (0 <? limit md - n) with true by (symmetry; apply Z.ltb_lt; lia).
           replace (limit md - n - 1) with (limit md - (n + 1)) by lia.
           rewrite <- !app_assoc. reflexivity.
    + cbn [app]. apply IH; assumption.
Qed.

Lemma pages_read_cons room c rest :
  pages_read room (c :: rest) = S (if c <? room then pages_read (room - c) rest else O).
Proof. reflexivity. Qed.

(** The rounds of the loop after the first, on listed pages. *)
Lemma continuation_pages_listed self md : forall entries pages fs n w,
  n < limit md ->
  Forall2 (fun entry p =>
             getitem entry "name" = Return (JStr (fst p))
             /\ serves (URL_PAGINATED_SUBMISSIONS K (fst p)) (rows_page (snd p)))
          entries pages ->
  (forall rows, In rows (map snd pages) -> dates_parse rows) ->
  exists evs,
    continuation_pages self md entries fs n w
    = (Return (fs ++ take (limit md - n) (flat_map (kept_filings md) (map snd pages)))%list,
       mkworld (trace w ++ evs) (files w))
    /\ requested evs
       = firstn (pages_read (limit md - n)
                   (map (fun rows => Z.of_nat (length (kept_filings md rows))) (map snd pages)))
                (map (fun p => URL_PAGINATED_SUBMISSIONS K (fst p)) pages).
Proof.
  intros entries pages fs n w Hn Hall. revert fs n w Hn.
  induction Hall as [|entry [name rows] entries pages [Hname Hserve] Hall IH];
    intros fs n w Hn Hd.
  - exists []. cbn. rewrite !app_nil_r. split; [now destruct w | reflexivity].
  - cbn [fst snd] in Hname, Hserve.
    cbn [continuation_pages]. rewrite bind_lift, Hname. cbn [py_str].
    apply Z.ltb_lt in Hn as Hn'. rewrite Hn'.
    destruct (rate_limited_get_serves self _ _ None None w Hserve) as [resp [hs [Eget Hj]]].
    rewrite (bind_Return _ _ Eget). rewrite bind_lift. unfold Response_json. rewrite Hj.
    set (w1 := mkworld (trace w ++ [Request (URL_PAGINATED_SUBMISSIONS K name) hs]) (files w)).
    assert (Hrows : dates_parse rows) by (apply Hd; now left).
    unfold bind at 1. rewrite page_rows_listed, (for_rows_listed md rows fs n w1 Hn Hrows).
    cbv zeta. cbn [map fst snd flat_map]. rewrite pages_read_cons.
    set (ks := kept_filings md rows).
    destruct (n + Z.of_nat (length ks) <? limit md) eqn:E.
    + apply Z.ltb_lt in E.
      destruct (IH (fs ++ ks)%list (n + Z.of_nat (length ks))
                   (mkworld (trace w1 ++ map Accepted ks) (files w1)) E)
        as [evs [Hrun Hreq]].
      { intros rows' Hin. apply Hd. now right. }
      rewrite Hrun.
      exists ([Request (URL_PAGINATED_SUBMISSIONS K name) hs] ++ map Accepted ks ++ evs)%list.
      split.
      * f_equal.
        -- f_equal. rewrite take_app, (take_all ks) by lia. rewrite <- app_assoc.
           f_equal. f_equal. f_equal. lia.
        -- subst w1. cbn [trace files]. now rewrite <- !app_assoc.
      * rewrite !requested_app, requested_map_Accepted, Hreq. cbn [requested flat_map app].
        replace (Z.of_nat (length ks) <? limit md - n) with true
          by (symmetry; apply Z.ltb_lt; lia).
        cbn [firstn]. f_equal. f_equal. f_equal. lia.
    + apply Z.ltb_ge in E.
      exists ([Request (URL_PAGINATED_SUBMISSIONS K name) hs]
              ++ map Accepted (take (limit md - n) ks))%list.
      unfold ret. split.
      * f_equal.
        -- f_equal. f_equal. rewrite take_app.
           rewrite (take_nonpos (limit md - n - Z.of_nat (length ks))) by lia.
           now rewrite app_nil_r.
        -- subst w1. cbn [trace files]. now rewrite <- !app_assoc.
      * rewrite requested_app, requested_map_Accepted. cbn [requested flat_map app].
        replace (Z.of_nat (length ks) <? limit md - n) with false
          by (symmetry; apply Z.ltb_ge; lia).
        reflexivity.
Qed.

(** X1.  On an archive that lists a recent batch and continuation pages
    of rows whose dates read, with a limit [L >= 1],
    [aggregate_forms_to_download] returns the first [L] of the filings
    that pass the filter, in the order the archive lists them (all of
    them when there are fewer); it requests the first page and then the
    continuation pages in listed order, each once, and a page only when
    the pages before it hold fewer than [L] filings that pass. *)
Theorem aggregate_forms_to_download_listed self md w j filings recent entries pages :
  1 <= limit md ->
  serves (URL_SUBMISSIONS K (cik md)) j ->
  getitem j "filings" = Return filings ->
  getitem filings "recent" = Return (rows_page recent) ->
  getitem filings "files" = Return (JArr entries) ->
  Forall2 (fun entry p =>
             getitem entry "name" = Return (JStr (fst p))
             /\ serves (URL_PAGINATED_SUBMISSIONS K (fst p)) (rows_page (snd p)))
          entries pages ->
  (forall rows, In rows (recent :: map snd pages) -> dates_parse rows) ->
  fst (aggregate_forms_to_download self md w)
  = Return (take (limit md) (flat_map (kept_filings md) (recent :: map snd pages)))
  /\ exists evs,
       snd (aggregate_forms_to_download self md w) = mkworld (trace w ++ evs) (files w)
       /\ requested evs
          = firstn (pages_read (limit md)
                      (map (fun rows => Z.of_nat (length (kept_filings md rows)))
                           (recent :: map snd pages)))
                   (URL_SUBMISSIONS K (cik md)
                    :: map (fun p => URL_PAGINATED_SUBMISSIONS K (fst p)) pages).
Proof.
  intros HL Hserve Hfilings Hrecent Hfiles Hpages Hd.
  assert (Hrun : exists evs,
    aggregate_forms_to_download self md w
    = (Return (take (limit md) (flat_map (kept_filings md) (recent :: map snd pages))),
       mkworld (trace w ++ evs) (files w))
    /\ requested evs
       = firstn (pages_read (limit md)
                   (map (fun rows => Z.of_nat (length (kept_filings md rows)))
                        (recent :: map snd pages)))
                (URL_SUBMISSIONS K (cik md)
                 :: map (fun p => URL_PAGINATED_SUBMISSIONS K (fst p)) pages)).
  { unfold aggregate_forms_to_download.
    assert (H0 : 0 < limit md) by lia.
    apply Z.ltb_lt in H0 as H0'. rewrite H0'.
    destruct (rate_limited_get_serves self _ _ None None w Hserve) as [resp [hs [Eget Hj]]].
    rewrite (bind_Return _ _ Eget). rewrite bind_lift. unfold Response_json. rewrite Hj.
    rewrite bind_lift, Hfilings, bind_lift, Hrecent, bind_lift, Hfiles, bind_lift.
    cbn [iter].
    set (w1 := mkworld (trace w ++ [Request (URL_SUBMISSIONS K (cik md)) hs]) (files w)).
    assert (Hrows : dates_parse recent) by (apply Hd; now left).
    unfold bind at 1. rewrite page_rows_listed, (for_rows_listed md recent [] 0 w1 H0 Hrows).
    cbv zeta. cbn [map flat_map]. rewrite pages_read_cons.
    set (ks := kept_filings md recent).
    rewrite Z.add_0_l, Z.sub_0_r.
    destruct (Z.of_nat (length ks) <? limit md) eqn:E.
    - apply Z.ltb_lt in E.
      destruct (continuation_pages_listed self md entries pages ([] ++ ks)%list
                  (Z.of_nat (length ks))
                  (mkworld (trace w1 ++ map Accepted ks) (files w1)) E Hpages)
        as [evs [Hrun Hreq]].
      { intros rows' Hin. apply Hd. now right. }
      rewrite Hrun.
      exists ([Request (URL_SUBMISSIONS K (cik md)) hs] ++ map Accepted ks ++ evs)%list.
      split.
      + f_equal.
        * f_equal. rewrite take_app, (take_all ks) by lia. reflexivity.
        * subst w1. cbn [trace files]. now rewrite <- !app_assoc.
      + rewrite !requested_app, requested_map_Accepted, Hreq. reflexivity.
    - apply Z.ltb_ge in E. unfold ret.
      exists ([Request (URL_SUBMISSIONS K (cik md)) hs]
              ++ map Accepted (take (limit md) ks))%list.
      split.
      + f_equal.
        * f_equal. rewrite take_app.
          rewrite (take_nonpos (limit md - Z.of_nat (length ks))) by lia.
          now rewrite app_nil_r.
        * subst w1. cbn [trace files]. now rewrite <- !app_assoc.
      + rewrite requested_app, requested_map_Accepted. reflexivity. }
  destruct Hrun as [evs [Hrun Hreq]]. rewrite Hrun. split; [reflexivity|].
  now exists evs.
Qed.

(** ** Arrays of unequal length *)

Lemma zip_strict_ok_length {A B C D} (a : list A) : forall (b : list B) (c : list C) (d : list D),
  snd (zip_strict a b c d) = true ->
  length a = length b /\ length b = length c /\ length c = length d.
Proof.
  induction a as [|x a IH]; intros [|y b] [|z c] [|t d] H; try discriminate H.
  - repeat split.
  - cbn [zip_strict] in H. specialize (IH b c d).
    destruct (zip_strict a b c d) as [rows ok]. cbn [snd] in H, IH.
    destruct (IH H) as [E1 [E2 E3]]. simpl. repeat split; congruence.
Qed.

(** After rows that [zip] cut short the loop does not reach the next
    page. *)
Lemma for_rows_cut_short md rows : forall fs n w fs' n',
  fst (for_rows md rows false fs n w) <> Return (Continue fs' n').
Proof.
  induction rows as [|[[[acc_num f] doc] f_date] rows IH]; intros fs n w fs' n'.
  - cbn. discriminate.
  - cbn [for_rows]. rewrite bind_lift.
    destruct (row_passes md f f_date) as [keep|e]; [|cbn; discriminate].
    destruct keep; cbn [negb]; [|apply IH].
    rewrite bind_lift.
    destruct (get_to_download (cik md) acc_num (py_str f) doc) as [td|e]; [|cbn; discriminate].
    rewrite bind_emit.
    destruct (n + 1 =? limit md); [cbn; discriminate | apply IH].
Qed.

Lemma page_rows_cut_short md page a b c d fs n w fs' n' :
  getitem page "accessionNumber" = Return (JArr a) ->
  getitem page "form" = Return (JArr b) ->
  getitem page "primaryDocument" = Return (JArr c) ->
  getitem page "filingDate" = Return (JArr d) ->
  ~ (length a = length b /\ length b = length c /\ length c = length d) ->
  fst (page_rows md page fs n w) <> Return (Continue fs' n').
Proof.
  intros Ha Hb Hc Hd Hlen. unfold page_rows.
  rewrite Ha, Hb, Hc, Hd, !bind_lift. cbn [iter]. rewrite !bind_lift.
  pose proof (zip_strict_ok_length a b c d) as Hz.
  destruct (zip_strict a b c d) as [rows ok]. cbn [snd] in Hz.
  destruct ok; [now destruct Hlen; apply Hz|].
  apply for_rows_cut_short.
Qed.

(** X2.  When the four arrays of the first page differ in length (and
    the limit is at least 1), [aggregate_forms_to_download] requests that
    page only, and it returns normally only with exactly [limit] filings,
    all from the rows before the shortest array ends: otherwise it
    raises, so a list cut short by the mismatch is never returned. *)
Theorem aggregate_forms_to_download_unequal_arrays self md w j filings page a b c d :
  1 <= limit md ->
  serves (URL_SUBMISSIONS K (cik md)) j ->
  getitem j "filings" = Return filings ->
  getitem filings "recent" = Return page ->
  getitem page "accessionNumber" = Return (JArr a) ->
  getitem page "form" = Return (JArr b) ->
  getitem page "primaryDocument" = Return (JArr c) ->
  getitem page "filingDate" = Return (JArr d) ->
  ~ (length a = length b /\ length b = length c /\ length c = length d) ->
  exists evs,
    snd (aggregate_forms_to_download self md w) = mkworld (trace w ++ evs) (files w)
    /\ requested evs = [URL_SUBMISSIONS K (cik md)]
    /\ ((exists e, fst (aggregate_forms_to_download self md w) = Raise e)
        \/ (fst (aggregate_forms_to_download self md w) = Return (accepted evs)
            /\ Z.of_nat (length (accepted evs)) = limit md)).
Proof.
  intros HL Hserve Hfilings Hrecent Ha Hb Hc Hd Hlen.
  unfold aggregate_forms_to_download.
  assert (H0 : 0 < limit md) by lia.
  apply Z.ltb_lt in H0 as H0'. rewrite H0'.
  destruct (rate_limited_get_serves self _ _ None None w Hserve) as [resp [hs [Eget Hj]]].
  rewrite (bind_Return _ _ Eget). rewrite bind_lift. unfold Response_json. rewrite Hj.
  rewrite bind_lift, Hfilings, bind_lift, Hrecent, bind_lift.
  set (u := URL_SUBMISSIONS K (cik md)).
  set (w1 := mkworld (trace w ++ [Request u hs]) (files w)).
  assert (Hstop : forall e,
    exists evs, snd (@Raise (list FormToDownload) e, w1) = mkworld (trace w ++ evs) (files w)
      /\ requested evs = [u]
      /\ ((exists e', fst (@Raise (list FormToDownload) e, w1) = Raise e')
          \/ (fst (@Raise (list FormToDownload) e, w1) = Return (accepted evs)
              /\ Z.of_nat (length (accepted evs)) = limit md))).
  { intros e. exists [Request u hs]. split; [reflexivity|]. split; [reflexivity|].
    left. now exists e. }
  destruct (getitem filings "files") as [files_json|e]; [|apply Hstop].
  rewrite bind_lift. destruct (iter files_json) as [queue|e]; [|apply Hstop].
  pose proof (page_rows_run md page [] 0 w1 H0) as [tds [Hw Hr]].
  pose proof (page_rows_cut_short md page a b c d [] 0 w1) as Hcut.
  specialize (fun fs' n' => Hcut fs' n' Ha Hb Hc Hd Hlen).
  unfold bind.
  destruct (page_rows md page [] 0 w1) as [[[fs'|fs' n']|e] w2]; cbn [fst snd] in Hw, Hr, Hcut.
  - destruct Hr as [-> Hlimit]. subst w2. unfold ret.
    exists ([Request u hs] ++ map Accepted tds)%list. split.
    { subst w1. cbn [trace files snd]. now rewrite <- app_assoc. }
    split; [now rewrite requested_app, requested_map_Accepted|].
    right. rewrite accepted_app, accepted_map_Accepted. cbn [accepted flat_map app fst].
    split; [reflexivity | lia].
  - now destruct (Hcut fs' n').
  - subst w2. exists ([Request u hs] ++ map Accepted tds)%list. split.
    { subst w1. cbn [trace files snd]. now rewrite <- app_assoc. }
    split; [now rewrite requested_app, requested_map_Accepted|].
    left. now exists e.
Qed.

(** ** Downloading the filings *)

Lemma collects_nil fs0 r :
  (forall fs, r = Return fs -> fs = fs0) -> collects fs0 r [].
Proof.
  intros H. split; [reflexivity|]. intros fs Hr. cbn. rewrite app_nil_r. now apply H.
Qed.

Lemma collects_app fs0 r evs1 evs2 :
  written evs1 = [] ->
  collects (fs0 ++ accepted evs1) r evs2 -> collects fs0 r (evs1 ++ evs2).
Proof.
  intros Hw [Hw2 Hr]. split.
  - now rewrite written_app, Hw, Hw2.
  - intros fs H. rewrite (Hr fs H), accepted_app. now rewrite app_assoc.
Qed.

(** A page and the rest [k] of the loop. *)
Lemma round_collects md page (k : list FormToDownload -> Z -> M (list FormToDownload)) :
  (forall fs n w, exists evs, snd (k fs n w) = mkworld (trace w ++ evs) (files w)
                              /\ collects fs (fst (k fs n w)) evs) ->
  forall fs n w, n < limit md ->
    let c := (r <- page_rows md page fs n ;;
              match r with
              | Returned fs' => ret fs'
              | Continue fs' n' => k fs' n'
              end) in
    exists evs, snd (c w) = mkworld (trace w ++ evs) (files w)
                /\ collects fs (fst (c w)) evs.
Proof.
  intros Hk fs n w Hn c. subst c. unfold bind.
  destruct (page_rows_run md page fs n w Hn) as [tds [Hw Hr]].
  destruct (page_rows md page fs n w) as [r w1]. cbn [fst snd] in Hw, Hr. subst w1.
  destruct r as [[fs'|fs' n']|e].
  - destruct Hr as [-> _]. exists (map Accepted tds). split; [reflexivity|].
    split; [apply written_map_Accepted|].
    intros fs' H. injection H as <-. now rewrite accepted_map_Accepted.
  - destruct Hr as [-> [-> _]].
    destruct (Hk (fs ++ tds)%list (n + Z.of_nat (length tds))
                 (mkworld (trace w ++ map Accepted tds) (files w))) as [evs [Hw Hc]].
    exists (map Accepted tds ++ evs)%list. split.
    + rewrite Hw. cbn [trace files]. now rewrite app_assoc.
    + apply collects_app; [apply written_map_Accepted|].
      now rewrite accepted_map_Accepted.
  - exists (map Accepted tds). split; [reflexivity|].
    split; [apply written_map_Accepted|]. intros fs' H. discriminate H.
Qed.

(** A request, the reading of its page, and the rest [k]. *)
Lemma fetch_collects self u (k : json -> M (list FormToDownload)) fs w :
  (forall j w', exists evs, snd (k j w') = mkworld (trace w' ++ evs) (files w')
                            /\ collects fs (fst (k j w')) evs) ->
  let c := (resp <- _rate_limited_get self u None None ;;
            resp_json <- lift (Response_json resp) ;; k resp_json) in
  exists evs, snd (c w) = mkworld (trace w ++ evs) (files w)
              /\ collects fs (fst (c w)) evs.
Proof.
  intros Hk c. subst c.
  destruct (rate_limited_get_run self u None None w) as [hs Hw].
  destruct (_rate_limited_get self u None None w) as [[resp|e] w1] eqn:E;
    cbn [snd] in Hw; subst w1;
    [rewrite (bind_Return _ _ E) | rewrite (bind_Raise _ _ E)].
  - rewrite bind_lift. destruct (Response_json resp) as [j|e].
    + destruct (Hk j (mkworld (trace w ++ [Request u hs]) (files w))) as [evs [Hw Hc]].
      exists ([Request u hs] ++ evs)%list. split.
      * rewrite Hw. cbn [trace files]. now rewrite <- app_assoc.
      * apply collects_app; [reflexivity|]. cbn [accepted flat_map]. now rewrite app_nil_r.
    + exists [Request u hs]. split; [reflexivity|]. split; [reflexivity|].
      intros fs' H. discriminate H.
  - exists [Request u hs]. split; [reflexivity|]. split; [reflexivity|].
    intros fs' H. discriminate H.
Qed.

Lemma continuation_pages_collects self md queue : forall fs n w,
  exists evs,
    snd (continuation_pages self md queue fs n w) = mkworld (trace w ++ evs) (files w)
    /\ collects fs (fst (continuation_pages self md queue fs n w)) evs.
Proof.
  induction queue as [|first queue IH]; intros fs n w.
  - exists []. cbn. rewrite app_nil_r. split; [now destruct w|].
    apply collects_nil. intros fs' H. now injection H as <-.
  - cbn [continuation_pages]. rewrite bind_lift.
    destruct (getitem first "name") as [next_page|e].
    2:{ exists []. cbn. rewrite app_nil_r. split; [now destruct w|].
        apply collects_nil. intros fs' H. discriminate H. }
    destruct (n <? limit md) eqn:Hn.
    + apply Z.ltb_lt in Hn. apply fetch_collects.
      intros j w'. apply (round_collects md j _ IH fs n w' Hn).
    + exists []. cbn. rewrite app_nil_r. split; [now destruct w|].
      apply collects_nil. intros fs' H. now injection H as <-.
Qed.

(** The aggregator writes nothing, and its result is the list of the
    filings it accepted. *)
Lemma aggregate_forms_to_download_collects self md w :
  exists evs,
    snd (aggregate_forms_to_download self md w) = mkworld (trace w ++ evs) (files w)
    /\ collects [] (fst (aggregate_forms_to_download self md w)) evs.
Proof.
  unfold aggregate_forms_to_download.
  destruct (0 <? limit md) eqn:H0.
  - apply Z.ltb_lt in H0. apply fetch_collects. intros resp_json w'.
    assert (Hstop : forall e, exists evs,
               snd (@Raise (list FormToDownload) e, w')
               = mkworld (trace w' ++ evs) (files w')
               /\ collects [] (fst (@Raise (list FormToDownload) e, w')) evs).
    { intros e. exists []. cbn. rewrite app_nil_r. split; [now destruct w'|].
      apply collects_nil. intros fs' H. discriminate H. }
    repeat (rewrite bind_lift;
            match goal with
            | |- context [match ?r with Return _ => _ | Raise _ => _ end] =>
                destruct r; [| apply Hstop]
            end).
    apply (round_collects md _ _ (continuation_pages_collects self md _) [] 0 w' H0).
  - exists []. cbn. rewrite app_nil_r. split; [now destruct w|].
    apply collects_nil. intros fs' H. now injection H as <-.
Qed.

Lemma save_form_document_run filing_contents md td save_filename w :
  save_form_document filing_contents md td save_filename w
  = (Return tt,
     let p := fspath (get_forms_save_location md (form td) (accession_number td)
                                              save_filename) in
     mkworld (trace w ++ [WriteFile p (Bytes filing_contents)])
             (dict_set p (Bytes filing_contents) (files w))).
Proof. reflexivity. Qed.

Lemma fetch_and_save_filings_loop self md :
  fetch_and_save_filings self md
  = (to_download <- aggregate_forms_to_download self md ;;
     for_each to_download (download_one self md) 0).
Proof. reflexivity. Qed.

(** One filing: when the step ends normally it has written the files of
    the filing and counted it. *)
Lemma download_one_run self md td count w n w' :
  download_one self md td count w = (Return n, w') ->
  n = count + 1
  /\ exists evs,
       trace w' = (trace w ++ evs)%list
       /\ accepted evs = []
       /\ written evs = saved_paths md td
       /\ (forall p, dict_has p (files w) = true \/ In p (written evs) ->
             dict_has p (files w') = true).
Proof.
  unfold download_one, logger. rewrite bind_emit.
  match goal with
  | |- context [mkworld (trace w ++ [?e]) (files w)] => set (lg := e)
  end.
  set (w0 := mkworld (trace w ++ [lg]) (files w)).
  destruct (rate_limited_get_run self (raw_filing_uri td) None (Some (HOST_WWW_SEC K)) w0)
    as [hs1 Hw1].
  destruct (_rate_limited_get self (raw_filing_uri td) None (Some (HOST_WWW_SEC K)) w0)
    as [[resp1|e] w1] eqn:E1; cbn [snd] in Hw1; subst w1;
    [rewrite (bind_Return _ _ E1) | rewrite (bind_Raise _ _ E1); discriminate].
  rewrite (bind_Return _ _ (save_form_document_run _ _ _ _ _)). cbv zeta.
  set (p1 := fspath (get_forms_save_location md (form td) (accession_number td)
                                             (FORM_FULL_SUBMISSION_FILENAME K))).
  set (w2 := mkworld _ (dict_set p1 _ _)).
  unfold saved_paths. fold p1.
  destruct (download_details md).
  - destruct (rate_limited_get_run self (primary_doc_uri td) None (Some (HOST_WWW_SEC K)) w2)
      as [hs2 Hw2].
    destruct (_rate_limited_get self (primary_doc_uri td) None (Some (HOST_WWW_SEC K)) w2)
      as [[resp2|e] w3] eqn:E2; cbn [snd] in Hw2; subst w3.
    2:{ rewrite (bind_Raise _ _ (bind_Raise _ _ E2)). discriminate. }
    rewrite (bind_Return _ _
               (eq_trans (bind_Return _ _ E2) (save_form_document_run _ _ _ _ _))).
    cbv zeta.
    set (p2 := fspath (get_forms_save_location md (form td) (accession_number td)
                         (PRIMARY_DOC_FILENAME_STEM K ++ details_doc_suffix td))).
    unfold ret. intros H. injection H as <- <-. split; [reflexivity|].
    exists [lg; Request (raw_filing_uri td) hs1; WriteFile p1 (Bytes (content resp1));
            Request (primary_doc_uri td) hs2; WriteFile p2 (Bytes (content resp2))].
    split; [subst w2 w0; cbn [trace]; now rewrite <- !app_assoc|].
    split; [reflexivity|]. split; [reflexivity|].
    intros p Hp. subst w2 w0. cbn [files]. rewrite !dict_has_set.
    destruct Hp as [Hp|Hp]; [rewrite Hp; now rewrite !orb_true_r|].
    cbn in Hp. destruct Hp as [<-|[<-|[]]].
    + rewrite String.eqb_refl. now rewrite orb_true_r.
    + now rewrite String.eqb_refl.
  - unfold bind, ret. intros H. injection H as <- <-. split; [reflexivity|].
    exists [lg; Request (raw_filing_uri td) hs1; WriteFile p1 (Bytes (content resp1))].
    split; [subst w2 w0; cbn [trace]; now rewrite <- !app_assoc|].
    split; [reflexivity|]. split; [reflexivity|].
    intros p Hp. subst w2 w0. cbn [files]. rewrite !dict_has_set.
    destruct Hp as [Hp|Hp]; [rewrite Hp; now rewrite !orb_true_r|].
    cbn in Hp. destruct Hp as [<-|[]]. now rewrite String.eqb_refl.
Qed.

(** The loop over the filings [tds], when it runs to its end. *)
Lemma download_loop self md tds : forall count w n w',
  for_each tds (download_one self md) count w = (Return n, w') ->
  n = count + Z.of_nat (length tds)
  /\ exists evs,
       trace w' = (trace w ++ evs)%list
       /\ accepted evs = []
       /\ written evs = flat_map (saved_paths md) tds
       /\ (forall p, dict_has p (files w) = true \/ In p (written evs) ->
             dict_has p (files w') = true).
Proof.
  induction tds as [|td tds IH]; intros count w n w' H.
  - cbn in H. injection H as <- <-. split; [cbn; lia|].
    exists []. rewrite app_nil_r. repeat split. intros p [Hp|[]]. exact Hp.
  - cbn [for_each] in H. unfold bind in H.
    destruct (download_one self md td count w) as [[n1|e] w1] eqn:E1; [|discriminate H].
    destruct (download_one_run self md td count w n1 w1 E1)
      as [-> [evs1 [Htr1 [Hacc1 [Hwr1 Hfiles1]]]]].
    destruct (IH _ _ _ _ H) as [-> [evs2 [Htr2 [Hacc2 [Hwr2 Hfiles2]]]]].
    split; [simpl length; lia|].
    exists (evs1 ++ evs2)%list.
    split; [rewrite Htr2, Htr1; now rewrite app_assoc|].
    split; [now rewrite accepted_app, Hacc1, Hacc2|].
    split; [rewrite written_app, Hwr1, Hwr2; reflexivity|].
    intros p Hp. apply Hfiles2. rewrite written_app in Hp.
    destruct Hp as [Hp|Hp]; [left; apply Hfiles1; now left|].
    apply in_app_or in Hp as [Hp|Hp]; [left; apply Hfiles1; now right | now right].
Qed.

(** X3.  When [fetch_and_save_filings] returns [n], [n] is the number of
    filings the aggregator accepted; the run has written, in the order
    of the filings, the full submission of each and after it the primary
    document when details are asked for, and nothing else; and each of
    these files is there at the end.  (A request that fails makes the
    whole call raise: there is no count of a partial download.) *)
Theorem fetch_and_save_filings_accounts self md w n :
  fst (fetch_and_save_filings self md w) = Return n ->
  exists evs,
    trace (snd (fetch_and_save_filings self md w)) = (trace w ++ evs)%list
    /\ n = Z.of_nat (length (accepted evs))
    /\ written evs = flat_map (saved_paths md) (accepted evs)
    /\ forall p, In p (written evs) ->
         dict_has p (files (snd (fetch_and_save_filings self md w))) = true.
Proof.
  rewrite fetch_and_save_filings_loop. unfold bind.
  destruct (aggregate_forms_to_download_collects self md w) as [evs1 [Hw1 [Hwr1 Hfs]]].
  destruct (aggregate_forms_to_download self md w) as [[fs|e] w1]; cbn [fst snd] in *;
    [|discriminate].
  subst w1. specialize (Hfs fs eq_refl). cbn [app] in Hfs. subst fs.
  destruct (for_each (accepted evs1) (download_one self md) 0
                     (mkworld (trace w ++ evs1) (files w))) as [r w2] eqn:E.
  cbn [fst snd]. intros ->.
  destruct (download_loop self md _ _ _ _ _ E) as [Hn [evs2 [Htr [Hacc [Hwr Hfiles]]]]].
  cbn [trace files] in Htr, Hfiles.
  exists (evs1 ++ evs2)%list.
  split; [rewrite Htr; now rewrite app_assoc|].
  split; [rewrite accepted_app, Hacc, app_nil_r; lia|].
  split; [rewrite written_app, Hwr1, accepted_app, Hacc, app_nil_r; exact Hwr|].
  intros p Hp. apply Hfiles. right. now rewrite written_app, Hwr1 in Hp.
Qed.

(** ** Strings *)


Lemma chars_str l : chars (str l) = l.
Proof. apply list_ascii_of_string_of_list_ascii. Qed.

Lemma length_str l : String.length (str l) = length l.
Proof. induction l as [|c l IH]; simpl; [reflexivity | now rewrite IH]. Qed.

Lemma length_append s1 s2 :
  String.length (s1 ++ s2) = (String.length s1 + String.length s2)%nat.
Proof. induction s1 as [|c s1 IH]; simpl; [reflexivity | now rewrite IH]. Qed.

Lemma length_zeros n : String.length (zeros n) = n.
Proof. unfold zeros. now rewrite length_str, repeat_length. Qed.

(** [zfill] pads up to the width and never cuts. *)
Lemma zfill_len width s : len (zfill width s) = Z.max width (len s).
Proof.
  unfold zfill, len. destruct s as [|c s].
  - rewrite length_zeros. simpl String.length. lia.
  - destruct (mem_ascii c ["+"%char; "-"%char]); simpl String.length;
      rewrite length_append, length_zeros; simpl String.length; lia.
Qed.

Lemma upper_ascii_idem c : upper_ascii (upper_ascii c) = upper_ascii c.
Proof. destruct c as [[] [] [] [] [] [] [] []]; reflexivity. Qed.

Lemma upper_idem s : upper (upper s) = upper s.
Proof.
  unfold upper. rewrite chars_str, map_map. f_equal.
  apply map_ext. intros c. apply upper_ascii_idem.
Qed.

Lemma whitespace_upper c :
  mem_ascii (upper_ascii c) (chars whitespace) = mem_ascii c (chars whitespace).
Proof. destruct c as [[] [] [] [] [] [] [] []]; reflexivity. Qed.

Lemma lstrip_list_upper l :
  lstrip_list (chars whitespace) (map upper_ascii l)
  = map upper_ascii (lstrip_list (chars whitespace) l).
Proof.
  induction l as [|c l IH]; [reflexivity|].
  cbn [map lstrip_list]. rewrite whitespace_upper.
  destruct (mem_ascii c (chars whitespace)); [exact IH | reflexivity].
Qed.

(** Stripping and upper-casing commute. *)
Lemma strip_ws_upper s : strip_ws (upper s) = upper (strip_ws s).
Proof.
  unfold strip_ws, strip, rstrip, lstrip, upper.
  rewrite !chars_str, lstrip_list_upper, <- map_rev, lstrip_list_upper, map_rev.
  reflexivity.
Qed.

Lemma lstrip_list_stops cs l :
  lstrip_list cs l = []
  \/ exists c t, lstrip_list cs l = c :: t /\ mem_ascii c cs = false.
Proof.
  induction l as [|c l IH]; [now left|].
  cbn [lstrip_list]. destruct (mem_ascii c cs) eqn:E; [exact IH|].
  right. now exists c, l.
Qed.

Lemma lstrip_list_snoc cs c : forall a,
  mem_ascii c cs = false -> exists t, lstrip_list cs (a ++ [c]) = (t ++ [c])%list.
Proof.
  intros a Hc. induction a as [|d a IH].
  - exists []. cbn. now rewrite Hc.
  - cbn [app lstrip_list]. destruct (mem_ascii d cs); [exact IH|].
    now exists (d :: a).
Qed.

Lemma lstrip_list_idem cs l : lstrip_list cs (lstrip_list cs l) = lstrip_list cs l.
Proof.
  destruct (lstrip_list_stops cs l) as [->|[c [t [-> Hc]]]]; [reflexivity|].
  cbn. now rewrite Hc.
Qed.

(** Stripping twice is stripping once. *)
Lemma strip_idem cs s : strip cs (strip cs s) = strip cs s.
Proof.
  unfold strip, rstrip, lstrip. rewrite !chars_str.
  set (L := lstrip_list (chars cs)).
  assert (E : L (rev (L (rev (L (chars s))))) = rev (L (rev (L (chars s))))).
  { destruct (lstrip_list_stops (chars cs) (chars s)) as [E|[c [t [E Hc]]]]; fold L in E;
      rewrite E; [reflexivity|].
    cbn [rev]. destruct (lstrip_list_snoc (chars cs) c (rev t) Hc) as [t' Ht]. fold L in Ht.
    rewrite Ht, rev_app_distr. cbn [rev app]. unfold L. cbn [lstrip_list]. now rewrite Hc. }
  rewrite E, rev_involutive. unfold L. now rewrite lstrip_list_idem.
Qed.

(** ** Identifiers *)

Lemma dict_get_Some_In {V} k (v : V) d : dict_get k d = Some v -> In (k, v) d.
Proof.
  induction d as [|[k' v'] d IH]; simpl; [discriminate|].
  destruct (String.eqb k k') eqn:E.
  - apply String.eqb_eq in E. subst k'. intros H. injection H as ->. now left.
  - intros H. right. now apply IH.
Qed.

(** X4.  A CIK that [validate_and_return_cik] returns is a value of the
    mapping it was given, whether the argument was read as a CIK or as a
    ticker: it never returns an identifier the mapping does not hold. *)
Theorem validate_and_return_cik_known ticker_or_cik mapping cik :
  validate_and_return_cik ticker_or_cik mapping = Return cik ->
  In cik (dict_values mapping).
Proof.
  unfold validate_and_return_cik.
  set (s := upper (strip_ws (py_str ticker_or_cik))).
  destruct (String.eqb s ""); [discriminate|].
  destruct (is_cik s).
  - destruct (CIK_LENGTH K <? len s); [discriminate|].
    destruct (str_in (zfill (CIK_LENGTH K) s) (dict_values mapping)) eqn:E;
      cbn [negb]; [|discriminate].
    intros H. injection H as <-. now apply str_in_In.
  - destruct (dict_get s mapping) as [c|] eqn:E; [|discriminate].
    intros H. injection H as <-. apply dict_get_Some_In in E.
    unfold dict_values. apply in_map_iff. now exists (s, c).
Qed.

(** X5.  [validate_and_return_cik] reads a str without regard to case
    and to surrounding whitespace: two strs that differ only in the case
    of their letters get the same answer, and so do a str and its
    stripped form. *)
Theorem validate_and_return_cik_normalises mapping :
  (forall s1 s2, upper s1 = upper s2 ->
     validate_and_return_cik (JStr s1) mapping = validate_and_return_cik (JStr s2) mapping)
  /\ (forall s,
        validate_and_return_cik (JStr (strip_ws s)) mapping
        = validate_and_return_cik (JStr s) mapping).
Proof.
  split.
  - intros s1 s2 H. unfold validate_and_return_cik. cbn [py_str].
    now rewrite <- !strip_ws_upper, H.
  - intros s. unfold validate_and_return_cik. cbn [py_str].
    unfold strip_ws. now rewrite strip_idem.
Qed.

(** X6.  [validate_cik] returns only strs of exactly ten characters
    that [int] reads, it raises nothing but [ValueError], and an argument
    of more than ten characters (once stripped) is refused. *)
Theorem validate_cik_ten_characters cik :
  match validate_cik cik with
  | Return c => len c = 10 /\ int_parses c = true /\ len (strip_ws (py_str cik)) <= 10
  | Raise e => exists msg, e = ValueError msg
  end
  /\ (10 < len (strip_ws (py_str cik)) -> exists msg, validate_cik cik = Raise (ValueError msg)).
Proof.
  unfold validate_cik, is_cik.
  pose proof (zfill_len 10 (strip_ws (py_str cik))) as Hlen.
  set (c := zfill 10 (strip_ws (py_str cik))) in *.
  destruct (int_parses c) eqn:Ep; cbn [negb].
  - destruct (1 <=? len c) eqn:E1; destruct (len c <=? 10) eqn:E2; cbn [andb negb];
      try (split; [now eexists | intros _; now eexists]).
    apply Z.leb_le in E2. split; [repeat split; (lia || exact Ep)|]. intros H. lia.
  - split; [now eexists | intros _; now eexists].
Qed.

(** ** The directory of companies *)

Lemma list_index_absent x l : forall i, ~ In (JStr x) l -> list_index x i l = None.
Proof.
  induction l as [|j l IH]; intros i Hnot; [reflexivity|].
  assert (Hl : ~ In (JStr x) l) by (intros H; apply Hnot; now right).
  destruct j; cbn [list_index]; try (apply IH; exact Hl).
  destruct (String.eqb s x) eqn:E; [|apply IH; exact Hl].
  apply String.eqb_eq in E. subst s. exfalso. apply Hnot. now left.
Qed.

(** X7.  When the directory answers with a list of field names that
    lacks [cik], [ticker] or [name], [get_ticker_cik_name_mapping] raises
    [ValueError] after its single request: no mapping is built from a
    directory without one of these columns, not even when the missing one
    is [name], which the mappings do not use. *)
Theorem get_ticker_cik_name_mapping_missing_field self w j fields data field :
  serves (URL_CIK_MAPPING K) j ->
  getitem j "fields" = Return (JArr fields) ->
  getitem j "data" = Return data ->
  In field ["cik"; "ticker"; "name"] ->
  ~ In (JStr field) fields ->
  exists msg hs,
    get_ticker_cik_name_mapping self w
    = (Raise (ValueError msg),
       mkworld (trace w ++ [Request (URL_CIK_MAPPING K) hs]) (files w)).
Proof.
  intros Hserve Hfields Hdata Hfield Hnot. unfold get_ticker_cik_name_mapping.
  destruct (rate_limited_get_serves self _ _ None (Some (HOST_WWW_SEC K)) w Hserve)
    as [resp [hs [Eget Hj]]].
  rewrite (bind_Return _ _ Eget). rewrite bind_lift. unfold Response_json. rewrite Hj.
  rewrite bind_lift, Hfields, bind_lift, Hdata.
  pose proof (list_index_absent field fields 0 Hnot) as Habs.
  cbn [index]. rewrite !bind_lift.
  destruct Hfield as [<-|[<-|[<-|[]]]]; rewrite ?Habs;
    repeat match goal with
           | |- context [match list_index ?x 0 fields with _ => _ end] =>
               destruct (list_index x 0 fields); rewrite ?bind_lift
           end;
    try (now eexists; eexists).
Qed.

Lemma dict_keys_set {V} k k' (v : V) d :
  In k' (dict_keys (dict_set k v d)) <-> k' = k \/ In k' (dict_keys d).
Proof.
  rewrite <- !str_in_In, <- !dict_has_keys, dict_has_set, orb_true_iff.
  now rewrite String.eqb_eq.
Qed.

(** Assigning to a key keeps the keys of a dict distinct. *)
Lemma dict_set_NoDup {V} k (v : V) d :
  NoDup (dict_keys d) -> NoDup (dict_keys (dict_set k v d)).
Proof.
  induction d as [|[k0 v0] d IH]; intros Hnd.
  - cbn. constructor; [intros [] | constructor].
  - cbn [dict_keys map fst] in Hnd. apply NoDup_cons_iff in Hnd as [Hnot Hnd].
    cbn [dict_set]. destruct (String.eqb k k0) eqn:E.
    + apply String.eqb_eq in E. subst k0. cbn. now constructor.
    + cbn [dict_keys map fst]. constructor; [|now apply IH].
      fold (dict_keys (dict_set k v d)). rewrite dict_keys_set.
      intros [->|H]; [now rewrite String.eqb_refl in E | now apply Hnot].
Qed.

Lemma dict_set_Forall {V} (P : string * V -> Prop) k (v : V) d :
  P (k, v) -> Forall P d -> Forall P (dict_set k v d).
Proof.
  intros Hkv Hd. induction Hd as [|[k0 v0] d H0 Hd IH]; cbn [dict_set].
  - now repeat constructor.
  - destruct (String.eqb k k0); constructor; assumption.
Qed.

(** The comprehension over the rows: distinct keys, and every entry an
    upper-cased ticker with a padded CIK. *)
Lemma ticker_to_cik_of_entries (P : string * string -> Prop) ticker_idx cik_idx rows :
  (forall t c, P (upper t, zfill (CIK_LENGTH K) c)) ->
  forall acc d,
    ticker_to_cik_of ticker_idx cik_idx rows acc = Return d ->
    NoDup (dict_keys acc) -> Forall P acc ->
    NoDup (dict_keys d) /\ Forall P d.
Proof.
  intros HP. induction rows as [|td rows IH]; intros acc d H Hnd Hacc.
  - cbn in H. injection H as <-. now split.
  - cbn [ticker_to_cik_of] in H.
    destruct (getindex td ticker_idx) as [t|e]; [|discriminate H].
    destruct (getindex td cik_idx) as [c|e]; [|discriminate H].
    cbn [rbind] in H. apply (IH _ _ H).
    + now apply dict_set_NoDup.
    + apply dict_set_Forall; [apply HP | exact Hacc].
Qed.

Lemma invert_items_get (d : dict string) : forall acc c t,
  dict_get c (fold_left (fun acc ab => dict_set (snd ab) (fst ab) acc) d acc) = Some t ->
  In (t, c) d \/ dict_get c acc = Some t.
Proof.
  induction d as [|[a b] d IH]; intros acc c t H; [now right|].
  cbn [fold_left fst snd] in H. destruct (IH _ _ _ H) as [Hin|Hacc]; [left; now right|].
  destruct (String.eqb b c) eqn:E.
  - apply String.eqb_eq in E. subst b. rewrite dict_get_set_same in Hacc.
    injection Hacc as ->. left. now left.
  - apply String.eqb_neq in E. rewrite dict_get_set_other in Hacc by exact E. now right.
Qed.

Lemma invert_items_has (d : dict string) : forall acc c,
  (exists t, In (t, c) d) \/ dict_has c acc = true ->
  dict_has c (fold_left (fun acc ab => dict_set (snd ab) (fst ab) acc) d acc) = true.
Proof.
  induction d as [|[a b] d IH]; intros acc c H.
  - destruct H as [[t []]|H]. exact H.
  - cbn [fold_left fst snd]. apply IH.
    destruct H as [[t [Heq|Hin]]|H].
    + injection Heq as -> ->. right. rewrite dict_has_set, String.eqb_refl. reflexivity.
    + left. now exists t.
    + right. rewrite dict_has_set, H. apply orb_true_r.
Qed.

(** The first mapping is the comprehension over the rows of the
    directory, and the other two are built from its items. *)
Lemma get_ticker_cik_name_mapping_built self w ticker_to_cik cik_to_ticker cik_to_name :
  fst (get_ticker_cik_name_mapping self w)
  = Return (ticker_to_cik, cik_to_ticker, cik_to_name) ->
  (exists ticker_idx cik_idx rows,
     ticker_to_cik_of ticker_idx cik_idx rows [] = Return ticker_to_cik)
  /\ cik_to_ticker = invert_items ticker_to_cik.
Proof.
  unfold get_ticker_cik_name_mapping. intros H.
  repeat (apply bind_fst_Return in H as [? [? [? H]]]).
  cbv zeta in H. unfold ret in H. cbn [fst] in H. injection H as <- <- _.
  match goal with
  | Ht2c : lift (ticker_to_cik_of _ _ _ []) _ = _ |- _ =>
      unfold lift in Ht2c; injection Ht2c as Ht2c _
  end.
  split; [|reflexivity]. eexists. eexists. eexists. eassumption.
Qed.

(** X8.  The mappings that [get_ticker_cik_name_mapping] returns fit
    together: an entry of the CIK-to-ticker mapping is an entry of the
    ticker-to-CIK mapping read backwards, and every CIK of the
    ticker-to-CIK mapping has an entry in the CIK-to-ticker mapping (one
    ticker of the company, when several share the CIK). *)
Theorem get_ticker_cik_name_mapping_round_trip self w ticker_to_cik cik_to_ticker cik_to_name :
  fst (get_ticker_cik_name_mapping self w)
  = Return (ticker_to_cik, cik_to_ticker, cik_to_name) ->
  (forall cik ticker,
     dict_get cik cik_to_ticker = Some ticker -> dict_get ticker ticker_to_cik = Some cik)
  /\ (forall ticker cik,
        dict_get ticker ticker_to_cik = Some cik ->
        exists ticker', dict_get cik cik_to_ticker = Some ticker'
                        /\ dict_get ticker' ticker_to_cik = Some cik).
Proof.
  intros H. destruct (get_ticker_cik_name_mapping_built _ _ _ _ _ H)
    as [[ticker_idx [cik_idx [rows Hrows]]] ->].
  destruct (ticker_to_cik_of_entries (fun _ => True) _ _ _ (fun _ _ => I) _ _ Hrows
              (NoDup_nil _) (Forall_nil _)) as [Hnd _].
  assert (Hback : forall cik ticker,
            dict_get cik (invert_items ticker_to_cik) = Some ticker ->
            dict_get ticker ticker_to_cik = Some cik).
  { intros cik ticker Hget. unfold invert_items in Hget.
    destruct (invert_items_get _ _ _ _ Hget) as [Hin|Hnil]; [|discriminate Hnil].
    now apply dict_get_In. }
  split; [exact Hback|].
  intros ticker cik Hget.
  assert (Hhas : dict_has cik (invert_items ticker_to_cik) = true).
  { apply invert_items_has. left. exists ticker. now apply dict_get_Some_In. }
  unfold dict_has in Hhas.
  destruct (dict_get cik (invert_items ticker_to_cik)) as [ticker'|] eqn:E;
    [|discriminate Hhas].
  exists ticker'. split; [reflexivity | now apply Hback].
Qed.

(** X9.  In the mappings that [get_ticker_cik_name_mapping] returns
    every ticker is in upper case and every CIK is padded to at least
    [CIK_LENGTH] characters, in both directions. *)
Theorem get_ticker_cik_name_mapping_normal_form self w ticker_to_cik cik_to_ticker cik_to_name :
  fst (get_ticker_cik_name_mapping self w)
  = Return (ticker_to_cik, cik_to_ticker, cik_to_name) ->
  (forall ticker cik,
     dict_get ticker ticker_to_cik = Some cik ->
     upper ticker = ticker /\ CIK_LENGTH K <= len cik)
  /\ (forall cik ticker,
        dict_get cik cik_to_ticker = Some ticker ->
        upper ticker = ticker /\ CIK_LENGTH K <= len cik).
Proof.
  intros H. destruct (get_ticker_cik_name_mapping_built _ _ _ _ _ H)
    as [[ticker_idx [cik_idx [rows Hrows]]] ->].
  assert (HP : forall t c,
            upper (fst (upper t, zfill (CIK_LENGTH K) c)) = fst (upper t, zfill (CIK_LENGTH K) c)
            /\ CIK_LENGTH K <= len (snd (upper t, zfill (CIK_LENGTH K) c))).
  { intros t c. cbn [fst snd]. split; [apply upper_idem|]. rewrite zfill_len. lia. }
  destruct (ticker_to_cik_of_entries
              (fun kv => upper (fst kv) = fst kv /\ CIK_LENGTH K <= len (snd kv))
              ticker_idx cik_idx rows HP [] ticker_to_cik Hrows
              (NoDup_nil _) (Forall_nil _)) as [_ Hall].
  assert (Hfwd : forall ticker cik,
            dict_get ticker ticker_to_cik = Some cik ->
            upper ticker = ticker /\ CIK_LENGTH K <= len cik).
  { intros ticker cik Hget. apply dict_get_Some_In in Hget.
    rewrite Forall_forall in Hall. exact (Hall _ Hget). }
  split; [exact Hfwd|].
  intros cik ticker Hget. unfold invert_items in Hget.
  destruct (invert_items_get _ _ _ _ Hget) as [Hin|Hnil]; [|discriminate Hnil].
  rewrite Forall_forall in Hall. exact (Hall _ Hin).
Qed.

(** ** Merging in steps *)

Lemma dict_set_fresh {V} k (v : V) d :
  ~ In k (dict_keys d) -> dict_set k v d = (d ++ [(k, v)])%list.
Proof.
  induction d as [|[k0 v0] d IH]; intros Hnot; [reflexivity|].
  cbn [dict_set]. destruct (String.eqb k k0) eqn:E.
  - apply String.eqb_eq in E. subst k0. exfalso. apply Hnot. now left.
  - cbn [app]. f_equal. apply IH. intros H. apply Hnot. now right.
Qed.

Lemma merge_keys_explicit to_merge (cols : string -> list (list json)) : forall ks acc,
  NoDup ks ->
  (forall k, In k ks -> ~ In k (dict_keys acc)) ->
  (forall k, In k ks -> chained to_merge k = Return (cols k)) ->
  merge_keys to_merge ks acc
  = Return (acc ++ map (fun k => (k, JArr (concat (cols k)))) ks)%list.
Proof.
  induction ks as [|k0 ks IH]; intros acc Hnd Hfresh Hcols.
  - cbn. now rewrite app_nil_r.
  - apply NoDup_cons_iff in Hnd as [Hk0 Hnd].
    cbn [merge_keys]. fold (chained to_merge k0).
    rewrite (Hcols k0 (or_introl eq_refl)). cbn [rbind].
    rewrite dict_set_fresh by (apply Hfresh; now left).
    rewrite IH.
    + now rewrite <- app_assoc.
    + exact Hnd.
    + intros k Hk Hin. unfold dict_keys in Hin. rewrite map_app in Hin.
      apply in_app_or in Hin as [Hin|[<-|[]]].
      * apply (Hfresh k (or_intror Hk)). exact Hin.
      * now apply Hk0.
    + intros k Hk. apply Hcols. now right.
Qed.

(** The merge of pages with the keys of the first, each once, written
    out. *)
Lemma merge_submission_dicts_explicit recent pages :
  NoDup (dict_keys recent) ->
  (forall p k, In p pages -> dict_has k p = dict_has k recent) ->
  merge_submission_dicts (map page_obj (recent :: pages))
  = Return (page_obj (map (fun k => (k, concat (map (column k) (recent :: pages))))
                          (dict_keys recent))).
Proof.
  intros Hnd Hsame. unfold merge_submission_dicts. cbn [map].
  assert (Hkeys : keys (page_obj recent) = Return (dict_keys recent)).
  { unfold page_obj, keys, dict_keys. now rewrite map_map. }
  rewrite Hkeys. cbn [rbind].
  change (page_obj recent :: map page_obj pages) with (map page_obj (recent :: pages)).
  rewrite (merge_keys_explicit _ (fun k => map (column k) (recent :: pages))).
  - cbn [rbind app]. unfold page_obj. now rewrite map_map.
  - exact Hnd.
  - intros k _ [].
  - intros k Hk. apply chained_pages. intros p [<-|Hp].
    + rewrite dict_has_keys. now apply str_in_In.
    + rewrite (Hsame p k Hp), dict_has_keys. now apply str_in_In.
Qed.

Lemma dict_rebuild {V} (f : string -> dict V -> V) (d : dict V) :
  NoDup (dict_keys d) ->
  (forall k v d', dict_get k d' = Some v -> f k d' = v) ->
  map (fun k => (k, f k d)) (dict_keys d) = d.
Proof.
  intros Hnd Hf.
  assert (H : forall l, incl l d -> map (fun k => (k, f k d)) (dict_keys l) = l).
  { induction l as [|[k v] l IH]; intros Hincl; [reflexivity|].
    cbn [dict_keys map fst]. f_equal.
    - f_equal. apply Hf. apply dict_get_In; [exact Hnd|]. apply Hincl. now left.
    - apply IH. intros x Hx. apply Hincl. now right. }
  apply H, incl_refl.
Qed.

Lemma column_get k (p : dict (list json)) l : dict_get k p = Some l -> column k p = l.
Proof. unfold column. now intros ->. Qed.

(** X10.  For pages that carry the same keys, each once:
    [merge_submission_dicts] gives back a single page as it is, and
    merging a first run of pages and then merging the result with the
    remaining pages gives what merging all the pages at once gives. *)
Theorem merge_submission_dicts_in_steps recent pages1 pages2 :
  NoDup (dict_keys recent) ->
  (forall p k, In p (pages1 ++ pages2) -> dict_has k p = dict_has k recent) ->
  merge_submission_dicts [page_obj recent] = Return (page_obj recent)
  /\ rbind (merge_submission_dicts (map page_obj (recent :: pages1)))
           (fun merged => merge_submission_dicts (merged :: map page_obj pages2))
     = merge_submission_dicts (map page_obj (recent :: pages1 ++ pages2)).
Proof.
  intros Hnd Hsame. split.
  - change [page_obj recent] with (map page_obj (recent :: [])).
    rewrite merge_submission_dicts_explicit; [|exact Hnd | intros p k []].
    do 2 f_equal. cbn [map concat]. 
    rewrite (dict_rebuild (fun k d => (column k d ++ [])%list) recent Hnd); [reflexivity|].
    intros k v d' H. rewrite app_nil_r. now apply column_get.
  - rewrite merge_submission_dicts_explicit;
      [|exact Hnd | intros p k Hp; apply Hsame, in_or_app; now left].
    cbn [rbind].
    set (m1 := map (fun k => (k, concat (map (column k) (recent :: pages1))))
                   (dict_keys recent)).
    assert (Hkeys : dict_keys m1 = dict_keys recent).
    { unfold m1, dict_keys. rewrite map_map. cbn [fst]. apply map_id. }
    change (page_obj m1 :: map page_obj pages2) with (map page_obj (m1 :: pages2)).
    rewrite !merge_submission_dicts_explicit.
    + rewrite Hkeys. do 2 f_equal. apply map_ext_in. intros k Hk. f_equal.
      cbn [map concat]. rewrite map_app, concat_app. rewrite app_assoc. f_equal.
      assert (Hcol : column k m1 = concat (map (column k) (recent :: pages1))).
      { apply column_get. apply dict_get_In; [now rewrite Hkeys|].
        unfold m1. apply in_map_iff. now exists k. }
      rewrite Hcol. reflexivity.
    + exact Hnd.
    + exact Hsame.
    + now rewrite Hkeys.
    + intros p k Hp. rewrite (Hsame p k) by (apply in_or_app; now right).
      now rewrite !dict_has_keys, Hkeys.
Qed.

(** ** Paginated submissions *)

Lemma for_each_cons {A S} (x : A) l (body : A -> S -> M S) s :
  for_each (x :: l) body s = (s' <- body x s ;; for_each l body s').
Proof. reflexivity. Qed.

(** The loop of [get_submissions_by_company] over the listed pages. *)
Lemma submission_pages_loop self : forall entries (pages : list (string * json)) to_merge w,
  Forall2 (fun entry p =>
             getitem entry "name" = Return (JStr (fst p))
             /\ serves (URL_PAGINATED_SUBMISSIONS K (fst p)) (snd p))
          entries pages ->
  exists evs,
    for_each entries
      (fun submission to_merge =>
         filename <- lift (getitem submission "name") ;;
         let api_endpoint := URL_PAGINATED_SUBMISSIONS K (py_str filename) in
         resp <- _rate_limited_get self api_endpoint None None ;;
         page <- lift (Response_json resp) ;;
         ret (to_merge ++ [page])%list)
      to_merge w
    = (Return (to_merge ++ map snd pages)%list, mkworld (trace w ++ evs) (files w))
    /\ requested evs = map (fun p => URL_PAGINATED_SUBMISSIONS K (fst p)) pages
    /\ written evs = [].
Proof.
  intros entries pages to_merge w Hall. revert to_merge w.
  induction Hall as [|entry [name page] entries pages [Hname Hserve] Hall IH];
    intros to_merge w.
  - exists []. cbn. rewrite !app_nil_r. split; [now destruct w | now split].
  - cbn [fst snd] in Hname, Hserve. rewrite for_each_cons.
    destruct (rate_limited_get_serves self _ _ None None w Hserve) as [resp [hs [Eget Hj]]].
    set (w1 := mkworld (trace w ++ [Request (URL_PAGINATED_SUBMISSIONS K name) hs]) (files w)).
    destruct (IH (to_merge ++ [page])%list w1) as [evs [Hrun [Hreq Hwr]]].
    exists ([Request (URL_PAGINATED_SUBMISSIONS K name) hs] ++ evs)%list. split; [|split].
    + match goal with
      | |- bind ?c _ w = _ =>
          assert (Hbody : c w = (Return (to_merge ++ [page])%list, w1))
      end.
      { cbv beta. rewrite bind_lift, Hname. cbn [py_str]. cbv zeta.
        rewrite (bind_Return _ _ Eget). rewrite bind_lift. unfold Response_json.
        now rewrite Hj. }
      rewrite (bind_Return _ _ Hbody), Hrun. cbn [map snd].
      subst w1. cbn [trace files]. now rewrite <- !app_assoc.
    + rewrite requested_app, Hreq. reflexivity.
    + rewrite written_app, Hwr. reflexivity.
Qed.

(** X11.  For an identifier that validates to [cik] and an archive that
    lists continuation pages: without pagination handling
    [get_submissions_by_company] returns the first response as it is
    after one request; with it, it requests the first page and then
    every listed page once, in listed order, whatever they hold, and
    returns the first response with [recent] replaced by the merge of the
    recent batch and the pages in that order and with [files] emptied
    (or raises what the merge raises). *)
Theorem get_submissions_by_company_pages self ticker_or_cik w cik j filings recent
        entries pages :
  validate_and_return_cik ticker_or_cik (ticker_to_cik_mapping self) = Return cik ->
  serves (URL_SUBMISSIONS K cik) j ->
  getitem j "filings" = Return filings ->
  getitem filings "files" = Return (JArr entries) ->
  getitem filings "recent" = Return recent ->
  entries <> [] ->
  Forall2 (fun entry p =>
             getitem entry "name" = Return (JStr (fst p))
             /\ serves (URL_PAGINATED_SUBMISSIONS K (fst p)) (snd p))
          entries pages ->
  (exists hs,
     get_submissions_by_company self ticker_or_cik false w
     = (Return j, mkworld (trace w ++ [Request (URL_SUBMISSIONS K cik) hs]) (files w)))
  /\ exists evs,
       get_submissions_by_company self ticker_or_cik true w
       = (rbind (merge_submission_dicts (recent :: map snd pages))
                (fun merged =>
                   Return (setitem j "filings"
                             (setitem (setitem filings "recent" merged) "files" (JArr [])))),
          mkworld (trace w ++ evs) (files w))
       /\ requested evs
          = URL_SUBMISSIONS K cik :: map (fun p => URL_PAGINATED_SUBMISSIONS K (fst p)) pages
       /\ written evs = [].
Proof.
  intros Hcik Hserve Hfilings Hfiles Hrecent Hne Hpages.
  destruct (rate_limited_get_serves self _ _ None None w Hserve) as [resp [hs [Eget Hj]]].
  set (w1 := mkworld (trace w ++ [Request (URL_SUBMISSIONS K cik) hs]) (files w)).
  assert (Hhead : forall b,
            get_submissions_by_company self ticker_or_cik b w
            = (if b then
                 recent <- lift (getitem filings "recent") ;;
                 subs <- lift (iter (JArr entries)) ;;
                 to_merge <- for_each subs
                   (fun submission to_merge =>
                      filename <- lift (getitem submission "name") ;;
                      let api_endpoint := URL_PAGINATED_SUBMISSIONS K (py_str filename) in
                      resp <- _rate_limited_get self api_endpoint None None ;;
                      page <- lift (Response_json resp) ;;
                      ret (to_merge ++ [page])%list)
                   [recent] ;;
                 merged <- lift (merge_submission_dicts to_merge) ;;
                 let filings := setitem (setitem filings "recent" merged) "files" (JArr []) in
                 ret (setitem j "filings" filings)
               else ret j) w1).
  { intros b. unfold get_submissions_by_company.
    rewrite bind_lift, Hcik. rewrite (bind_Return _ _ Eget). fold w1.
    rewrite bind_lift. unfold Response_json. rewrite Hj.
    rewrite bind_lift, Hfilings, bind_lift, Hfiles.
    destruct entries as [|entry entries]; [now destruct Hne|].
    cbn [truthy]. now rewrite andb_true_r. }
  split.
  - exists hs. now rewrite (Hhead false).
  - rewrite (Hhead true). rewrite bind_lift, Hrecent, bind_lift. cbn [iter].
    destruct (submission_pages_loop self entries pages [recent] w1 Hpages)
      as [evs [Hrun [Hreq Hwr]]].
    exists ([Request (URL_SUBMISSIONS K cik) hs] ++ evs)%list. split; [|split].
    + rewrite (bind_Return _ _ Hrun). rewrite bind_lift. cbn [app].
      subst w1. cbn [trace files]. rewrite <- app_assoc.
      now destruct (merge_submission_dicts (recent :: map snd pages)).
    + rewrite requested_app, Hreq. reflexivity.
    + rewrite written_app, Hwr. reflexivity.
Qed.

(** X12.  An identifier that does not validate stops every lookup
    before the network: [get_submissions_by_company],
    [get_concept_by_company], [get_facts_by_company] and
    [query_fact_from_zip] raise the [ValueError] of the validation and
    leave the world as it was, with no request and no log line. *)
Theorem lookups_validate_first self ticker_or_cik e :
  validate_and_return_cik ticker_or_cik (ticker_to_cik_mapping self) = Raise e ->
  (exists msg, e = ValueError msg)
  /\ (forall handle_pagination w,
        get_submissions_by_company self ticker_or_cik handle_pagination w = (Raise e, w))
  /\ (forall taxonomy tag w,
        get_concept_by_company self ticker_or_cik taxonomy tag w = (Raise e, w))
  /\ (forall w, get_facts_by_company self ticker_or_cik w = (Raise e, w))
  /\ (forall z return_raw_json w,
        query_fact_from_zip self ticker_or_cik z return_raw_json w = (Raise e, w)).
Proof.
  intros H. split; [exact (validate_and_return_cik_raises _ _ _ H)|].
  repeat split; intros;
    unfold get_submissions_by_company, get_concept_by_company, get_facts_by_company,
      query_fact_from_zip;
    now rewrite bind_lift, H.
Qed.

(** ** Batches *)

Lemma try_except_Return {A} (body : M A) handler w a w' :
  body w = (Return a, w') -> try_except body handler w = (Return a, w').
Proof. intros H. unfold try_except. now rewrite H. Qed.







(** One round of the forms loop: nothing is saved, requested or written;
    the forms of an identifier that validates are added to the skipped
    ones when they are all supported. *)
Lemma download_forms_for_one_run self form_types limit_per_form after before
      include_amends download_details ticker_or_cik saved skipped w :
  exists evs,
    download_forms_for_one self form_types limit_per_form after before
                           include_amends download_details ticker_or_cik (saved, skipped) w
    = (Return (saved, (skipped ++ forms_refused self form_types ticker_or_cik)%list),
       mkworld (trace w ++ evs) (files w))
    /\ requested evs = [] /\ written evs = [].
Proof.
  unfold download_forms_for_one, forms_refused.
  destruct (validate_and_return_cik (JStr ticker_or_cik) (ticker_to_cik_mapping self))
    as [cik|e] eqn:Hcik.
  - set (ticker_name := dict_get cik (cik_to_ticker_mapping self)).
    match goal with
    | |- context [bind (try_except ?b ?h) ?k w] =>
        rewrite (bind_Return (try_except b h) k
                   (try_except_Return b h w (Some ticker_name) _ eq_refl))
    end.
    destruct (unsupported_forms_of form_types) as [|u us].
    + eexists. split; [|split].
      * unfold try_except, bind, download_forms, raise, emit, ret. cbn [trace files].
        rewrite <- app_assoc. reflexivity.
      * reflexivity.
      * reflexivity.
    + eexists. rewrite app_nil_r. split; [|split].
      * unfold bind, logger, emit, ret. cbn [trace files].
        rewrite <- app_assoc. reflexivity.
      * reflexivity.
      * reflexivity.
  - destruct (validate_and_return_cik_raises _ _ _ Hcik) as [msg ->].
    eexists. rewrite app_nil_r. split; [reflexivity|]. split; reflexivity.
Qed.

(** X14.  [download_forms_for_companies] downloads nothing: the method
    it calls for each company, [download_forms], is defined by none of
    the client's classes, and the [AttributeError] is caught as a failed
    download.  Whatever the arguments, it returns an empty list of saved
    forms, issues no request and writes no file; every form of every
    identifier that validates ends in the list of skipped forms (when
    all the forms are supported). *)
Theorem download_forms_for_companies_saves_nothing self tickers_or_ciks form_types
        limit_per_form after before include_amends download_details w :
  exists evs,
    download_forms_for_companies self tickers_or_ciks form_types limit_per_form
                                 after before include_amends download_details w
    = (Return ([], flat_map (forms_refused self form_types) tickers_or_ciks),
       mkworld (trace w ++ evs) (files w))
    /\ requested evs = [] /\ written evs = [].
Proof.
  unfold download_forms_for_companies.
  assert (H : forall skipped w,
    exists evs,
      for_each tickers_or_ciks
        (download_forms_for_one self form_types limit_per_form after before
                                include_amends download_details)
        ([], skipped) w
      = (Return ([], (skipped ++ flat_map (forms_refused self form_types)
                                          tickers_or_ciks)%list),
         mkworld (trace w ++ evs) (files w))
      /\ requested evs = [] /\ written evs = []).
  { induction tickers_or_ciks as [|t tickers IH]; intros skipped w0.
    - exists []. cbn. rewrite !app_nil_r. split; [now destruct w0 | now split].
    - rewrite for_each_cons.
      destruct (download_forms_for_one_run self form_types limit_per_form after before
                  include_amends download_details t [] skipped w0)
        as [evs1 [Hrun1 [Hreq1 Hwr1]]].
      rewrite (bind_Return _ _ Hrun1).
      destruct (IH (skipped ++ forms_refused self form_types t)%list
                   (mkworld (trace w0 ++ evs1) (files w0)))
        as [evs2 [Hrun2 [Hreq2 Hwr2]]].
      exists (evs1 ++ evs2)%list. rewrite Hrun2. cbn [trace files flat_map].
      rewrite <- !app_assoc. split; [reflexivity|].
      now rewrite requested_app, written_app, Hreq1, Hreq2, Hwr1, Hwr2. }
  exact (H [] w).
Qed.

(** ** Workers that do not stop the run *)










Section Workers.

(** [pandas.DataFrame] raises an [Exception], it does not end the
    process. *)
Hypothesis DataFrame_raises :
  forall j, DataFrame_other X j <> Raise SystemExit.








End Workers.

(** ** The query on the archive *)

(** X16.  [query_fact_from_zip] never hands back a table: it raises, or
    it returns [None] (the member is not in the archive), or, when raw
    JSON is asked for, the decoded member.  When a table is asked for and
    the member is there, every run ends in an exception: once the table
    is built and printed the function calls [exit()]. *)
Theorem query_fact_from_zip_no_table self ticker_or_cik z return_raw_json w :
  ((exists e, fst (query_fact_from_zip self ticker_or_cik z return_raw_json w) = Raise e)
   \/ fst (query_fact_from_zip self ticker_or_cik z return_raw_json w) = Return NoResult
   \/ (return_raw_json = true
       /\ exists j, fst (query_fact_from_zip self ticker_or_cik z return_raw_json w)
                    = Return (RawJson j)))
  /\ (forall cik f,
        validate_and_return_cik ticker_or_cik (ticker_to_cik_mapping self) = Return cik ->
        dict_get ("CIK" ++ cik ++ ".json") (members z) = Some f ->
        return_raw_json = false ->
        exists e, fst (query_fact_from_zip self ticker_or_cik z return_raw_json w) = Raise e).
Proof.
  assert (Htable : forall cik f w',
            dict_get ("CIK" ++ cik ++ ".json") (members z) = Some f ->
            exists e,
              fst ((json_dict <- lift (match f with
                                       | Some j => Return j
                                       | None => Raise JSONDecodeError
                                       end) ;;
                    multiindex_df <- parse_facts_json self json_dict ;;
                    selected <- lift (select_unit "us-gaap" "NetIncomeLoss" "USD"
                                                  multiindex_df) ;;
                    logger "print" (frame_repr R selected) ;;
                    @raise unit SystemExit ;;
                    ret (Table multiindex_df)) w') = Raise e).
  { intros cik f w' Hf. rewrite bind_lift.
    destruct f as [j|]; [|now eexists].
    unfold bind at 1.
    destruct (parse_facts_json self j w') as [[df|e] w2]; [|now eexists].
    rewrite bind_lift.
    destruct (select_unit "us-gaap" "NetIncomeLoss" "USD" df); now eexists. }
  unfold query_fact_from_zip. rewrite bind_lift.
  destruct (validate_and_return_cik ticker_or_cik (ticker_to_cik_mapping self)) as [cik|e].
  2:{ split; [left; now eexists | intros ? ? H; discriminate H]. }
  rewrite bind_lift.
  destruct (search_date (zip_name z)) as [d|].
  2:{ split; [left; now eexists | intros; now eexists]. }
  unfold logger at 1. rewrite bind_emit.
  destruct (dict_get ("CIK" ++ cik ++ ".json") (members z)) as [f|] eqn:Hf.
  2:{ split; [right; left; reflexivity|]. intros cik' f' H. injection H as <-. congruence. }
  destruct return_raw_json.
  - split; [|intros ? ? _ _ H; discriminate H].
    rewrite bind_lift. destruct f as [j|]; [|left; now eexists].
    right. right. split; [reflexivity | now exists j].
  - destruct (Htable cik f (mkworld (trace w ++ [Log "info"
                ("Latest zip file found: " ++ zip_name z ++ " with updated date " ++ d)])
                                   (files w)) Hf) as [e He].
    split; [left; now exists e | intros; now exists e].
Qed.

(** ** The headers of a request *)

Lemma ci_get_set {V} k k' (v : V) d :
  ci_get k (ci_set k' v d)
  = if String.eqb (lower k) (lower k') then Some v else ci_get k d.
Proof.
  induction d as [|[k0 v0] d IH]; cbn [ci_set ci_get].
  - now destruct (String.eqb (lower k) (lower k')).
  - destruct (String.eqb (lower k') (lower k0)) eqn:E0; cbn [ci_get].
    + destruct (String.eqb (lower k) (lower k')) eqn:E; [reflexivity|].
      apply String.eqb_eq in E0. rewrite <- E0. now rewrite E.
    + destruct (String.eqb (lower k) (lower k0)) eqn:E1; [|exact IH].
      destruct (String.eqb (lower k) (lower k')) eqn:E; [|reflexivity].
      apply String.eqb_eq in E, E1. rewrite <- E, E1, String.eqb_refl in E0.
      discriminate E0.
Qed.

Lemma ci_update_snoc {V} (d e : dict V) k v :
  ci_update d (e ++ [(k, v)])%list = ci_set k v (ci_update d e).
Proof. unfold ci_update. now rewrite fold_left_app. Qed.

Lemma ci_get_update {V} (e : dict V) : forall d k,
  ci_get k (ci_update d e)
  = match ci_get k (rev e) with Some v => Some v | None => ci_get k d end.
Proof.
  induction e as [|[k0 v0] e IH] using rev_ind; intros d k; [reflexivity|].
  rewrite ci_update_snoc, ci_get_set, rev_app_distr. cbn [rev app ci_get].
  destruct (String.eqb (lower k) (lower k0)); [reflexivity | apply IH].
Qed.

Lemma ci_set_names {V} k (v : V) d x :
  In x (map lower (dict_keys (ci_set k v d))) ->
  x = lower k \/ In x (map lower (dict_keys d)).
Proof.
  unfold dict_keys.
  induction d as [|[k0 v0] d IH]; cbn [ci_set map fst In].
  - intros [<-|[]]. now left.
  - destruct (String.eqb (lower k) (lower k0)) eqn:E; cbn [map fst In].
    + intros [<-|H]; [now left | right; now right].
    + intros [<-|H]; [right; now left|].
      destruct (IH H) as [->|H']; [now left | right; now right].
Qed.

Lemma ci_set_NoDup {V} k (v : V) d :
  NoDup (map lower (dict_keys d)) -> NoDup (map lower (dict_keys (ci_set k v d))).
Proof.
  unfold dict_keys.
  induction d as [|[k0 v0] d IH]; cbn [ci_set map fst]; intros H.
  - repeat constructor. intros [].
  - apply NoDup_cons_iff in H as [Hnot H].
    destruct (String.eqb (lower k) (lower k0)) eqn:E; cbn [map fst].
    + apply String.eqb_eq in E. rewrite E. now constructor.
    + constructor; [|now apply IH].
      intros Hin. destruct (ci_set_names _ _ _ _ Hin) as [Heq|Hin']; [|now apply Hnot].
      rewrite Heq, String.eqb_refl in E. discriminate E.
Qed.

Lemma ci_update_NoDup {V} (e : dict V) : forall d,
  NoDup (map lower (dict_keys d)) -> NoDup (map lower (dict_keys (ci_update d e))).
Proof.
  unfold ci_update. induction e as [|[k v] e IH]; intros d H; [exact H|].
  cbn [fold_left fst snd]. now apply IH, ci_set_NoDup.
Qed.

(** X17.  [_rate_limited_get] issues exactly one request, for the URL it
    is given, and leaves the files alone.  The headers of the request
    are those of the session with the headers of the call laid over
    them, a header replacing the one of the same name whatever the case
    of the two names (the last one given wins), so that no header is
    sent twice when the session has none twice; the host override
    applies only when no headers are given, and is ignored when they
    are. *)
Theorem rate_limited_get_headers self u headers host w :
  exists hs,
    snd (_rate_limited_get self u headers host w)
    = mkworld (trace w ++ [Request u hs]) (files w)
    /\ (NoDup (header_names (session_headers self)) -> NoDup (header_names hs))
    /\ match headers, host with
       | Some h, _ =>
           forall k, ci_get k hs
                     = match header_of k h with
                       | Some v => Some v
                       | None => ci_get k (session_headers self)
                       end
       | None, Some x =>
           forall k, ci_get k hs
                     = if String.eqb (lower k) "host" then Some x
                       else ci_get k (session_headers self)
       | None, None => hs = session_headers self
       end.
Proof.
  unfold _rate_limited_get.
  match goal with
  | |- context [Request u ?h] => exists h
  end.
  split; [|split].
  - destruct (session_get X (trace w) u _) as [resp|e]; [|reflexivity].
    now destruct (raises_for_status resp).
  - unfold header_names. intros Hnd.
    destruct headers as [h|]; [|destruct host as [x|]];
      [apply ci_update_NoDup | apply ci_update_NoDup |]; exact Hnd.
  - destruct headers as [h|]; [|destruct host as [x|]].
    + intros k. apply ci_get_update.
    + intros k. rewrite ci_get_update. cbn [rev app ci_get].
      change (lower "Host") with "host".
      now destruct (String.eqb (lower k) "host").
    + reflexivity.
Qed.

(** ** Building the client *)





(** ** The after date *)

(** X19.  [get_valid_after_date] uses an after date that is given as it
    parses, also when it lies before the default: the default is the
    result only when no after date is given ([max] is taken of the
    parsed date and itself). *)
Theorem get_valid_after_date_as_given after_date :
  get_valid_after_date None after_date = Return after_date
  /\ forall after, get_valid_after_date (Some after) after_date = validate_and_parse_date after.
Proof.
  split; [reflexivity|]. intros after. unfold get_valid_after_date.
  destruct (validate_and_parse_date after) as [d|e]; cbn [rbind]; [|reflexivity].
  now rewrite date_max_same.
Qed.

(** ** The URIs of a filing *)

Lemma lstrip_list_fixed cs l :
  (l = [] \/ exists c t, l = c :: t /\ mem_ascii c cs = false) -> lstrip_list cs l = l.
Proof. intros [->|[c [t [-> Hc]]]]; [reflexivity|]. cbn. now rewrite Hc. Qed.

(** What [strip] leaves has none of the characters at either end. *)
Lemma strip_ends cs s :
  lstrip cs (strip cs s) = strip cs s /\ rstrip cs (strip cs s) = strip cs s.
Proof.
  split.
  - unfold strip, rstrip, lstrip. rewrite !chars_str.
    set (L := lstrip_list (chars cs)).
    f_equal. destruct (lstrip_list_stops (chars cs) (chars s)) as [E|[c [t [E Hc]]]];
      fold L in E; rewrite E; [reflexivity|].
    cbn [rev]. destruct (lstrip_list_snoc (chars cs) c (rev t) Hc) as [t' Ht]. fold L in Ht.
    rewrite Ht, rev_app_distr. cbn [rev app]. unfold L. cbn [lstrip_list]. now rewrite Hc.
  - unfold strip, rstrip, lstrip. rewrite !chars_str, rev_involutive, lstrip_list_idem.
    reflexivity.
Qed.

(** X20.  For an accession number and a document name that are strs,
    [get_to_download] keeps the form and the accession number, and both
    its URIs are built from the same two segments: the accession number
    with every dash removed and nothing else, and the CIK stripped of
    the zeros at both of its ends (what is left has no zero at either
    end, so a CIK that ends in zeros loses them too). *)
Theorem get_to_download_uris cik acc_num f doc :
  exists c a td,
    get_to_download cik (JStr acc_num) f (JStr doc) = Return td
    /\ form td = f
    /\ accession_number td = acc_num
    /\ raw_filing_uri td = URL_FILING K c a (acc_num ++ ".txt")
    /\ primary_doc_uri td = URL_FILING K c a doc
    /\ a = str (filter (fun ch => negb (Ascii.eqb ch "-"%char)) (chars acc_num))
    /\ c = strip "0" cik /\ lstrip "0" c = c /\ rstrip "0" c = c.
Proof.
  exists (strip "0" cik), (replace "-" "" acc_num). eexists.
  split; [reflexivity|]. cbn [form accession_number raw_filing_uri primary_doc_uri].
  repeat split; try apply replace_dash; apply strip_ends.
Qed.

(** ** The table the bulk worker stores *)

Lemma keeps_ret {A} (a : A) : keeps (ret a) (Return a).
Proof. intros w. now split. Qed.

Lemma keeps_lift {A} (r : result A) : keeps (lift r) r.
Proof. intros w. now split. Qed.

Lemma keeps_logger level msg : keeps (logger level msg) (Return tt).
Proof. intros w. now split. Qed.

Lemma keeps_bind {A B} (c : M A) (k : A -> M B) r f :
  keeps c r -> (forall a, keeps (k a) (f a)) -> keeps (bind c k) (rbind r f).
Proof.
  intros Hc Hk w. unfold bind. destruct (Hc w) as [Hr Hf].
  destruct (c w) as [[a|e] w']; cbn [fst snd] in *; subst r; cbn [rbind].
  - destruct (Hk a w') as [Hr' Hf']. split; [exact Hr' | congruence].
  - now split.
Qed.

Lemma keeps_for_each {A S} (l : list A) (body : A -> S -> M S) F :
  (forall x s, keeps (body x s) (F x s)) ->
  forall s, keeps (for_each l body s) (rfold F l s).
Proof.
  intros Hbody. induction l as [|x l IH]; intros s; cbn [for_each rfold].
  - apply keeps_ret.
  - apply keeps_bind; [apply Hbody | exact IH].
Qed.

Lemma stores_conv p c r r' : stores p c r' -> r' = r -> stores p c r.
Proof. now intros H <-. Qed.

Lemma stores_write_file p fc : stores p (write_file p fc) (Return fc).
Proof. intros w. now split. Qed.

Lemma stores_bind {A} p (c : M A) (k : A -> M unit) r f :
  keeps c r -> (forall a, stores p (k a) (f a)) -> stores p (bind c k) (rbind r f).
Proof.
  intros Hc Hk w. unfold bind. destruct (Hc w) as [Hr Hf].
  destruct (c w) as [[a|e] w']; cbn [fst snd] in *; subst r; cbn [rbind].
  - specialize (Hk a w'). destruct (f a) as [fc|e]; destruct Hk as [Hr' Hf'];
      (split; [exact Hr' | congruence]).
  - now split.
Qed.

Lemma parse_member_facts_stores data p :
  stores p (parse_member_facts data p) (member_table data).
Proof.
  unfold parse_member_facts, member_table.
  eapply stores_conv.
  - repeat first
      [ apply stores_write_file
      | eapply stores_bind;
        [ repeat first
            [ apply keeps_lift
            | apply keeps_logger
            | apply keeps_ret
            | eapply keeps_for_each; intros
            | eapply keeps_bind; [|intros] ]
        | intros ] ].
  - reflexivity.
Qed.

(** Nested loops that collect a frame per unit. *)
Lemma rfold_collect {A} (F : unit_group -> DataFrame multi_label)
      (inner : A -> list (DataFrame multi_label) -> result (list (DataFrame multi_label)))
      (gs : A -> list unit_group) (l : list A) :
  (forall x dfs, In x l -> inner x dfs = Return (dfs ++ map F (gs x))%list) ->
  forall dfs, rfold inner l dfs = Return (dfs ++ map F (flat_map gs l))%list.
Proof.
  induction l as [|x l IH]; intros Hinner dfs.
  - cbn. now rewrite app_nil_r.
  - cbn [rfold flat_map]. rewrite (Hinner x dfs (or_introl eq_refl)). cbn [rbind].
    rewrite IH; [now rewrite map_app, app_assoc|].
    intros y dfs' Hy. apply Hinner. now right.
Qed.

(** The table of a well-formed member: the frames of its units side by
    side, in the order of the document. *)
Lemma member_table_doc cik entity facts :
  well_formed facts ->
  member_table (member_json cik entity facts)
  = rbind (concat_axis1 (map worker_frame (groups facts)))
          (fun multi_df => Return (Pickle multi_df)).
Proof.
  intros [Hnd Hsub].
  unfold member_table, member_json.
  cbn [getitem dict_get String.eqb Ascii.eqb Bool.eqb rbind].
  rewrite (keys_encoded tags_json). cbn [rbind].
  rewrite (rfold_keys tags_json _ facts Hnd).
  rewrite (rfold_collect worker_frame _
             (fun tx => flat_map (fun tg => map (fun u => (fst tx, fst tg, fst u, snd u))
                                                (snd tg)) (snd tx))).
  - reflexivity.
  - intros [tax tags] dfs Htx. destruct (Hsub _ Htx) as [Hnd2 Hsub2].
    cbn [fst snd] in *. unfold tags_json at 1.
    rewrite (keys_encoded (fun us => JObj [("units", units_json us)])).
    cbn [rbind]. unfold tags_json.
    rewrite (rfold_keys (fun us => JObj [("units", units_json us)]) _ tags Hnd2).
    apply rfold_collect.
    intros [tag us] dfs' Htg. pose proof (Hsub2 _ Htg) as Hnd3.
    cbn [fst snd getitem dict_get String.eqb Ascii.eqb Bool.eqb rbind] in *.
    unfold units_json at 1. rewrite (keys_encoded (fun rows => JArr (map JObj rows))).
    cbn [rbind]. unfold units_json.
    rewrite (rfold_keys (fun rows => JArr (map JObj rows)) _ us Hnd3).
    rewrite <- (flat_map_singleton (fun u => (tax, tag, fst u, snd u))).
    apply rfold_collect.
    intros [unit rows] dfs'' _. cbn [fst snd map].
    now rewrite pd_DataFrame_records.
Qed.

Lemma records_column rows c :
  (exists row, In row rows /\ dict_has c row = true) ->
  In (c, map (dict_get c) rows) (columns (DataFrame_records rows)).
Proof.
  intros H. apply union_keys_In in H. unfold DataFrame_records. cbn [columns].
  apply in_map_iff. now exists c.
Qed.

Lemma unit_frame_carried tax tag unit rows c :
  (exists row, In row rows /\ dict_has c row = true) ->
  In ((tax, tag, unit, c), map (dict_get c) rows) (columns (unit_frame (tax, tag, unit, rows))).
Proof.
  intros H. unfold unit_frame. rewrite backfill_frame. unfold set_multi_index.
  cbn [columns nrows]. apply in_map_iff. exists (c, map (dict_get c) rows).
  split; [reflexivity|]. apply in_app_iff. left. now apply records_column.
Qed.

Lemma parse_facts_result_member cik entity facts :
  parse_facts_result (member_json cik entity facts)
  = parse_facts_result (facts_json entity facts).
Proof. reflexivity. Qed.

(** X21.  For a member of the archive that is a well-formed facts
    document with at least one unit, whose output path is not there yet:
    the bulk worker returns normally and stores under that path a table
    that holds, for every unit and every column some event of the unit
    carries, the values of the events under the label (taxonomy, unit,
    tag, column).  [parse_facts_json], when it returns a table for the
    same document, holds the same values under (taxonomy, tag, unit,
    column): in the stored tables unit and tag have changed places. *)
Theorem parse_open_json_table filename z t2c c2t folder cik entity facts path w :
  well_formed facts ->
  groups facts <> [] ->
  dict_get filename (members z) = Some (Some (member_json cik entity facts)) ->
  member_output_path (Some (member_json cik entity facts)) z t2c c2t folder
  = Return (member_json cik entity facts, path) ->
  dict_has path (files w) = false ->
  (exists df,
     fst (_parse_open_json (filename, z, t2c, c2t, folder) w) = Return tt
     /\ dict_get path (files (snd (_parse_open_json (filename, z, t2c, c2t, folder) w)))
        = Some (Pickle df)
     /\ forall tax tag unit rows c,
          In (tax, tag, unit, rows) (groups facts) ->
          (exists row, In row rows /\ dict_has c row = true) ->
          In ((tax, unit, tag, c), pad_column (nrows df) (map (dict_get c) rows))
             (columns df))
  /\ (forall self w' df',
        fst (parse_facts_json self (member_json cik entity facts) w') = Return df' ->
        forall tax tag unit rows c,
          In (tax, tag, unit, rows) (groups facts) ->
          (exists row, In row rows /\ dict_has c row = true) ->
          In ((tax, tag, unit, c), pad_column (nrows df') (map (dict_get c) rows))
             (columns df')).
Proof.
  intros Hwf Hne Hf Hpath Hnew. split.
  - pose proof (parse_member_facts_stores (member_json cik entity facts) path w) as Hst.
    rewrite (member_table_doc cik entity facts Hwf) in Hst.
    destruct (concat_axis1 (map worker_frame (groups facts))) as [df|e] eqn:Hc.
    2:{ exfalso. destruct (groups facts); [now apply Hne | discriminate Hc]. }
    cbn [rbind] in Hst. destruct Hst as [Hr Hfiles].
    exists df.
    assert (Hrun : _parse_open_json (filename, z, t2c, c2t, folder) w
                   = parse_member_facts (member_json cik entity facts) path w).
    { unfold _parse_open_json. rewrite Hf. unfold try_except.
      rewrite bind_lift, Hpath. unfold bind at 1. unfold os_path_exists. rewrite Hnew.
      destruct (parse_member_facts (member_json cik entity facts) path w) as [[[]|e] w'];
        cbn [fst] in Hr; [reflexivity | discriminate Hr]. }
    rewrite Hrun. split; [exact Hr|]. split; [rewrite Hfiles; apply dict_get_set_same|].
    intros tax tag unit rows c Hg Hrow.
    apply (concat_axis1_columns _ _ (worker_frame (tax, tag, unit, rows)) _ _ Hc).
    + apply in_map_iff. now exists (tax, tag, unit, rows).
    + unfold worker_frame, set_multi_index. cbn [columns].
      apply in_map_iff. exists (c, map (dict_get c) rows).
      split; [reflexivity | now apply records_column].
  - intros self w' df' Hdf tax tag unit rows c Hg Hrow.
    rewrite (parse_facts_json_result self (member_json cik entity facts) w') in Hdf.
    rewrite parse_facts_result_member, (parse_facts_result_doc entity facts Hwf) in Hdf.
    destruct (groups_ok (groups facts)); [|discriminate Hdf].
    apply (concat_axis1_columns _ _ (unit_frame (tax, tag, unit, rows)) _ _ Hdf).
    + apply in_map_iff. now exists (tax, tag, unit, rows).
    + now apply unit_frame_carried.
Qed.

(** ** The bulk archives *)





End Client.

(* ================================================================== *)
(** * The client on the example configuration *)
(* ================================================================== *)

Import Example.

(** ** Python built-ins *)

(** [Path('/data') / s] for a name with a slash, an empty name, an
    absolute name and a name with empty and "." segments. *)
Example path_join_ex :
  map (fun s => fspath (path_join (mkPath "/" ["data"]) s))
      ["10-K/A"; EmptyString; "/tmp/x"; "./a//b/"; "//srv/x"; "///srv"]
  = ["/data/10-K/A"; "/data"; "/tmp/x"; "/data/a/b"; "//srv/x"; "/srv"]
  /\ fspath (Path_of EmptyString) = "."
  /\ fspath (path_join (Path_of "sec") "..") = "sec/..".
Proof. repeat split; reflexivity. Qed.

Example lower_ex : lower "User-Agent" = "user-agent".
Proof. reflexivity. Qed.

Example upper_ex : upper "aapl.x" = "AAPL.X".
Proof. reflexivity. Qed.

Example zfill_ex : zfill 10 "320193" = "0000320193" /\ zfill 5 "-12" = "-0012".
Proof. split; reflexivity. Qed.

Example replace_ex :
  replace "-" "" "0000320193-23-000106" = "000032019323000106"
  /\ replace "aa" "b" "aaa" = "ba".
Proof. split; reflexivity. Qed.

Example str_of_int_ex :
  str_of_int 320193 = "320193" /\ str_of_int 0 = "0" /\ str_of_int (-1024) = "-1024".
Proof. repeat split; reflexivity. Qed.

Example int_parses_ex :
  int_parses "1_000" = true /\ int_parses "1__0" = false /\ int_parses "AAPL" = false
  /\ int_parses "-12" = true /\ int_parses EmptyString = false.
Proof. repeat split; reflexivity. Qed.

Example endswith_ex : endswith "10-K/A" "/A" = true /\ endswith "10-K" "/A" = false.
Proof. split; reflexivity. Qed.

Example path_suffix_ex :
  path_suffix "a10k.htm" = ".htm" /\ path_suffix "ex/R2.xml" = ".xml"
  /\ path_suffix ".profile" = EmptyString /\ path_suffix "archive.tar.gz" = ".gz".
Proof. repeat split; reflexivity. Qed.

Example search_date_ex :
  search_date "all_companies_facts-2026-11-03.zip" = Some "2026-11-03".
Proof. reflexivity. Qed.

(** ** C1 *)

Lemma aggregate_forms_to_download_limit_witness :
  1 <= limit (metadata 1)
  /\ exists evs,
       snd (aggregate_forms_to_download constants (libraries archive_pages) client
                                        (metadata 1) empty_world)
       = mkworld (trace empty_world ++ evs) (files empty_world)
       /\ Z.of_nat (length (accepted evs)) <= limit (metadata 1)
       /\ (forall fs,
             fst (aggregate_forms_to_download constants (libraries archive_pages) client
                                              (metadata 1) empty_world) = Return fs ->
             fs = accepted evs /\ Z.of_nat (length fs) <= limit (metadata 1))
       /\ (forall pre post, evs = (pre ++ post)%list ->
             Z.of_nat (length (accepted pre)) = limit (metadata 1) ->
             post = []
             /\ fst (aggregate_forms_to_download constants (libraries archive_pages) client
                                                 (metadata 1) empty_world)
                = Return (accepted pre)).
Proof.
  split; [simpl; lia|].
  apply (aggregate_forms_to_download_limit constants (libraries archive_pages) client
                                           (metadata 1) empty_world).
  simpl. lia.
Defined.

(** Two 10-K filings of 2020 are listed, and a continuation page is
    queued; with a limit of 1 the first listed filing is returned after
    the single request for the first page. *)
Example aggregate_limit_1 :
  let run := aggregate_forms_to_download constants (libraries archive_pages) client
                                         (metadata 1) empty_world in
  option_map (map accession_number)
             (match fst run with Return fs => Some fs | Raise _ => None end)
  = Some ["0000320193-20-000010"]
  /\ requested (trace (snd run)) = ["https://data.sec.gov/submissions/CIK0000320193.json"].
Proof. split; reflexivity. Qed.

(** Without a limit in the way both pages are requested, in order. *)
Example aggregate_limit_5 :
  let run := aggregate_forms_to_download constants (libraries archive_pages) client
                                         (metadata 5) empty_world in
  option_map (map accession_number)
             (match fst run with Return fs => Some fs | Raise _ => None end)
  = Some ["0000320193-20-000010"; "0000320193-20-000030"]
  /\ requested (trace (snd run))
     = ["https://data.sec.gov/submissions/CIK0000320193.json";
        "https://data.sec.gov/submissions/CIK0000320193-submissions-001.json"].
Proof. split; reflexivity. Qed.

(** ** C2 *)

(** C2, as stated, fails on a unit of two events: the second event
    carries no [val], yet the document is parsed to the end; the table
    holds NaN in that place. *)
Lemma parse_facts_json_row_without_val :
  In event_without_val [event_full; event_without_val]
  /\ dict_has "val" event_without_val = false
  /\ fst (parse_facts_json (libraries []) client (facts_json "Apple Inc." facts) empty_world)
     <> Raise SystemExit
  /\ exists df,
       fst (parse_facts_json (libraries []) client (facts_json "Apple Inc." facts) empty_world)
       = Return df
       /\ In (("us-gaap", "NetIncomeLoss", "USD", "val"), [Some (JInt 57411000000); None])
             (columns df).
Proof.
  split; [right; left; reflexivity|]. split; [reflexivity|]. split.
  - vm_compute. discriminate.
  - eexists. split; [vm_compute; reflexivity|]. vm_compute. tauto.
Qed.

Lemma well_formed_facts : well_formed facts.
Proof.
  unfold well_formed, facts. split.
  - repeat constructor. simpl. tauto.
  - intros tx [<-|[]]. split.
    + repeat constructor. simpl. tauto.
    + intros tg [<-|[]]. repeat constructor. simpl. tauto.
Qed.

Lemma parse_facts_json_checks_units_witness :
  well_formed facts
  /\ exists df,
       fst (parse_facts_json (libraries []) client (facts_json "Apple Inc." facts) empty_world)
       = Return df
       /\ forall tax tag unit rows c,
            In (tax, tag, unit, rows) (groups facts) -> In c ALLOWED_DATA_COLUMNS ->
            In ((tax, tag, unit, c),
                pad_column (nrows df)
                  (if str_in c (union_keys rows) then map (dict_get c) rows
                   else repeat None (length rows)))
               (columns df).
Proof.
  split; [exact well_formed_facts|].
  apply (proj1 (parse_facts_json_checks_units (libraries []) client "Apple Inc." facts
                                              empty_world well_formed_facts)).
  - intros tax tag unit rows [Hg|[]] c Hc. injection Hg as <- <- <- <-.
    left. exists event_full. split; [left; reflexivity|].
    simpl in Hc.
    repeat (destruct Hc as [<-|Hc]; [reflexivity|]). destruct Hc.
  - discriminate.
Defined.

(** A unit none of whose events carries [val] stops the run. *)
Example parse_facts_json_unit_without_val :
  fst (parse_facts_json (libraries []) client
                        (facts_json "Apple Inc." facts_without_val) empty_world)
  = Raise SystemExit.
Proof. reflexivity. Qed.

(** ** C3 *)

(** C3 at the failing input.  When the session gives up after its
    retries, [Session.get] raises [RetryError]; the call stands before
    the [try], so [_rate_limited_get] lets the bare [requests] exception
    through instead of an [EdgarAPIError]. *)
Theorem rate_limited_get_propagates_retry_error :
  fst (_rate_limited_get unreachable client
                         "https://data.sec.gov/submissions/CIK0000320193.json"
                         None None empty_world)
  = Raise (Requests RetryError).
Proof. reflexivity. Qed.

(** ** C4 *)

Lemma parse_open_json_skips_existing_witness :
  dict_get "CIK0000320193.json" (members facts_zip)
  = Some (Some (JObj [("cik", JInt 320193); ("entityName", JStr "Apple Inc.");
                      ("facts", JObj [("us-gaap", tags_json
                         [("NetIncomeLoss", [("USD", [event_full])])])])]))
  /\ dict_has "/data/sec-edgar-facts/AAPL_facts-2026-11-03.pkl" (files extracted_world) = true
  /\ _parse_open_json constants (libraries [])
       ("CIK0000320193.json", facts_zip, ticker_to_cik_mapping client,
        cik_to_ticker_mapping client, facts_save_folder client) extracted_world
     = (Return tt,
        mkworld (trace extracted_world
                 ++ [Log "info" ("File already exists: "
                                 ++ "/data/sec-edgar-facts/AAPL_facts-2026-11-03.pkl")])
                (files extracted_world)).
Proof.
  split; [reflexivity|]. split; [reflexivity|].
  eapply (proj1 (parse_open_json_skips_existing constants (libraries []))); reflexivity.
Defined.

(** A first bulk run writes the table of the member; a second run over
    the files it left only logs that the table exists. *)
Example parse_all_facts_twice :
  let w1 := snd (parse_all_facts_in_latest_zip constants (libraries []) client facts_zip 2
                                               empty_world) in
  let w2 := snd (parse_all_facts_in_latest_zip constants (libraries []) client facts_zip 2
                                               w1) in
  written (trace w1) = ["/data/sec-edgar-facts/AAPL_facts-2026-11-03.pkl"]
  /\ written (trace w2) = written (trace w1)
  /\ files w2 = files w1.
Proof. repeat split; reflexivity. Qed.

(** ** C5 *)

Lemma download_forms_by_company_rejects_witness :
  (exists l, Some 0 = Some l /\ l < 1)
  /\ exists msg,
       download_forms_by_company constants (libraries archive_pages) client (JStr "AAPL")
                                 ["10-K"] (Some 0) None None false true empty_world
       = (Raise (ValueError msg), empty_world).
Proof.
  split; [exists 0; split; [reflexivity | lia]|].
  apply (download_forms_by_company_rejects constants (libraries archive_pages) client
           (JStr "AAPL") ["10-K"] (Some 0) None None false true empty_world).
  left. exists 0. split; [reflexivity | lia].
Defined.

Example download_forms_after_later_than_before :
  download_forms_by_company constants (libraries archive_pages) client (JStr "aapl")
                            ["10-K"] None (Some "2021-01-01") (Some "2020-01-01")
                            false true empty_world
  = (Raise (ValueError "After date cannot be greater than the before date."), empty_world).
Proof. reflexivity. Qed.

Example download_forms_unsupported_form :
  download_forms_by_company constants (libraries archive_pages) client (JStr "aapl")
                            ["10-K"; "10-X"] None None None false true empty_world
  = (Raise (ValueError
       "The following forms aren't supported: 10-X. Please choose from the following: 10-K, 10-K/A, 10-Q, 8-K, 4, SC 13G."),
     empty_world).
Proof. reflexivity. Qed.

(** A valid call goes to the network: the first page, then the filing
    (which this server does not hold). *)
Example download_forms_valid_call :
  let run := download_forms_by_company constants (libraries archive_pages) client
               (JStr "aapl") ["10-K"] (Some 1) (Some "2020-01-01") (Some "2020-12-31")
               false true empty_world in
  requested (trace (snd run))
  = ["https://data.sec.gov/submissions/CIK0000320193.json";
     "https://www.sec.gov/Archives/edgar/data/320193/000032019320000010/0000320193-20-000010.txt"].
Proof. reflexivity. Qed.

(** ** C6 *)

Lemma row_accepted_iff_witness :
  strptime (libraries []) (DATE_FORMAT_TOKENS constants) "2020-03-01"
  = Some (mkdate 2020 3 1)
  /\ exists keep td,
       row_passes constants (libraries []) (metadata 1) (JStr "10-K") (JStr "2020-03-01")
       = Return keep
       /\ (keep = true <->
             In "10-K" (forms (metadata 1))
             /\ (include_amends (metadata 1) = false ->
                 endswith "10-K" (AMENDS_SUFFIX constants) = false)
             /\ date_leb (after (metadata 1)) (mkdate 2020 3 1) = true
             /\ date_leb (mkdate 2020 3 1) (before (metadata 1)) = true)
       /\ get_to_download constants (cik (metadata 1)) (JStr "0000320193-20-000010")
                          "10-K" (JStr "a10k.htm") = Return td
       /\ for_rows constants (libraries []) (metadata 1)
                   ((JStr "0000320193-20-000010", JStr "10-K", JStr "a10k.htm",
                     JStr "2020-03-01") :: []) true [] 0 empty_world
          = if keep then
              let w' := mkworld (trace empty_world ++ [Accepted td]) (files empty_world) in
              if 0 + 1 =? limit (metadata 1) then (Return (Returned ([] ++ [td])), w')
              else for_rows constants (libraries []) (metadata 1) [] true ([] ++ [td])
                            (0 + 1) w'
            else for_rows constants (libraries []) (metadata 1) [] true [] 0 empty_world.
Proof.
  split; [reflexivity|].
  apply (row_accepted_iff constants (libraries []) (metadata 1) "0000320193-20-000010"
                          "10-K" "a10k.htm" "2020-03-01" (mkdate 2020 3 1) [] true [] 0
                          empty_world).
  reflexivity.
Defined.

(** The window is closed at both ends, an amendment is dropped unless
    amendments are asked for, and a form that was not requested is
    dropped. *)
Example row_passes_ex :
  row_passes constants (libraries []) (metadata 1) (JStr "10-K") (JStr "2020-01-01")
  = Return true
  /\ row_passes constants (libraries []) (metadata 1) (JStr "10-K") (JStr "2020-12-31")
     = Return true
  /\ row_passes constants (libraries []) (metadata 1) (JStr "10-K") (JStr "2021-01-01")
     = Return false
  /\ row_passes constants (libraries []) (metadata 1) (JStr "10-K") (JStr "2019-12-31")
     = Return false
  /\ row_passes constants (libraries []) (metadata 1) (JStr "10-Q") (JStr "2020-03-01")
     = Return false.
Proof. repeat split; reflexivity. Qed.

(** ** C7 *)

Lemma merge_submission_dicts_concatenates_witness :
  (forall p k, In p [older_page] -> dict_has k p = dict_has k recent_page)
  /\ exists merged,
       merge_submission_dicts (map page_obj (recent_page :: [older_page]))
       = Return (JObj merged)
       /\ forall k,
            dict_get k merged
            = if dict_has k recent_page
              then Some (JArr (concat (map (column k) (recent_page :: [older_page]))))
              else None.
Proof.
  assert (H : forall p k, In p [older_page] -> dict_has k p = dict_has k recent_page).
  { intros p k [<-|[]]. unfold dict_has, older_page, recent_page. cbn [dict_get].
    repeat match goal with
           | |- context [String.eqb k ?s] => destruct (String.eqb k s); [reflexivity|]
           end.
    reflexivity. }
  split; [exact H|].
  exact (merge_submission_dicts_concatenates recent_page [older_page] H).
Defined.

Example merge_submission_dicts_ex :
  merge_submission_dicts (map page_obj [recent_page; older_page])
  = Return (page_obj
      [("accessionNumber", map JStr ["0000320193-20-000010"; "0000320193-20-000020";
                                    "0000320193-20-000030"; "0000320193-19-000010"]);
       ("form", map JStr ["10-K"; "10-Q"; "10-K"; "10-K"]);
       ("primaryDocument", map JStr ["a10k.htm"; "a10q.htm"; "b10k.htm"; "c10k.htm"]);
       ("filingDate", map JStr ["2020-03-01"; "2020-05-01"; "2020-11-01"; "2019-03-01"])]).
Proof. reflexivity. Qed.

(** [get_submissions_by_company] merges the recent batch and the pages in
    the order the archive lists them. *)
Example get_submissions_by_company_ex :
  fst (get_submissions_by_company constants (libraries archive_pages) client
                                  (JStr "320193") true empty_world)
  = Return
      (JObj [("cik", JStr "320193");
             ("filings",
              JObj [("recent",
                     page_obj
                       [("accessionNumber",
                         map JStr ["0000320193-20-000010"; "0000320193-20-000020";
                                   "0000320193-20-000030"; "0000320193-19-000010"]);
                        ("form", map JStr ["10-K"; "10-Q"; "10-K"; "10-K"]);
                        ("primaryDocument",
                         map JStr ["a10k.htm"; "a10q.htm"; "b10k.htm"; "c10k.htm"]);
                        ("filingDate",
                         map JStr ["2020-03-01"; "2020-05-01"; "2020-11-01";
                                   "2019-03-01"])]);
                    ("files", JArr [])])]).
Proof. reflexivity. Qed.

(** ** C8 *)

(** C8 at the failing input.  For the identifier 0000066740 and a
    primary document named with [.html], [get_to_download] strips the
    zeros at both ends of the identifier ([strip], giving 6674 in both
    URIs instead of 66740) and rewrites [htm] inside the suffix (giving
    [.htmll] instead of leaving [.html] as it is); the dashes of the
    accession number are removed as claimed. *)
Theorem get_to_download_strips_both_ends :
  get_to_download constants "0000066740" (JStr "0000066740-23-000014") "10-K"
                  (JStr "mmm-20221231.html")
  = Return {|
      form := "10-K";
      raw_filing_uri :=
        "https://www.sec.gov/Archives/edgar/data/6674/000006674023000014/0000066740-23-000014.txt";
      primary_doc_uri :=
        "https://www.sec.gov/Archives/edgar/data/6674/000006674023000014/mmm-20221231.html";
      accession_number := "0000066740-23-000014";
      details_doc_suffix := ".htmll"
    |}.
Proof. reflexivity. Qed.

(** On an identifier that does not end in 0 and a document named with
    [.htm] the descriptor is the claimed one. *)
Example get_to_download_ex :
  get_to_download constants "0000320193" (JStr "0000320193-20-000010") "10-K"
                  (JStr "a10k.htm")
  = Return {|
      form := "10-K";
      raw_filing_uri :=
        "https://www.sec.gov/Archives/edgar/data/320193/000032019320000010/0000320193-20-000010.txt";
      primary_doc_uri :=
        "https://www.sec.gov/Archives/edgar/data/320193/000032019320000010/a10k.htm";
      accession_number := "0000320193-20-000010";
      details_doc_suffix := ".html"
    |}.
Proof. reflexivity. Qed.

(** ** C9 *)

(** C9 at the failing input.  On a directory with the columns [cik],
    [name], [ticker] and [exchange], the third mapping of
    [get_ticker_cik_name_mapping] gives the tickers once more, not the
    names of the [name] column: its comprehension runs over the items of
    the first mapping, and [name_idx] is never used. *)
Theorem get_ticker_cik_name_mapping_third_is_tickers :
  fst (get_ticker_cik_name_mapping constants (libraries directory_pages) client empty_world)
  = Return ([("AAPL", "0000320193"); ("MMM", "0000066740")],
            [("0000320193", "AAPL"); ("0000066740", "MMM")],
            [("0000320193", "AAPL"); ("0000066740", "MMM")]).
Proof. reflexivity. Qed.

(** The client is built from the directory: its three mappings are
    loaded by one request. *)
Example EdgarClient_init_ex :
  let run := EdgarClient_init constants (libraries directory_pages) "Sample Company"
                              "admin@sample.com" (Some (OfPath (mkPath "/" ["data"])))
                              empty_world in
  fst run = Return client
  /\ requested (trace (snd run))
     = ["https://www.sec.gov/files/company_tickers_exchange.json"].
Proof. split; reflexivity. Qed.

(** ** C10 *)

Lemma merge_submission_dicts_keys_of_first_witness :
  (exists merged,
      merge_submission_dicts
        (map page_obj [[("form", [JStr "10-K"])];
                       [("form", [JStr "8-K"]); ("size", [JInt 1])]])
      = Return (JObj merged)
      /\ dict_get "form" merged = Some (JArr [JStr "10-K"; JStr "8-K"])
      /\ dict_has "size" [("form", [JStr "8-K"]); ("size", [JInt 1])] = true
      /\ dict_get "size" merged = None)
  /\ (exists e,
        merge_submission_dicts
          [JObj [("form", JArr [JStr "10-K"]); ("filingDate", JArr [JStr "2020-03-01"])];
           JObj [("form", JArr [JStr "8-K"])]]
        = Raise e).
Proof.
  split.
  - destruct (proj1 merge_submission_dicts_keys_of_first
                    [("form", [JStr "10-K"])]
                    [[("form", [JStr "8-K"]); ("size", [JInt 1])]])
      as [merged [Hrun [_ [Hget Hdrop]]]].
    + intros p k [<-|[]] Hk. unfold dict_has in *. cbn [dict_get] in *.
      destruct (String.eqb k "form"); [reflexivity | discriminate Hk].
    + exists merged. split; [exact Hrun|].
      split; [exact (Hget "form" eq_refl)|]. split; [reflexivity|].
      apply (Hdrop [("form", [JStr "8-K"]); ("size", [JInt 1])] "size");
        [left|..]; reflexivity.
  - apply (proj2 (proj2 merge_submission_dicts_keys_of_first)
                 [("form", JArr [JStr "10-K"]); ("filingDate", JArr [JStr "2020-03-01"])]
                 [JObj [("form", JArr [JStr "8-K"])]]
                 [("form", JArr [JStr "8-K"])] "filingDate").
    + left. reflexivity.
    + reflexivity.
    + reflexivity.
Defined.

(** A key that only the later page has is dropped; a key that the later
    page lacks makes the merge raise [KeyError]. *)
Example merge_submission_dicts_keys_ex :
  merge_submission_dicts
    [JObj [("form", JArr [JStr "10-K"])];
     JObj [("form", JArr [JStr "8-K"]); ("size", JArr [JInt 1])]]
  = Return (JObj [("form", JArr [JStr "10-K"; JStr "8-K"])])
  /\ merge_submission_dicts
       [JObj [("form", JArr [JStr "10-K"]); ("size", JArr [JInt 1])];
        JObj [("form", JArr [JStr "8-K"])]]
     = Raise (KeyError "size")
  /\ merge_submission_dicts [] = Raise IndexError.
Proof. repeat split; reflexivity. Qed.

(* ================================================================== *)
(** * Further properties on the example configuration *)
(* ================================================================== *)

(** ** X1 *)

Lemma aggregate_forms_to_download_listed_witness :
  1 <= limit (metadata 5)
  /\ serves (libraries archive_pages) (URL_SUBMISSIONS constants (cik (metadata 5))) submissions
  /\ getitem submissions "filings"
     = Return (JObj [("recent", rows_page recent_rows);
                     ("files", JArr [JObj [("name", JStr "CIK0000320193-submissions-001.json")]])])
  /\ Forall2 (fun entry p =>
                getitem entry "name" = Return (JStr (fst p))
                /\ serves (libraries archive_pages)
                          (URL_PAGINATED_SUBMISSIONS constants (fst p)) (rows_page (snd p)))
             [JObj [("name", JStr "CIK0000320193-submissions-001.json")]]
             [("CIK0000320193-submissions-001.json", older_rows)]
  /\ (forall rows, In rows [recent_rows; older_rows] ->
        dates_parse constants (libraries archive_pages) rows)
  /\ fst (aggregate_forms_to_download constants (libraries archive_pages) client
                                      (metadata 5) empty_world)
     = Return (take 5 (flat_map (kept_filings constants (libraries archive_pages) (metadata 5))
                                [recent_rows; older_rows]))
  /\ exists evs,
       snd (aggregate_forms_to_download constants (libraries archive_pages) client
                                        (metadata 5) empty_world)
       = mkworld (trace empty_world ++ evs) (files empty_world)
       /\ requested evs
          = ["https://data.sec.gov/submissions/CIK0000320193.json";
             "https://data.sec.gov/submissions/CIK0000320193-submissions-001.json"].
Proof.
  assert (Hs : forall u j, dict_get u archive_pages = Some (ok_json u j) ->
                 serves (libraries archive_pages) u j).
  { intros u j H tr hs. exists (ok_json u j). cbn [session_get libraries]. unfold serve.
    rewrite H. repeat split. }
  assert (Hp : Forall2 (fun entry p =>
                getitem entry "name" = Return (JStr (fst p))
                /\ serves (libraries archive_pages)
                          (URL_PAGINATED_SUBMISSIONS constants (fst p)) (rows_page (snd p)))
             [JObj [("name", JStr "CIK0000320193-submissions-001.json")]]
             [("CIK0000320193-submissions-001.json", older_rows)]).
  { repeat constructor. apply Hs. reflexivity. }
  assert (Hd : forall rows, In rows [recent_rows; older_rows] ->
                 dates_parse constants (libraries archive_pages) rows).
  { intros rows [<-|[<-|[]]] r Hr; simpl in Hr;
      repeat (destruct Hr as [<-|Hr]; [discriminate|]); destruct Hr. }
  split; [simpl; lia|]. split; [apply Hs; reflexivity|]. split; [reflexivity|].
  split; [exact Hp|]. split; [exact Hd|].
  apply (aggregate_forms_to_download_listed constants (libraries archive_pages) client
           (metadata 5) empty_world submissions
           (JObj [("recent", rows_page recent_rows);
                  ("files", JArr [JObj [("name", JStr "CIK0000320193-submissions-001.json")]])])
           recent_rows [JObj [("name", JStr "CIK0000320193-submissions-001.json")]]
           [("CIK0000320193-submissions-001.json", older_rows)]);
    try reflexivity; try assumption.
  - simpl. lia.
  - apply Hs. reflexivity.
Defined.

(** Both pages are read below the limit; with a limit of 1 the first
    page is enough. *)
Example aggregate_listed_ex :
  map accession_number
      (take 5 (flat_map (kept_filings constants (libraries archive_pages) (metadata 5))
                        [recent_rows; older_rows]))
  = ["0000320193-20-000010"; "0000320193-20-000030"]
  /\ pages_read 5 [2; 0] = 2%nat /\ pages_read 1 [2; 0] = 1%nat
  /\ pages_read 2 [2; 0] = 1%nat /\ pages_read 3 [2; 0] = 2%nat.
Proof. repeat split; reflexivity. Qed.

(** ** X2 *)

Lemma aggregate_forms_to_download_unequal_arrays_witness :
  1 <= limit (metadata 5)
  /\ serves (libraries ragged_pages) (URL_SUBMISSIONS constants (cik (metadata 5)))
            ragged_submissions
  /\ getitem ragged_page "filingDate" = Return (JArr [JStr "2020-03-01"])
  /\ exists evs,
       snd (aggregate_forms_to_download constants (libraries ragged_pages) client
                                        (metadata 5) empty_world)
       = mkworld (trace empty_world ++ evs) (files empty_world)
       /\ requested evs = [URL_SUBMISSIONS constants (cik (metadata 5))]
       /\ ((exists e,
              fst (aggregate_forms_to_download constants (libraries ragged_pages) client
                                               (metadata 5) empty_world) = Raise e)
           \/ (fst (aggregate_forms_to_download constants (libraries ragged_pages) client
                                                (metadata 5) empty_world)
               = Return (accepted evs)
               /\ Z.of_nat (length (accepted evs)) = limit (metadata 5))).
Proof.
  assert (Hs : serves (libraries ragged_pages) (URL_SUBMISSIONS constants (cik (metadata 5)))
                      ragged_submissions).
  { intros tr hs. eexists. repeat split. }
  split; [simpl; lia|]. split; [exact Hs|]. split; [reflexivity|].
  apply (aggregate_forms_to_download_unequal_arrays constants (libraries ragged_pages) client
           (metadata 5) empty_world ragged_submissions
           (JObj [("recent", ragged_page);
                  ("files", JArr [JObj [("name", JStr "CIK0000320193-submissions-001.json")]])])
           ragged_page
           (map JStr ["0000320193-20-000010"; "0000320193-20-000030"])
           (map JStr ["10-K"; "10-K"]) (map JStr ["a10k.htm"; "b10k.htm"])
           (map JStr ["2020-03-01"]));
    try reflexivity; try exact Hs.
  - simpl. lia.
  - simpl. intros [_ [_ H]]. discriminate H.
Defined.

(** The second row has no date: below the limit the run ends in the
    [ValueError] of [zip]; with a limit of 1 it returns the first filing
    and the mismatch goes unnoticed. *)
Example aggregate_ragged_ex :
  fst (aggregate_forms_to_download constants (libraries ragged_pages) client
                                   (metadata 5) empty_world)
  = Raise (ValueError "zip() arguments have different lengths")
  /\ option_map (map accession_number)
       (match fst (aggregate_forms_to_download constants (libraries ragged_pages) client
                                               (metadata 1) empty_world) with
        | Return fs => Some fs
        | Raise _ => None
        end)
     = Some ["0000320193-20-000010"].
Proof. split; reflexivity. Qed.

(** ** X3 *)

Lemma fetch_and_save_filings_accounts_witness :
  fst (fetch_and_save_filings constants (libraries filing_pages) client (metadata 1)
                              empty_world) = Return 1
  /\ exists evs,
       trace (snd (fetch_and_save_filings constants (libraries filing_pages) client
                                          (metadata 1) empty_world))
       = (trace empty_world ++ evs)%list
       /\ 1 = Z.of_nat (length (accepted evs))
       /\ written evs = flat_map (saved_paths constants (metadata 1)) (accepted evs)
       /\ forall p, In p (written evs) ->
            dict_has p (files (snd (fetch_and_save_filings constants (libraries filing_pages)
                                                           client (metadata 1) empty_world)))
            = true.
Proof.
  split; [reflexivity|].
  apply (fetch_and_save_filings_accounts constants (libraries filing_pages) client
                                         (metadata 1) empty_world 1).
  reflexivity.
Defined.

(** One filing, one file: the full submission under the folder of the
    company, the form and the accession number. *)
Example fetch_and_save_filings_ex :
  let run := fetch_and_save_filings constants (libraries filing_pages) client (metadata 1)
                                    empty_world in
  fst run = Return 1
  /\ written (trace (snd run))
     = ["/data/sec-edgar-filings/AAPL-0000320193/10-K/0000320193-20-000010/full-submission.txt"]
  /\ dict_get "/data/sec-edgar-filings/AAPL-0000320193/10-K/0000320193-20-000010/full-submission.txt"
              (files (snd run))
     = Some (Bytes "<SEC-DOCUMENT>").
Proof. repeat split; reflexivity. Qed.

(** ** X4, X5 and X6 *)

Lemma validate_and_return_cik_known_witness :
  validate_and_return_cik constants (libraries []) (JStr " aapl ")
                          (ticker_to_cik_mapping client)
  = Return "0000320193"
  /\ In "0000320193" (dict_values (ticker_to_cik_mapping client)).
Proof.
  split; [reflexivity|].
  apply (validate_and_return_cik_known constants (libraries []) (JStr " aapl ")
                                       (ticker_to_cik_mapping client) "0000320193").
  reflexivity.
Defined.

(** A ticker in any case, a CIK with or without its zeros, as a str or
    as an int; an identifier the mapping does not hold is refused. *)
Example validate_and_return_cik_ex :
  validate_and_return_cik constants (libraries []) (JStr "Mmm") (ticker_to_cik_mapping client)
  = Return "0000066740"
  /\ validate_and_return_cik constants (libraries []) (JStr "66740")
                             (ticker_to_cik_mapping client)
     = Return "0000066740"
  /\ validate_and_return_cik constants (libraries []) (JInt 320193)
                             (ticker_to_cik_mapping client)
     = Return "0000320193"
  /\ validate_and_return_cik constants (libraries []) (JStr "1234")
                             (ticker_to_cik_mapping client)
     = Raise (ValueError "Invalid CIK. Not present in the CIK to ticker mapping.")
  /\ validate_and_return_cik constants (libraries []) (JStr "  ")
                             (ticker_to_cik_mapping client)
     = Raise (ValueError "Invalid ticker or CIK. Please enter a non-blank value.").
Proof. repeat split; reflexivity. Qed.

(** [validate_cik] pads to ten characters; what [int] reads passes, a
    sign included. *)
Example validate_cik_ex :
  validate_cik (libraries []) (JInt 320193) = Return "0000320193"
  /\ validate_cik (libraries []) (JStr " 66740 ") = Return "0000066740"
  /\ validate_cik (libraries []) (JStr "-5") = Return "-000000005"
  /\ validate_cik (libraries []) (JStr "12345678901")
     = Raise (ValueError "Invalid CIK. Please enter an valid SEC CIK at most 10 digits long.")
  /\ validate_cik (libraries []) (JStr "AAPL")
     = Raise (ValueError "Invalid CIK. Please enter an valid SEC CIK at most 10 digits long.").
Proof. repeat split; reflexivity. Qed.

(** ** X7, X8 and X9 *)

Lemma get_ticker_cik_name_mapping_missing_field_witness :
  serves (libraries directory_without_cik_pages) (URL_CIK_MAPPING constants)
         directory_without_cik
  /\ In "cik" ["cik"; "ticker"; "name"]
  /\ exists msg hs,
       get_ticker_cik_name_mapping constants (libraries directory_without_cik_pages) client
                                   empty_world
       = (Raise (ValueError msg),
          mkworld (trace empty_world ++ [Request (URL_CIK_MAPPING constants) hs])
                  (files empty_world)).
Proof.
  assert (Hs : serves (libraries directory_without_cik_pages) (URL_CIK_MAPPING constants)
                      directory_without_cik).
  { intros tr hs. eexists. repeat split. }
  split; [exact Hs|]. split; [now left|].
  apply (get_ticker_cik_name_mapping_missing_field constants
           (libraries directory_without_cik_pages) client empty_world directory_without_cik
           (map JStr ["id"; "name"; "ticker"; "exchange"])
           (JArr [JArr [JInt 320193; JStr "Apple Inc."; JStr "AAPL"; JStr "Nasdaq"]])
           "cik" Hs); try reflexivity.
  - now left.
  - cbn. intros [H|[H|[H|[H|[]]]]]; discriminate H.
Defined.

Example get_ticker_cik_name_mapping_missing_field_ex :
  fst (get_ticker_cik_name_mapping constants (libraries directory_without_cik_pages) client
                                   empty_world)
  = Raise (ValueError "cik is not in list").
Proof. reflexivity. Qed.

Lemma get_ticker_cik_name_mapping_round_trip_witness :
  fst (get_ticker_cik_name_mapping constants (libraries directory_pages) client empty_world)
  = Return (ticker_to_cik_mapping client, cik_to_ticker_mapping client, cik_to_name client)
  /\ (forall cik ticker,
        dict_get cik (cik_to_ticker_mapping client) = Some ticker ->
        dict_get ticker (ticker_to_cik_mapping client) = Some cik)
  /\ (forall ticker cik,
        dict_get ticker (ticker_to_cik_mapping client) = Some cik ->
        exists ticker', dict_get cik (cik_to_ticker_mapping client) = Some ticker'
                        /\ dict_get ticker' (ticker_to_cik_mapping client) = Some cik).
Proof.
  split; [reflexivity|].
  apply (get_ticker_cik_name_mapping_round_trip constants (libraries directory_pages) client
           empty_world (ticker_to_cik_mapping client) (cik_to_ticker_mapping client)
           (cik_to_name client)).
  reflexivity.
Defined.

Lemma get_ticker_cik_name_mapping_normal_form_witness :
  fst (get_ticker_cik_name_mapping constants (libraries directory_pages) client empty_world)
  = Return (ticker_to_cik_mapping client, cik_to_ticker_mapping client, cik_to_name client)
  /\ (forall ticker cik,
        dict_get ticker (ticker_to_cik_mapping client) = Some cik ->
        upper ticker = ticker /\ CIK_LENGTH constants <= len cik)
  /\ (forall cik ticker,
        dict_get cik (cik_to_ticker_mapping client) = Some ticker ->
        upper ticker = ticker /\ CIK_LENGTH constants <= len cik).
Proof.
  split; [reflexivity|].
  apply (get_ticker_cik_name_mapping_normal_form constants (libraries directory_pages) client
           empty_world (ticker_to_cik_mapping client) (cik_to_ticker_mapping client)
           (cik_to_name client)).
  reflexivity.
Defined.

(** ** X10 *)

Lemma merge_submission_dicts_in_steps_witness :
  NoDup (dict_keys recent_page)
  /\ merge_submission_dicts [page_obj recent_page] = Return (page_obj recent_page)
  /\ rbind (merge_submission_dicts (map page_obj (recent_page :: [older_page])))
           (fun merged => merge_submission_dicts (merged :: map page_obj [older_page]))
     = merge_submission_dicts (map page_obj (recent_page :: [older_page] ++ [older_page])).
Proof.
  assert (Hnd : NoDup (dict_keys recent_page)).
  { repeat constructor; cbn; intuition discriminate. }
  split; [exact Hnd|].
  apply (merge_submission_dicts_in_steps recent_page [older_page] [older_page] Hnd).
  intros p k [<-|[<-|[]]]; unfold dict_has, older_page, recent_page; cbn [dict_get];
    repeat match goal with
           | |- context [String.eqb k ?s] => destruct (String.eqb k s); [reflexivity|]
           end;
    reflexivity.
Defined.

(** ** X11 and X12 *)

Lemma get_submissions_by_company_pages_witness :
  validate_and_return_cik constants (libraries archive_pages) (JStr "aapl")
                          (ticker_to_cik_mapping client)
  = Return "0000320193"
  /\ serves (libraries archive_pages) (URL_SUBMISSIONS constants "0000320193") submissions
  /\ (exists hs,
        get_submissions_by_company constants (libraries archive_pages) client (JStr "aapl")
                                   false empty_world
        = (Return submissions,
           mkworld (trace empty_world ++ [Request (URL_SUBMISSIONS constants "0000320193") hs])
                   (files empty_world)))
  /\ exists evs,
       get_submissions_by_company constants (libraries archive_pages) client (JStr "aapl")
                                  true empty_world
       = (rbind (merge_submission_dicts (page_obj recent_page :: [page_obj older_page]))
                (fun merged =>
                   Return (setitem submissions "filings"
                             (setitem
                                (setitem
                                   (JObj [("recent", page_obj recent_page);
                                          ("files",
                                           JArr [JObj [("name",
                                                        JStr "CIK0000320193-submissions-001.json")]])])
                                   "recent" merged)
                                "files" (JArr [])))),
          mkworld (trace empty_world ++ evs) (files empty_world))
       /\ requested evs
          = ["https://data.sec.gov/submissions/CIK0000320193.json";
             "https://data.sec.gov/submissions/CIK0000320193-submissions-001.json"]
       /\ written evs = [].
Proof.
  assert (Hs : forall u j, dict_get u archive_pages = Some (ok_json u j) ->
                 serves (libraries archive_pages) u j).
  { intros u j H tr hs. exists (ok_json u j). cbn [session_get libraries]. unfold serve.
    rewrite H. repeat split. }
  split; [reflexivity|]. split; [apply Hs; reflexivity|].
  apply (get_submissions_by_company_pages constants (libraries archive_pages) client
           (JStr "aapl") empty_world "0000320193" submissions
           (JObj [("recent", page_obj recent_page);
                  ("files", JArr [JObj [("name", JStr "CIK0000320193-submissions-001.json")]])])
           (page_obj recent_page)
           [JObj [("name", JStr "CIK0000320193-submissions-001.json")]]
           [("CIK0000320193-submissions-001.json", page_obj older_page)]);
    try reflexivity.
  - apply Hs. reflexivity.
  - discriminate.
  - repeat constructor. apply Hs. reflexivity.
Defined.

Lemma lookups_validate_first_witness :
  validate_and_return_cik constants (libraries archive_pages) (JStr "ZZZZ")
                          (ticker_to_cik_mapping client)
  = Raise (ValueError
      "Ticker is invalid and cannot be mapped to a CIK. Please enter a valid ticker or CIK.")
  /\ forall w,
       get_facts_by_company constants (libraries archive_pages) xbrl_constants client
                            (JStr "ZZZZ") w
       = (Raise (ValueError
            "Ticker is invalid and cannot be mapped to a CIK. Please enter a valid ticker or CIK."),
          w).
Proof.
  split; [reflexivity|].
  apply (lookups_validate_first constants (libraries archive_pages) xbrl_constants runtime
           client (JStr "ZZZZ")).
  reflexivity.
Defined.

(** ** X13 and X14 *)

(** Three identifiers: the facts of the first arrive and are written,
    the second is not a known ticker, the facts of the third are not to
    be had.  One file, two skipped tickers, two requests. *)
Example download_facts_for_companies_ex :
  let run := download_facts_for_companies constants (libraries facts_pages) xbrl_constants
               runtime client ["aapl"; "ZZZZ"; "MMM"] true empty_world in
  fst run = Return ([Some "AAPL"], [Some "ZZZZ"; Some "MMM"])
  /\ written (trace (snd run)) = ["/data/sec-edgar-facts/AAPL-facts-2026-11-03.json"]
  /\ requested (trace (snd run))
     = ["https://data.sec.gov/api/xbrl/companyfacts/CIK0000320193.json";
        "https://data.sec.gov/api/xbrl/companyfacts/CIK0000066740.json"].
Proof. repeat split; reflexivity. Qed.

(** A second run on the same day finds the file of the first company
    and leaves it out of both lists. *)
Example download_facts_for_companies_again :
  let w1 := snd (download_facts_for_companies constants (libraries facts_pages)
                   xbrl_constants runtime client ["aapl"] true empty_world) in
  fst (download_facts_for_companies constants (libraries facts_pages) xbrl_constants
         runtime client ["aapl"] true w1)
  = Return ([], [])
  /\ fst (download_facts_for_companies constants (libraries facts_pages) xbrl_constants
            runtime client ["aapl"] false w1)
     = Return ([Some "AAPL"], []).
Proof. split; reflexivity. Qed.

(** No request for filings is ever made: the forms of the known company
    are reported as skipped, the unknown identifier is only logged. *)
Example download_forms_for_companies_ex :
  let run := download_forms_for_companies constants (libraries filing_pages) client
               ["AAPL"; "ZZZZ"] ["10-K"; "10-Q"] (Some 1) None None false true
               empty_world in
  fst run = Return ([], ["AAPL-10-K"; "AAPL-10-Q"])
  /\ requested (trace (snd run)) = []
  /\ files (snd run) = [].
Proof. repeat split; reflexivity. Qed.

(** ** X15 *)


(** A member that is not a facts document is logged and the run goes
    on. *)
Example parse_all_facts_bad_member :
  let z := mkZipArchive "all_companies_facts-2026-11-03.zip"
             [("CIK0000000001.json", Some (JArr [])); ("CIK0000000002.json", None)] in
  let run := parse_all_facts_in_latest_zip constants (libraries []) client z 1 empty_world in
  fst run = Return tt
  /\ trace (snd run)
     = [LogExn "error" "Error parsing CIK0000000001.json" TypeError;
        LogExn "error" "Error parsing CIK0000000002.json" JSONDecodeError]
  /\ files (snd run) = [].
Proof. repeat split; reflexivity. Qed.

(** ** X16 *)

(** The raw member is handed back; asked for the table, the function
    prints it and exits; a company that is not in the archive gives
    [None]. *)
Example query_fact_from_zip_ex :
  (exists j, fst (query_fact_from_zip constants (libraries []) runtime client (JStr "aapl")
                                      facts_zip true empty_world) = Return (RawJson j))
  /\ query_fact_from_zip constants (libraries []) runtime client (JStr "aapl")
                         facts_zip false empty_world
     = (Raise SystemExit,
        mkworld [Log "info" "Latest zip file found: all_companies_facts-2026-11-03.zip with updated date 2026-11-03";
                 Log "info" "Parsing Apple Inc. facts";
                 Log "print" "<frame>"] [])
  /\ fst (query_fact_from_zip constants (libraries []) runtime client (JStr "MMM")
                              facts_zip false empty_world)
     = Return NoResult.
Proof. split; [eexists; reflexivity|]. split; reflexivity. Qed.

(** ** X17 *)

(** The documents are asked of [www.sec.gov]; headers given with the
    call win over the session's, whatever the case of their names, and
    then the host override is not applied. *)
Example rate_limited_get_headers_ex :
  trace (snd (_rate_limited_get (libraries []) client "https://www.sec.gov/x"
                                None (Some "www.sec.gov") empty_world))
  = [Request "https://www.sec.gov/x"
             [("User-Agent", "Sample Company admin@sample.com");
              ("Accept-Encoding", "gzip, deflate");
              ("Accept", "*/*"); ("Connection", "keep-alive");
              ("Host", "www.sec.gov")]]
  /\ trace (snd (_rate_limited_get (libraries []) client "https://www.sec.gov/x"
                                   (Some [("accept", "text/html"); ("host", "efts.sec.gov")])
                                   (Some "www.sec.gov") empty_world))
     = [Request "https://www.sec.gov/x"
                [("User-Agent", "Sample Company admin@sample.com");
                 ("Accept-Encoding", "gzip, deflate");
                 ("accept", "text/html"); ("Connection", "keep-alive");
                 ("host", "efts.sec.gov")]].
Proof. split; reflexivity. Qed.

(** ** X18, X19 and X20 *)


(** A folder given as a str is resolved; the client logs the headers of
    its session before it asks for the directory. *)
Example EdgarClient_init_str :
  let run := EdgarClient_init constants (libraries directory_pages) "Sample Company"
                              "admin@sample.com" (Some (OfStr "downloads")) empty_world in
  option_map (fun self => (fspath (parent_download_folder self),
                           fspath (facts_save_folder self),
                           fspath (forms_save_folder self)))
             (match fst run with Return self => Some self | Raise _ => None end)
  = Some ("/data/downloads", "/data/downloads/sec-edgar-facts",
          "/data/downloads/sec-edgar-filings")
  /\ trace (snd run)
     = [Log "debug" "self._session.headers = ";
        Request "https://www.sec.gov/files/company_tickers_exchange.json"
                [("User-Agent", "Sample Company admin@sample.com");
                 ("Accept-Encoding", "gzip, deflate");
                 ("Accept", "*/*"); ("Connection", "keep-alive");
                 ("Host", "www.sec.gov")]].
Proof. split; reflexivity. Qed.

(** A server that refuses a user agent that starts with a blank: the
    client of two empty arguments passes the test of the constructor
    and fails at the request. *)
Example EdgarClient_init_blank :
  let refusing :=
    mkLibraries iso_date
      (fun _ _ hs =>
         match ci_get "User-Agent" hs with
         | Some (String " " _) => SessionRaises (OtherRequestException "InvalidHeader")
         | _ => serve directory_pages [] "https://www.sec.gov/files/company_tickers_exchange.json" hs
         end)
      session_defaults (fun _ => EmptyString) (fun _ => Raise TypeError)
      (mkPath "/" ["data"]) (fun s => path_join (mkPath "/" ["data"]) s) in
  fst (EdgarClient_init constants refusing EmptyString EmptyString None empty_world)
  = Raise (Requests (OtherRequestException "InvalidHeader"))
  /\ fst (EdgarClient_init constants refusing "Sample Company" "admin@sample.com" None
                           empty_world)
     = Return client.
Proof. split; reflexivity. Qed.

(** An after date before the default goes through as it is. *)
Example get_valid_after_date_ex :
  get_valid_after_date constants (libraries []) (Some "1980-05-17")
                       (DEFAULT_AFTER_DATE constants)
  = Return (mkdate 1980 5 17)
  /\ date_ltb (mkdate 1980 5 17) (DEFAULT_AFTER_DATE constants) = true.
Proof. split; reflexivity. Qed.

(** ** X21 *)

Lemma parse_open_json_table_witness :
  well_formed facts_of_member
  /\ dict_get "CIK0000320193.json" (members facts_zip)
     = Some (Some (member_json (JInt 320193) "Apple Inc." facts_of_member))
  /\ dict_has "/data/sec-edgar-facts/AAPL_facts-2026-11-03.pkl" (files empty_world) = false
  /\ exists df,
       fst (_parse_open_json constants (libraries [])
              ("CIK0000320193.json", facts_zip, ticker_to_cik_mapping client,
               cik_to_ticker_mapping client, facts_save_folder client) empty_world)
       = Return tt
       /\ dict_get "/data/sec-edgar-facts/AAPL_facts-2026-11-03.pkl"
            (files (snd (_parse_open_json constants (libraries [])
                           ("CIK0000320193.json", facts_zip, ticker_to_cik_mapping client,
                            cik_to_ticker_mapping client, facts_save_folder client)
                           empty_world)))
          = Some (Pickle df)
       /\ forall tax tag unit rows c,
            In (tax, tag, unit, rows) (groups facts_of_member) ->
            (exists row, In row rows /\ dict_has c row = true) ->
            In ((tax, unit, tag, c), pad_column (nrows df) (map (dict_get c) rows))
               (columns df).
Proof.
  assert (Hwf : well_formed facts_of_member).
  { unfold well_formed, facts_of_member. split.
    - repeat constructor. simpl. tauto.
    - intros tx [<-|[]]. split.
      + repeat constructor. simpl. tauto.
      + intros tg [<-|[]]. repeat constructor. simpl. tauto. }
  split; [exact Hwf|]. split; [reflexivity|]. split; [reflexivity|].
  apply (proj1 (parse_open_json_table constants (libraries []) "CIK0000320193.json" facts_zip
                  (ticker_to_cik_mapping client) (cik_to_ticker_mapping client)
                  (facts_save_folder client) (JInt 320193) "Apple Inc." facts_of_member
                  "/data/sec-edgar-facts/AAPL_facts-2026-11-03.pkl" empty_world
                  Hwf ltac:(discriminate) eq_refl eq_refl eq_refl)).
Defined.

(** The same document, stored by the worker and parsed for a query: the
    values of [val] stand under (us-gaap, USD, NetIncomeLoss) in the one
    and under (us-gaap, NetIncomeLoss, USD) in the other. *)
Example stored_and_parsed_labels :
  (exists df,
     dict_get "/data/sec-edgar-facts/AAPL_facts-2026-11-03.pkl"
       (files (snd (parse_all_facts_in_latest_zip constants (libraries []) client facts_zip 2
                                                  empty_world)))
     = Some (Pickle df)
     /\ In (("us-gaap", "USD", "NetIncomeLoss", "val"), [Some (JInt 57411000000)])
           (columns df))
  /\ exists df',
       fst (parse_facts_json (libraries []) client
              (member_json (JInt 320193) "Apple Inc." facts_of_member) empty_world)
       = Return df'
       /\ In (("us-gaap", "NetIncomeLoss", "USD", "val"), [Some (JInt 57411000000)])
             (columns df').
Proof.
  split; eexists; (split; [vm_compute; reflexivity|]); vm_compute; tauto.
Qed.

(** ** X22 *)

(** Both archives land in the folder of the facts; the day is read back
    from the name of the file. *)
Example bulk_downloads_ex :
  let run1 := download_facts_of_all_companies_zip constants (libraries bulk_pages)
                xbrl_constants runtime client empty_world in
  let run2 := download_submissions_of_all_companies_zip constants (libraries bulk_pages)
                xbrl_constants runtime client (snd run1) in
  fst run1 = Return "/data/sec-edgar-facts/all_companies_facts-2026-11-03.zip"
  /\ fst run2 = Return "/data/sec-edgar-facts/all_companies_submissions-2026-11-03.zip"
  /\ dict_keys (files (snd run2))
     = ["/data/sec-edgar-facts/all_companies_facts-2026-11-03.zip";
        "/data/sec-edgar-facts/all_companies_submissions-2026-11-03.zip"]
  /\ search_date "all_companies_submissions-2026-11-03.zip" = Some "2026-11-03".
Proof. repeat split; reflexivity. Qed.

